(** * Fortune 500 dashboard: the loader and the aggregation pass

    A shallow embedding of [fortune500_streamlit_app.py].

    - A pandas [DataFrame] is a list of column names and a list of rows, each
      row carrying its index label and one cell per column.
    - A cell is a Python object: [str], [int], [float] or [bool].  pandas'
      missing value is the float [NaN].
    - Numbers are exact: a finite float is a rational ([Qc]), extended with
      the two infinities and [NaN]; an [int] is unbounded.  The rounding of
      binary64 and the wrap-around of int64 columns are not modelled; the
      statements name the operations the code performs and use no law of
      arithmetic that holds for exact numbers only.
    - A character is a code point below 256.
    - Frames are objects in a store and a variable holds a reference, so
      that an assignment to a column changes the object for every holder.
    - Exceptions, the store and the Streamlit output (what [st.write] and
      [st.error] show) are threaded through a small monad.
    - The sort behind [sort_values] is a parameter, known by what numpy
      promises of its default sort; numpy's quicksort is embedded beside
      it, for the order it gives to equal keys. *)

From Stdlib Require Import ZArith QArith Qcanon String Ascii List Bool Lia.
From Stdlib Require Import Permutation Sorted.
Import ListNotations.

Local Open Scope Z_scope.

(** ** Python strings *)

Module PyStr.

Definition chars (s : string) : list ascii := list_ascii_of_string s.
Definition of_chars (l : list ascii) : string := string_of_list_ascii l.

Definition code (c : ascii) : N := N_of_ascii c.

Definition is_digit (c : ascii) : bool :=
  (N.leb 48 (code c) && N.leb (code c) 57)%bool.

Definition digit_val (c : ascii) : Z := Z.of_N (code c) - 48.

(** The characters [float] and [int] skip around a number: the ASCII
    whitespace of [Py_ISSPACE], and the spaces above 127 (NEL, NBSP),
    which are turned into a blank first.  The separators 28 to 31 are
    left in place and make the conversion fail. *)
Definition is_space (c : ascii) : bool :=
  existsb (N.eqb (code c)) [9; 10; 11; 12; 13; 32; 133; 160]%N.

Definition lower (c : ascii) : ascii :=
  if (N.leb 65 (code c) && N.leb (code c) 90)%bool
  then ascii_of_N (code c + 32) else c.

Fixpoint drop_while (p : ascii -> bool) (l : list ascii) : list ascii :=
  match l with
  | c :: r => if p c then drop_while p r else l
  | [] => []
  end.

Fixpoint span (p : ascii -> bool) (l : list ascii) : list ascii * list ascii :=
  match l with
  | c :: r => if p c then let (a, b) := span p r in (c :: a, b) else ([], l)
  | [] => ([], [])
  end.

(** The text without the characters skipped at both ends. *)
Definition strip (l : list ascii) : list ascii :=
  rev (drop_while is_space (rev (drop_while is_space l))).

(** [s.replace(c, '')] for a one-character [c]. *)
Definition remove_char (c : ascii) (s : string) : string :=
  of_chars (filter (fun x => negb (Ascii.eqb x c)) (chars s)).

(** [sep.join(parts)] *)
Fixpoint join (sep : string) (parts : list string) : string :=
  match parts with
  | [] => EmptyString
  | [p] => p
  | p :: rest => (p ++ sep ++ join sep rest)%string
  end.

(** Value of a run of decimal digits, most significant first. *)
Definition digits_val (ds : list ascii) : Z :=
  fold_left (fun acc c => 10 * acc + digit_val c) ds 0.

(** A leading sign: [true] for a minus. *)
Definition split_sign (l : list ascii) : bool * list ascii :=
  match l with
  | "-"%char :: r => (true, r)
  | "+"%char :: r => (false, r)
  | _ => (false, l)
  end.

(** Underscores of a numeric literal: each must stand between two digits
    ([_Py_string_to_number_with_underscores]).  Returns the text without
    them, or [None] where Python rejects the literal. *)
Fixpoint drop_underscores (prev : option ascii) (l : list ascii)
  : option (list ascii) :=
  let prev_digit := match prev with Some p => is_digit p | None => false end in
  let prev_under :=
    match prev with Some p => Ascii.eqb p "_" | None => false end in
  match l with
  | [] => if prev_under then None else Some []
  | c :: r =>
      if Ascii.eqb c "_" then
        if prev_digit then drop_underscores (Some c) r else None
      else if (prev_under && negb (is_digit c))%bool then None
      else option_map (cons c) (drop_underscores (Some c) r)
  end.

End PyStr.

(** ** Python floats *)

Inductive pyfloat : Type :=
| Finite (q : Qc)
| PosInf
| NegInf
| NaN.

Module PyFloat.

Local Open Scope Qc_scope.

Definition of_Z (z : Z) : pyfloat := Finite (Q2Qc (inject_Z z)).

Definition zero : pyfloat := of_Z 0.

Definition is_nan (x : pyfloat) : bool :=
  match x with NaN => true | _ => false end.

Definition Qc_eqb (a b : Qc) : bool :=
  if Qc_eq_dec a b then true else false.

Definition Qc_ltb (a b : Qc) : bool :=
  match a ?= b with Lt => true | _ => false end.

(** [x == y] on floats: [NaN] equals nothing. *)
Definition eqb (x y : pyfloat) : bool :=
  match x, y with
  | Finite a, Finite b => Qc_eqb a b
  | PosInf, PosInf => true
  | NegInf, NegInf => true
  | _, _ => false
  end.

(** [x < y] on floats: false as soon as one side is [NaN]. *)
Definition ltb (x y : pyfloat) : bool :=
  match x, y with
  | NaN, _ | _, NaN => false
  | Finite a, Finite b => Qc_ltb a b
  | NegInf, NegInf => false
  | NegInf, _ => true
  | _, PosInf => match x with PosInf => false | _ => true end
  | _, _ => false
  end.

Definition is_zero (x : pyfloat) : bool := eqb x zero.

Definition neg (x : pyfloat) : pyfloat :=
  match x with
  | Finite a => Finite (- a)
  | PosInf => NegInf
  | NegInf => PosInf
  | NaN => NaN
  end.

(** Signed infinity with the sign of [s * a]. *)
Definition inf_of_sign (neg_inf : bool) (a : Qc) : pyfloat :=
  if Qc_eqb a 0 then NaN
  else if xorb neg_inf (Qc_ltb a 0) then NegInf else PosInf.

Definition add (x y : pyfloat) : pyfloat :=
  match x, y with
  | NaN, _ | _, NaN => NaN
  | Finite a, Finite b => Finite (a + b)
  | PosInf, NegInf | NegInf, PosInf => NaN
  | PosInf, _ | _, PosInf => PosInf
  | NegInf, _ | _, NegInf => NegInf
  end.

Definition sub (x y : pyfloat) : pyfloat := add x (neg y).

Definition mul (x y : pyfloat) : pyfloat :=
  match x, y with
  | NaN, _ | _, NaN => NaN
  | Finite a, Finite b => Finite (a * b)
  | PosInf, Finite a | Finite a, PosInf => inf_of_sign false a
  | NegInf, Finite a | Finite a, NegInf => inf_of_sign true a
  | PosInf, PosInf | NegInf, NegInf => PosInf
  | PosInf, NegInf | NegInf, PosInf => NegInf
  end.

(** IEEE division.  A zero divisor gives the IEEE answer here; Python's
    [/] raises before reaching it (see [py_truediv]). *)
Definition div (x y : pyfloat) : pyfloat :=
  match x, y with
  | NaN, _ | _, NaN => NaN
  | Finite a, Finite b =>
      if Qc_eqb b 0 then inf_of_sign false a else Finite (a / b)
  | Finite _, (PosInf | NegInf) => zero
  | PosInf, Finite b => if Qc_ltb b 0 then NegInf else PosInf
  | NegInf, Finite b => if Qc_ltb b 0 then PosInf else NegInf
  | (PosInf | NegInf), (PosInf | NegInf) => NaN
  end.

(** [m * 10^e] as an exact rational. *)
Definition scale10 (m e : Z) : Qc :=
  match e with
  | Zneg p => Q2Qc (Qmake m (10 ^ p)%positive)
  | _ => Q2Qc (inject_Z (m * 10 ^ e))
  end.

End PyFloat.

(** ** Exceptions and the [float] and [int] constructors *)

Inductive exn : Type :=
| ValueError (msg : string)
| KeyError (key : string)
| TypeError (msg : string)
| ZeroDivisionError
| IndexError.

Module PyNum.

Import PyStr.

(** The decimal grammar of [_Py_dg_strtod]: digits with an optional point,
    at least one digit in all, and an exponent that counts only when it has
    digits.  The whole text must be used up. *)
Definition parse_decimal (l : list ascii) : option Qc :=
  let (ip, r1) := span is_digit l in
  let (fp, r2) :=
    match r1 with
    | "."%char :: r => span is_digit r
    | _ => ([], r1)
    end in
  match ip ++ fp with
  | [] => None
  | mant =>
      let (ex, r3) :=
        match r2 with
        | c :: r =>
            if Ascii.eqb (lower c) "e" then
              let (eneg, r') := split_sign r in
              let (ed, r'') := span is_digit r' in
              match ed with
              | [] => (0, r2)
              | _ => ((if eneg then - digits_val ed else digits_val ed), r'')
              end
            else (0, r2)
        | [] => (0, r2)
        end in
      match r3 with
      | [] => Some (PyFloat.scale10 (digits_val mant)
                      (ex - Z.of_nat (length fp)))
      | _ => None
      end
  end.

(** [_Py_parse_inf_or_nan], after the sign. *)
Definition parse_inf_or_nan (l : list ascii) : option pyfloat :=
  let w := of_chars (map lower l) in
  if String.eqb w "inf" then Some PosInf
  else if String.eqb w "infinity" then Some PosInf
  else if String.eqb w "nan" then Some NaN
  else None.

Definition float_from_string_inner (l : list ascii) : option pyfloat :=
  let (sneg, body) := split_sign l in
  let signed (x : pyfloat) := if sneg then PyFloat.neg x else x in
  match parse_decimal body with
  | Some q => Some (signed (Finite q))
  | None => option_map signed (parse_inf_or_nan body)
  end.

(** [float(s)] for a [str]: [None] stands for the [ValueError]. *)
Definition float_of_string (s : string) : option pyfloat :=
  match drop_underscores None (strip (chars s)) with
  | Some l => float_from_string_inner l
  | None => None
  end.

(** The digits of [int(s)]: one digit, then digits each preceded by at most
    one underscore. *)
Definition int_digits (l : list ascii) : option (list ascii) :=
  match l with
  | c :: _ => if is_digit c then drop_underscores None l else None
  | [] => None
  end.

(** [sys.get_int_max_str_digits()] of Python 3.11 and later. *)
Definition int_max_str_digits : nat := 4300.

(** [int(s)] for a [str], base 10: [None] stands for the [ValueError],
    which a text of more than 4300 digits raises too. *)
Definition int_of_string (s : string) : option Z :=
  let (sneg, body) := split_sign (strip (chars s)) in
  match int_digits body with
  | Some ds =>
      if (forallb is_digit ds
          && Nat.leb (length ds) int_max_str_digits)%bool
      then Some (if sneg then - digits_val ds else digits_val ds)
      else None
  | None => None
  end.

End PyNum.

(** ** Python objects held in a cell *)

Inductive value : Type :=
| VStr (s : string)
| VInt (z : Z)
| VFloat (f : pyfloat)
| VBool (b : bool).

Module Value.

(** [pd.isna(x)]: the missing value is the float [NaN]. *)
Definition isna (v : value) : bool :=
  match v with VFloat NaN => true | _ => false end.

(** The number a numeric object stands for. *)
Definition as_number (v : value) : option pyfloat :=
  match v with
  | VStr _ => None
  | VInt z => Some (PyFloat.of_Z z)
  | VFloat f => Some f
  | VBool b => Some (PyFloat.of_Z (if b then 1 else 0))
  end.

Definition is_number (v : value) : bool :=
  match v with VStr _ => false | _ => true end.

(** [x == y]: strings by their text, numbers by their value, and a string
    never equals a number. *)
Definition eqb (x y : value) : bool :=
  match x, y with
  | VStr a, VStr b => String.eqb a b
  | VStr _, _ | _, VStr _ => false
  | _, _ =>
      match as_number x, as_number y with
      | Some a, Some b => PyFloat.eqb a b
      | _, _ => false
      end
  end.

(** [x != 0] *)
Definition ne_zero (x : value) : bool := negb (eqb x (VInt 0)).

End Value.

(** ** Data frames *)

(** A row keeps its index label (its position in the parsed file) through
    filtering and sorting. *)
Definition row : Type := (nat * list value)%type.

Record DataFrame : Type := mkFrame {
  columns : list string;
  rows : list row
}.

(** A [Series]: the cells of one column with their index labels. *)
Definition Series : Type := list (nat * value).

Module Frame.

Local Open Scope nat_scope.

(** [pd.DataFrame()] *)
Definition empty_frame : DataFrame := mkFrame [] [].

(** [df.empty]: one of the two axes has length 0. *)
Definition empty (df : DataFrame) : bool :=
  match columns df, rows df with
  | [], _ | _, [] => true
  | _, _ => false
  end.

Fixpoint col_index (cols : list string) (c : string) : option nat :=
  match cols with
  | [] => None
  | x :: r => if String.eqb x c then Some 0 else option_map S (col_index r c)
  end.

Definition has_column (df : DataFrame) (c : string) : bool :=
  match col_index (columns df) c with Some _ => true | None => false end.

(** A cell by position; a row shorter than the header reads as missing,
    which is how [read_csv] fills it. *)
Definition cell_at (i : nat) (r : row) : value := nth i (snd r) (VFloat NaN).

(** [row[c]] *)
Definition cell (cols : list string) (r : row) (c : string) : option value :=
  option_map (fun i => cell_at i r) (col_index cols c).

Fixpoint replace_nth (i : nat) (v : value) (l : list value) : list value :=
  match i, l with
  | _, [] => []
  | O, _ :: t => v :: t
  | S j, x :: t => x :: replace_nth j v t
  end.

(** [df.dropna(subset=cs)]: a new frame without the rows that miss one of
    the columns [cs]. *)
Definition dropna (subset : list string) (df : DataFrame) : DataFrame :=
  mkFrame (columns df)
    (filter (fun r =>
       forallb (fun c =>
         match cell (columns df) r c with
         | Some v => negb (Value.isna v)
         | None => true
         end) subset) (rows df)).

(** [df[c]] read as a Series. *)
Definition column (df : DataFrame) (c : string) : option Series :=
  option_map (fun i => map (fun r => (fst r, cell_at i r)) (rows df))
    (col_index (columns df) c).

(** [df[c] = s]: the Series comes from the same frame, so its labels are
    the frame's, in order, and the cells are paired by position.  A new
    name is appended as the last column. *)
Definition set_column (df : DataFrame) (c : string) (s : list value)
  : DataFrame :=
  match col_index (columns df) c with
  | Some i =>
      mkFrame (columns df)
        (map (fun rv => (fst (fst rv), replace_nth i (snd rv) (snd (fst rv))))
           (combine (rows df) s))
  | None =>
      mkFrame (columns df ++ [c])
        (map (fun rv => (fst (fst rv), snd (fst rv) ++ [snd rv]))
           (combine (rows df) s))
  end.

(** [df[[c1, ..., cn]]]: a new frame with these columns; [None] when one of
    them is absent (a [KeyError]). *)
Fixpoint indices (cols : list string) (cs : list string) : option (list nat) :=
  match cs with
  | [] => Some []
  | c :: r =>
      match col_index cols c, indices cols r with
      | Some i, Some l => Some (i :: l)
      | _, _ => None
      end
  end.

Definition select (df : DataFrame) (cs : list string) : option DataFrame :=
  option_map (fun ixs =>
    mkFrame cs
      (map (fun r => (fst r, map (fun i => cell_at i r) ixs)) (rows df)))
    (indices (columns df) cs).

(** [df.head(n)] *)
Definition head (n : nat) (df : DataFrame) : DataFrame :=
  mkFrame (columns df) (firstn n (rows df)).

(** [df.take(indexer)]: the rows at the given positions, in that order. *)
Definition take (indexer : list nat) (df : DataFrame) : DataFrame :=
  mkFrame (columns df)
    (flat_map (fun i => match nth_error (rows df) i with
                        | Some r => [r]
                        | None => []
                        end) indexer).

End Frame.

(** ** The interpreter state: objects and the page *)

(** What [st.write] is given.  An f-string with formatted numbers is kept
    as its template and its arguments. *)
Inductive shown : Type :=
| Text (s : string)
| Fmt (template : string) (args : list value)
| Index (cols : list string)
| Table (df : DataFrame).

Inductive ui_event : Type :=
| UiError (msg : string)
| UiWrite (x : shown)
| UiChart (kind : string) (title : shown) (data : DataFrame)
| UiMap (data : DataFrame).

(** A reference to a frame object. *)
Definition ref : Type := nat.

Record world : Type := mkWorld {
  heap : list DataFrame;
  page : list ui_event
}.

Inductive result (A : Type) : Type :=
| Ret (a : A)
| Raise (e : exn).
Arguments Ret {A} a.
Arguments Raise {A} e.

Definition App (A : Type) : Type := world -> result A * world.

Definition ret {A} (a : A) : App A := fun w => (Ret a, w).

Definition raise {A} (e : exn) : App A := fun w => (Raise e, w).

Definition bind {A B} (m : App A) (k : A -> App B) : App B :=
  fun w =>
    match m w with
    | (Ret a, w') => k a w'
    | (Raise e, w') => (Raise e, w')
    end.

Declare Scope app_scope.
Delimit Scope app_scope with app.
Notation "x <- m ;; k" := (bind m (fun x => k))
  (at level 61, m at next level, right associativity) : app_scope.
Notation "m ;; k" := (bind m (fun _ => k))
  (at level 61, right associativity) : app_scope.
Local Open Scope app_scope.

(** An optional result, with the exception that its absence stands for. *)
Definition or_raise {A} (e : exn) (o : option A) : App A :=
  match o with Some a => ret a | None => raise e end.

Definition emit (e : ui_event) : App unit :=
  fun w => (Ret tt, mkWorld (heap w) (page w ++ [e])).

Definition st_error (msg : string) : App unit := emit (UiError msg).
Definition st_write (x : shown) : App unit := emit (UiWrite x).
Definition st_plotly_chart (kind : string) (title : shown) (data : DataFrame)
  : App unit :=
  emit (UiChart kind title data).
Definition st_map (data : DataFrame) : App unit := emit (UiMap data).

(** A new frame object. *)
Definition new_frame (df : DataFrame) : App ref :=
  fun w => (Ret (length (heap w)), mkWorld (heap w ++ [df]) (page w)).

Definition lookup (r : ref) (w : world) : DataFrame :=
  nth r (heap w) Frame.empty_frame.

Definition read_frame (r : ref) : App DataFrame :=
  fun w => (Ret (lookup r w), w).

Fixpoint replace_frame (r : ref) (df : DataFrame) (h : list DataFrame)
  : list DataFrame :=
  match r, h with
  | _, [] => []
  | O, _ :: t => df :: t
  | S j, x :: t => x :: replace_frame j df t
  end.

(** In-place update of the object behind a reference. *)
Definition write_frame (r : ref) (df : DataFrame) : App unit :=
  fun w => (Ret tt, mkWorld (replace_frame r df (heap w)) (page w)).

(** [df[c]] *)
Definition getitem (df : ref) (c : string) : App Series :=
  d <- read_frame df ;; or_raise (KeyError c) (Frame.column d c).

(** [df[c] = s] *)
Definition setitem (df : ref) (c : string) (s : Series) : App unit :=
  d <- read_frame df ;; write_frame df (Frame.set_column d c (map snd s)).

(** [s.apply(f)]: [f] on each cell in turn; the first exception ends it. *)
Fixpoint apply (f : value -> result value) (s : Series) : result Series :=
  match s with
  | [] => Ret []
  | (i, v) :: t =>
      match f v with
      | Raise e => Raise e
      | Ret v' =>
          match apply f t with
          | Raise e => Raise e
          | Ret t' => Ret ((i, v') :: t')
          end
      end
  end.

Definition lift {A} (r : result A) : App A := fun w => (r, w).

(** [try: ... except Exception as e: ...]: the outcome of [m], caught. *)
Definition try {A} (m : App A) : App (result A) :=
  fun w => let (r, w') := m w in (Ret r, w').

(** [str(e)] *)
Definition str_of_exn (e : exn) : string :=
  match e with
  | ValueError m => m
  | KeyError k => k
  | TypeError m => m
  | ZeroDivisionError => "division by zero"
  | IndexError => "single positional indexer is out-of-bounds"
  end.

(** ** The loader: [load_data] *)

(** What [pd.read_csv] makes of the uploaded file: it raises, or it returns
    the parsed frame.  Text cells are [VStr], cells of a column read as
    numbers are [VInt] or [VFloat], and an empty cell is [NaN]. *)
Inductive uploaded_file : Type :=
| Unreadable (e : exn)
| Readable (parsed : DataFrame).

Definition read_csv (f : uploaded_file) : App ref :=
  match f with
  | Unreadable e => raise e
  | Readable parsed => new_frame parsed
  end.

Definition required_columns : list string :=
  ["REVENUES"; "PROFIT"; "EMPLOYEES"; "NAME"; "STATE"; "COUNTY"]%string.

(** [[col for col in required_columns if col not in df.columns]] *)
Definition missing_columns (df : DataFrame) : list string :=
  filter (fun col => negb (Frame.has_column df col)) required_columns.

(** [lambda x: float(str(x).replace('$', '').replace(',', ''))
             if isinstance(x, str) else x] *)
Definition clean_money (x : value) : result value :=
  match x with
  | VStr s =>
      let t := PyStr.remove_char "," (PyStr.remove_char "$" s) in
      match PyNum.float_of_string t with
      | Some f => Ret (VFloat f)
      | None =>
          Raise (ValueError ("could not convert string to float: '" ++ t
                             ++ "'"))
      end
  | _ => Ret x
  end.

(** [lambda x: int(str(x).replace(',', '')) if isinstance(x, str) else x].
    The text of the error is the one of a literal that cannot be read; for
    a literal over the digit limit Python words its [ValueError]
    otherwise. *)
Definition clean_count (x : value) : result value :=
  match x with
  | VStr s =>
      let t := PyStr.remove_char "," s in
      match PyNum.int_of_string t with
      | Some z => Ret (VInt z)
      | None =>
          Raise (ValueError ("invalid literal for int() with base 10: '" ++ t
                             ++ "'"))
      end
  | _ => Ret x
  end.

(** [df[c] = df[c].apply(f)] *)
Definition clean_column (df : ref) (c : string) (f : value -> result value)
  : App unit :=
  s <- getitem df c ;;
  s' <- lift (apply f s) ;;
  setitem df c s'.

Definition load_data (file : uploaded_file) : App ref :=
  r <- try (read_csv file) ;;
  match r with
  | Raise e =>
      st_error ("Error reading file: " ++ str_of_exn e) ;;
      new_frame Frame.empty_frame
  | Ret df =>
      st_write (Text "### Columns in the uploaded dataset:") ;;
      d <- read_frame df ;;
      st_write (Index (columns d)) ;;
      let missing := missing_columns d in
      match missing with
      | _ :: _ =>
          st_error ("Missing columns in the uploaded data: "
                    ++ PyStr.join ", " missing) ;;
          ret df
      | [] =>
          df <- new_frame
                  (Frame.dropna ["REVENUES"; "PROFIT"; "EMPLOYEES"]%string d) ;;
          clean_column df "REVENUES" clean_money ;;
          clean_column df "PROFIT" clean_money ;;
          clean_column df "EMPLOYEES" clean_count ;;
          ret df
      end
  end.

Definition init : world := mkWorld [] [].

(** ** Series and group-by arithmetic *)

Module Agg.

(** The numbers of a numeric Series.  On the frames the loader returns the
    three cleaned columns hold numbers only; what pandas makes of text in
    a sum, a mean or a sort is not modelled, and a [str] cell ends the
    computation with a [TypeError]. *)
Fixpoint numbers (l : list value) : option (list pyfloat) :=
  match l with
  | [] => Some []
  | v :: t =>
      match Value.as_number v, numbers t with
      | Some x, Some r => Some (x :: r)
      | _, _ => None
      end
  end.

(** The plain sum of a list of floats. *)
Definition fsum (l : list pyfloat) : pyfloat :=
  fold_right PyFloat.add PyFloat.zero l.

Definition not_nan (x : pyfloat) : bool := negb (PyFloat.is_nan x).

(** [s.sum()]: missing values are skipped. *)
Definition nansum (l : list pyfloat) : pyfloat := fsum (filter not_nan l).

(** [s.mean()]: the mean of the values that are not missing, [NaN] when
    there is none. *)
Definition mean (l : list pyfloat) : pyfloat :=
  match length (filter not_nan l) with
  | O => NaN
  | n => PyFloat.div (nansum l) (PyFloat.of_Z (Z.of_nat n))
  end.

(** Two cells are the same group key. *)
Definition same_key (a b : value) : bool :=
  (Value.eqb a b || (Value.isna a && Value.isna b))%bool.

(** [s.unique()]: the distinct cells in order of first appearance, the
    missing value among them. *)
Definition unique (l : list value) : list value :=
  fold_left (fun seen v => if existsb (same_key v) seen then seen
                           else seen ++ [v]) l [].

(** Append [x] to the group of key [k], opening the group if it is new. *)
Fixpoint add_to_group {A} (k : value) (x : A) (g : list (value * list A))
  : list (value * list A) :=
  match g with
  | [] => [(k, [x])]
  | (k', xs) :: g' =>
      if Value.eqb k k' then (k', xs ++ [x]) :: g'
      else (k', xs) :: add_to_group k x g'
  end.

(** [groupby(key)]: the rows with a missing key belong to no group.  pandas
    hands the groups back sorted by key; the groups are kept here in order
    of first appearance, which a [dict] of them does not depend on. *)
Definition groups {A} (l : list (value * A)) : list (value * list A) :=
  fold_left (fun g kx => if Value.isna (fst kx) then g
                         else add_to_group (fst kx) (snd kx) g) l [].

(** [df.groupby(key)[col].agg(f)] as the list of its items. *)
Definition groupby (f : list pyfloat -> pyfloat) (df : DataFrame)
  (key col : string) : result (list (value * pyfloat)) :=
  match Frame.column df key, Frame.column df col with
  | None, _ => Raise (KeyError key)
  | _, None => Raise (KeyError col)
  | Some ks, Some vs =>
      match numbers (map snd vs) with
      | None => Raise (TypeError "unsupported operand type(s)")
      | Some xs =>
          Ret (map (fun g => (fst g, f (snd g)))
                 (groups (combine (map snd ks) xs)))
      end
  end.

(** A frame with a fresh [RangeIndex] from two-cell rows. *)
Definition frame_of_items (c1 c2 : string) (items : list (value * value))
  : DataFrame :=
  mkFrame [c1; c2]
    (combine (seq 0 (length items)) (map (fun kv => [fst kv; snd kv]) items)).

Definition float_items (l : list (value * pyfloat)) : list (value * value) :=
  map (fun kv => (fst kv, VFloat (snd kv))) l.

(** Forward fill: a missing value takes the last value before it. *)
Fixpoint ffill (last : pyfloat) (l : list pyfloat) : list pyfloat :=
  match l with
  | [] => []
  | x :: t => if PyFloat.is_nan x then last :: ffill last t
              else x :: ffill x t
  end.

Fixpoint ratios (prev : pyfloat) (l : list pyfloat) : list pyfloat :=
  match l with
  | [] => []
  | x :: t =>
      PyFloat.sub (PyFloat.div x prev) (PyFloat.of_Z 1) :: ratios x t
  end.

(** [s.pct_change()]: the change from the row before, in the order of the
    rows, after a forward fill; the arithmetic is numpy's, which does not
    raise. *)
Definition pct_change (l : list pyfloat) : list pyfloat :=
  match ffill NaN l with
  | [] => []
  | x :: t => NaN :: ratios x t
  end.

End Agg.

(** ** Python arithmetic on cells *)

Definition rbind {A B} (r : result A) (k : A -> result B) : result B :=
  match r with
  | Ret a => k a
  | Raise e => Raise e
  end.

Definition of_option {A} (e : exn) (o : option A) : result A :=
  match o with Some a => Ret a | None => Raise e end.

(** [a / b] on Python numbers: a zero divisor raises. *)
Definition py_truediv (a b : value) : result value :=
  match Value.as_number a, Value.as_number b with
  | Some x, Some y =>
      if PyFloat.is_zero y then Raise ZeroDivisionError
      else Ret (VFloat (PyFloat.div x y))
  | _, _ => Raise (TypeError "unsupported operand type(s) for /")
  end.

(** [a * b] on Python numbers. *)
Definition py_mul (a b : value) : result value :=
  match Value.as_number a, Value.as_number b with
  | Some x, Some y => Ret (VFloat (PyFloat.mul x y))
  | _, _ => Raise (TypeError "unsupported operand type(s) for *")
  end.

(** [lambda row: row['PROFIT'] / row['REVENUES'] * 100
                 if row['REVENUES'] != 0 else 0] *)
Definition profit_margin (cols : list string) (r : row) : result value :=
  rbind (of_option (KeyError "REVENUES") (Frame.cell cols r "REVENUES"))
    (fun revenues =>
       if Value.ne_zero revenues then
         rbind (of_option (KeyError "PROFIT") (Frame.cell cols r "PROFIT"))
           (fun profit =>
              rbind (py_truediv profit revenues)
                (fun q => py_mul q (VInt 100)))
       else Ret (VInt 0)).

(** [df.apply(f, axis=1)]: [f] on each row in turn.  On a frame without
    rows nothing is computed and the result is an empty Series. *)
Fixpoint apply_rows (f : row -> result value) (rs : list row) : result Series :=
  match rs with
  | [] => Ret []
  | r :: t =>
      rbind (f r) (fun v =>
      rbind (apply_rows f t) (fun t' => Ret ((fst r, v) :: t')))
  end.

(** ** Sorting *)

(** [sort_values] is called without [kind], so numpy's default argsort
    orders the keys.  It is known by its contract only: on keys that are
    not missing it returns the positions [0 .. n-1], each once, with the
    keys in ascending order.  How it orders equal keys is not part of the
    contract. *)
Definition ascending (keys : list pyfloat) (i j : nat) : Prop :=
  PyFloat.ltb (nth j keys NaN) (nth i keys NaN) = false.

Definition argsort_contract (argsort : list pyfloat -> list nat) : Prop :=
  forall keys,
    Forall (fun x => PyFloat.is_nan x = false) keys ->
    Permutation (argsort keys) (seq 0 (length keys)) /\
    StronglySorted (ascending keys) (argsort keys).

Section Dashboard.

Variable argsort : list pyfloat -> list nat.

(** pandas' [nargsort(items, ascending=False, na_position='last')]: the
    keys that are not missing are reversed, sorted ascending and reversed
    again; the positions of the missing keys follow, in order. *)
Definition nargsort (items : list pyfloat) : list nat :=
  let tagged := combine (seq 0 (length items)) items in
  let present := filter (fun p => Agg.not_nan (snd p)) tagged in
  let nan_idx :=
    map fst (filter (fun p => PyFloat.is_nan (snd p)) tagged) in
  let non_nans := rev (map snd present) in
  let non_nan_idx := rev (map fst present) in
  let indexer :=
    rev (map (fun i => nth i non_nan_idx O) (argsort non_nans)) in
  indexer ++ nan_idx.

(** [df.sort_values(by=c, ascending=False)] on a numeric column. *)
Definition sort_values (df : DataFrame) (by_ : string) : result DataFrame :=
  rbind (of_option (KeyError by_) (Frame.column df by_)) (fun s =>
  rbind (of_option (TypeError "'<' not supported") (Agg.numbers (map snd s)))
    (fun items => Ret (Frame.take (nargsort items) df))).

(** ** The queries *)

(** [dict(df.groupby('STATE')['REVENUES'].sum())] *)
Definition state_revenue_dict (df : DataFrame)
  : result (list (value * pyfloat)) :=
  Agg.groupby Agg.nansum df "STATE" "REVENUES".

(** [df[['NAME', 'REVENUES']].sort_values(by='REVENUES', ascending=False)
      .head(top_x)] *)
Definition top_companies (df : DataFrame) (top_x : nat) : result DataFrame :=
  rbind (of_option (KeyError "['NAME', 'REVENUES']")
           (Frame.select df ["NAME"; "REVENUES"]%string)) (fun sub =>
  rbind (sort_values sub "REVENUES") (fun sorted =>
  Ret (Frame.head top_x sorted))).

(** [s.sum()] and [s.mean()] of a column. *)
Definition column_agg (f : list pyfloat -> pyfloat) (df : DataFrame)
  (c : string) : result pyfloat :=
  rbind (of_option (KeyError c) (Frame.column df c)) (fun s =>
  rbind (of_option (TypeError "unsupported operand type(s)")
           (Agg.numbers (map snd s))) (fun xs => Ret (f xs))).

(** [top_companies['REVENUES'].sum()] *)
Definition total_revenue (top : DataFrame) : result pyfloat :=
  column_agg Agg.nansum top "REVENUES".

(** [df.pivot_table(values='REVENUES', index='STATE', aggfunc='mean')
      .reset_index()]: a group whose mean is missing is dropped. *)
Definition pivot_table (df : DataFrame) : result DataFrame :=
  rbind (Agg.groupby Agg.mean df "STATE" "REVENUES") (fun means =>
  Ret (Agg.frame_of_items "STATE" "REVENUES"
         (Agg.float_items
            (filter (fun kv => Agg.not_nan (snd kv)) means)))).

(** [df[df['STATE'] == state]]: a new frame with the rows of that state. *)
Definition state_data (df : DataFrame) (state : value) : result DataFrame :=
  rbind (of_option (KeyError "STATE") (Frame.col_index (columns df) "STATE"))
    (fun i => Ret (mkFrame (columns df)
                     (filter (fun r => Value.eqb (Frame.cell_at i r) state)
                        (rows df)))).

(** The Series assigned to [state_data['PROFIT_MARGIN']]. *)
Definition profit_margins (sd : DataFrame) : result Series :=
  apply_rows (profit_margin (columns sd)) (rows sd).

(** [state_data['PROFIT_MARGIN'].mean()] *)
Definition avg_profit_margin (sd : DataFrame) : result pyfloat :=
  column_agg Agg.mean sd "PROFIT_MARGIN".

(** [state_data['EMPLOYEES'].mean()] *)
Definition avg_employees (sd : DataFrame) : result pyfloat :=
  column_agg Agg.mean sd "EMPLOYEES".

(** [s.pct_change().mean() * 100] of the revenue column. *)
Definition avg_growth (df : DataFrame) : result pyfloat :=
  column_agg (fun xs => PyFloat.mul (Agg.mean (Agg.pct_change xs))
                          (PyFloat.of_Z 100)) df "REVENUES".

(** [df['COUNTY'].value_counts().reset_index()]: the number of rows of each
    county, largest first. *)
Definition county_company_count (df : DataFrame) : result DataFrame :=
  rbind (of_option (KeyError "COUNTY") (Frame.column df "COUNTY")) (fun s =>
  let counts :=
    map (fun g => (fst g, VInt (Z.of_nat (length (snd g)))))
      (Agg.groups (map (fun kv => (snd kv, tt)) s)) in
  rbind (sort_values (Agg.frame_of_items "COUNTY" "count" counts) "count")
    (fun sorted =>
       Ret (mkFrame (columns sorted)
              (combine (seq 0 (length (rows sorted)))
                 (map snd (rows sorted)))))).

(** [df[['COUNTY', 'EMPLOYEES']].groupby('COUNTY').sum().reset_index()] *)
Definition county_data (df : DataFrame) : result DataFrame :=
  rbind (of_option (KeyError "['COUNTY', 'EMPLOYEES']")
           (Frame.select df ["COUNTY"; "EMPLOYEES"]%string)) (fun sub =>
  rbind (Agg.groupby Agg.nansum sub "COUNTY" "EMPLOYEES") (fun sums =>
  Ret (Agg.frame_of_items "COUNTY" "EMPLOYEES" (Agg.float_items sums)))).

(** [top[c].iloc[0]] *)
Definition iloc0 (df : DataFrame) (c : string) : result value :=
  rbind (of_option (KeyError c) (Frame.column df c)) (fun s =>
  match s with
  | [] => Raise IndexError
  | (_, v) :: _ => Ret v
  end).

(** ** The page: one run of the script *)

(** What the user has set on the widgets: the value of the slider, an
    integer between 1 and 50, and the state selected in the select box. *)
Record widgets : Type := mkWidgets {
  slider : nat;
  selected : value
}.

(** [st.selectbox(label, options)]: the selected option, the first option
    when the selection is not among them.  Without options Streamlit
    returns [None], which equals no cell; the missing value stands for it. *)
Definition selectbox (w : widgets) (options : list value) : value :=
  match options with
  | [] => VFloat NaN
  | first :: _ =>
      if existsb (Agg.same_key (selected w)) options then selected w
      else first
  end.

Definition vnat (n : nat) : value := VInt (Z.of_nat n).

(** The [else] branch of the script, on the frame object [df]. *)
Definition dashboard (df : ref) (w : widgets) : App unit :=
  d <- read_frame df ;;
  revenue_dict <- lift (state_revenue_dict d) ;;
  state_revenue_df <-
    new_frame (Agg.frame_of_items "STATE" "TOTAL_REVENUE"
                 (Agg.float_items revenue_dict)) ;;
  st_write (Text "### Total Revenue by State:") ;;
  t <- read_frame state_revenue_df ;;
  st_write (Table t) ;;
  let top_x := slider w in
  d <- read_frame df ;;
  top <- lift (top_companies d top_x) ;;
  top_ref <- new_frame top ;;
  t <- read_frame top_ref ;;
  total <- lift (total_revenue t) ;;
  st_write (Fmt "### Total Revenue of the Top {} Companies: ${:,.2f}"
              [vnat top_x; VFloat total]) ;;
  t <- read_frame top_ref ;;
  st_plotly_chart "bar" (Fmt "Top {} Companies by Revenue" [vnat top_x]) t ;;
  d <- read_frame df ;;
  pivot <- lift (pivot_table d) ;;
  pivot_ref <- new_frame pivot ;;
  st_write (Text "### Average Revenue by State") ;;
  t <- read_frame pivot_ref ;;
  st_write (Table t) ;;
  states <- getitem df "STATE" ;;
  let options := Agg.unique (map snd states) in
  let state := selectbox w options in
  d <- read_frame df ;;
  sd <- lift (state_data d state) ;;
  state_ref <- new_frame sd ;;
  sd <- read_frame state_ref ;;
  margins <- lift (profit_margins sd) ;;
  setitem state_ref "PROFIT_MARGIN" margins ;;
  sd <- read_frame state_ref ;;
  margin <- lift (avg_profit_margin sd) ;;
  st_write (Fmt "### Average Profit Margin for Companies in {}: {:.2f}%"
              [state; VFloat margin]) ;;
  sd <- read_frame state_ref ;;
  st_plotly_chart "scatter" (Fmt "Profit Margins for Companies in {}" [state])
    sd ;;
  sd <- read_frame state_ref ;;
  employees <- lift (avg_employees sd) ;;
  st_write (Fmt "### Average Number of Employees for Companies in {}: {:,.0f}"
              [state; VFloat employees]) ;;
  sd <- read_frame state_ref ;;
  state_growth <- lift (avg_growth sd) ;;
  d <- read_frame df ;;
  national_growth <- lift (avg_growth d) ;;
  st_write (Fmt "### Revenue Growth in {} compared to the National Average"
              [state]) ;;
  st_write (Fmt "State Average Revenue Growth: {:.2f}%"
              [VFloat state_growth]) ;;
  st_write (Fmt "National Average Revenue Growth: {:.2f}%"
              [VFloat national_growth]) ;;
  st_write (Text "### Map of Fortune 500 Companies by Location") ;;
  d <- read_frame df ;;
  locations <-
    or_raise (KeyError "['LATITUDE', 'LONGITUDE'] not in index")
      (Frame.select d ["NAME"; "LATITUDE"; "LONGITUDE"]%string) ;;
  locations_ref <- new_frame locations ;;
  t <- read_frame locations_ref ;;
  st_map t ;;
  d <- read_frame df ;;
  counts <- lift (county_company_count d) ;;
  counts_ref <- new_frame counts ;;
  c <- read_frame counts_ref ;;
  write_frame counts_ref
    (mkFrame ["COUNTY"; "NUM_COMPANIES"]%string (rows c)) ;;
  c <- read_frame counts_ref ;;
  sorted <- lift (sort_values c "NUM_COMPANIES") ;;
  top_county <- new_frame (Frame.head 1 sorted) ;;
  t <- read_frame top_county ;;
  county <- lift (iloc0 t "COUNTY") ;;
  n <- lift (iloc0 t "NUM_COMPANIES") ;;
  st_write (Fmt "### County with the Most Fortune 500 Companies: {} (Companies: {})"
              [county; n]) ;;
  c <- read_frame counts_ref ;;
  st_plotly_chart "bar" (Text "Top Counties by Number of Companies") c ;;
  d <- read_frame df ;;
  by_county <- lift (county_data d) ;;
  county_ref <- new_frame by_county ;;
  c <- read_frame county_ref ;;
  sorted <- lift (sort_values c "EMPLOYEES") ;;
  top_county <- new_frame (Frame.head 1 sorted) ;;
  t <- read_frame top_county ;;
  county <- lift (iloc0 t "COUNTY") ;;
  n <- lift (iloc0 t "EMPLOYEES") ;;
  st_write (Fmt "### County with the Highest Total Employee Count Across All Fortune 500 Companies: {} (Employees: {:,})"
              [county; n]) ;;
  c <- read_frame county_ref ;;
  st_plotly_chart "bar" (Text "Top Counties by Total Employee Count") c.

(** One run of the script: [uploaded_file] is [None] until a file is
    uploaded. *)
Definition main (uploaded : option uploaded_file) (w : widgets) : App unit :=
  match uploaded with
  | None => ret tt
  | Some file =>
      df <- load_data file ;;
      d <- read_frame df ;;
      if Frame.empty d then
        st_error "No data to display due to missing columns or other issues."
      else dashboard df w
  end.

End Dashboard.

(** ** A sort that meets the contract *)

Module Sorts.

Fixpoint insert_by (before : nat -> nat -> bool) (i : nat) (l : list nat)
  : list nat :=
  match l with
  | [] => [i]
  | j :: t => if before i j then i :: l else j :: insert_by before i t
  end.

(** Insertion sort of the positions, from the last to the first; [before a
    b] decides whether a key [a] goes in front of a key [b] met later. *)
Definition argsort_by (before : pyfloat -> pyfloat -> bool)
  (keys : list pyfloat) : list nat :=
  fold_right
    (insert_by (fun i j => before (nth i keys NaN) (nth j keys NaN)))
    [] (seq 0 (length keys)).

(** Equal keys stay in their order. *)
Definition stable_argsort : list pyfloat -> list nat :=
  argsort_by (fun a b => negb (PyFloat.ltb b a)).

End Sorts.

(** ** numpy's quicksort

    [sort_values] passes [kind='quicksort'] on to [ndarray.argsort], which
    for an array of doubles runs [aquicksort_] of numpy's
    [npysort/quicksort.cpp]: partitions around the median of three while a
    part has more than 17 elements, an insertion sort of the parts, and a
    heap sort when the depth is used up.  This is numpy's portable
    routine; a build that hands the doubles to a vectorised sort (AVX-512,
    AVX2) does not run it, and that sort is not embedded. *)

Module Numpy.

Local Open Scope nat_scope.

(** [npy::double_tag::less]: a [NaN] sorts to the end. *)
Definition less (a b : pyfloat) : bool :=
  (PyFloat.ltb a b || (PyFloat.is_nan b && negb (PyFloat.is_nan a)))%bool.

Definition SMALL_QUICKSORT : nat := 16.

(** The index array [tosort]: read, write and [INTP_SWAP]. *)
Definition get (a : list nat) (i : nat) : nat := nth i a 0.

Fixpoint set (a : list nat) (i x : nat) : list nat :=
  match a, i with
  | [], _ => []
  | _ :: t, O => x :: t
  | y :: t, S j => y :: set t j x
  end.

Definition swap (a : list nat) (i j : nat) : list nat :=
  set (set a i (get a j)) j (get a i).

Section Keys.

Variable v : list pyfloat.

(** [v[*p]] *)
Definition key (a : list nat) (p : nat) : pyfloat := nth (get a p) v NaN.

(** [do ++pi; while (less(v[*pi], vp));] within the array. *)
Fixpoint scan_up (fuel : nat) (a : list nat) (vp : pyfloat) (pi : nat)
  : option nat :=
  match fuel with
  | O => None
  | S f =>
      if less (key a (S pi)) vp then scan_up f a vp (S pi) else Some (S pi)
  end.

(** [do --pj; while (less(vp, v[*pj]));] *)
Fixpoint scan_down (a : list nat) (vp : pyfloat) (pj : nat) : nat :=
  match pj with
  | O => O
  | S p => if less vp (key a p) then scan_down a vp p else p
  end.

(** The [for (;;)] loop of the partition: the array and [pi] at the
    [break]. *)
Fixpoint exchange (fuel : nat) (a : list nat) (vp : pyfloat) (pi pj : nat)
  : option (list nat * nat) :=
  match fuel with
  | O => None
  | S f =>
      match scan_up (length a) a vp pi with
      | None => None
      | Some pi' =>
          let pj' := scan_down a vp pj in
          if pj' <=? pi' then Some (a, pi')
          else exchange f (swap a pi' pj') vp pi' pj'
      end
  end.

(** One quicksort partition of [pl .. pr]: median of three, the pivot
    parked at [pr - 1], the exchanges, the pivot put in place at [pi]. *)
Definition partition (a : list nat) (pl pr : nat) : option (list nat * nat) :=
  let pm := pl + (pr - pl) / 2 in
  let a := if less (key a pm) (key a pl) then swap a pm pl else a in
  let a := if less (key a pr) (key a pm) then swap a pr pm else a in
  let a := if less (key a pm) (key a pl) then swap a pm pl else a in
  let vp := key a pm in
  let a := swap a pm (pr - 1) in
  match exchange (length a) a vp pl (pr - 1) with
  | None => None
  | Some (a, pi) => Some (swap a pi (pr - 1), pi)
  end.

(** [while (pj > pl && less(vp, v[*pk])) *pj-- = *pk--;] *)
Fixpoint shift (a : list nat) (vp : pyfloat) (pl pj : nat)
  : list nat * nat :=
  match pj with
  | O => (a, O)
  | S pk =>
      if ((pl <? pj) && less vp (key a pk))%bool
      then shift (set a pj (get a pk)) vp pl pk
      else (a, pj)
  end.

(** The insertion sort of [pl .. pr]. *)
Definition insert_at (pl : nat) (a : list nat) (pi : nat) : list nat :=
  let vi := get a pi in
  let (a', pj) := shift a (nth vi v NaN) pl pi in
  set a' pj vi.

Definition insertion (a : list nat) (pl pr : nat) : list nat :=
  fold_left (insert_at pl) (seq (S pl) (pr - pl)) a.

(** The state of the sort between two partitions: the array, the bounds,
    the stack of bounds put aside, the stack of depths and the depth
    left. *)
Record state : Type := mkState {
  arr : list nat;
  lo : nat;
  hi : nat;
  stack : list (nat * nat);
  depths : list Z;
  cdepth : Z
}.

(** [while ((pr - pl) > SMALL_QUICKSORT)]: partition, put the larger part
    aside and go on with the smaller one. *)
Fixpoint partitions (fuel : nat) (s : state) : option state :=
  match fuel with
  | O => None
  | S f =>
      if SMALL_QUICKSORT <? hi s - lo s then
        match partition (arr s) (lo s) (hi s) with
        | None => None
        | Some (a, pi) =>
            let d := (cdepth s - 1)%Z in
            if pi - lo s <? hi s - pi then
              partitions f (mkState a (lo s) (pi - 1)
                              ((S pi, hi s) :: stack s) (d :: depths s) d)
            else
              partitions f (mkState a (S pi) (hi s)
                              ((lo s, pi - 1) :: stack s) (d :: depths s) d)
        end
      else Some s
  end.

(** The outer loop.  When the depth is used up numpy sorts the part with a
    heap sort, which is not embedded: the result is [None] there. *)
Fixpoint sort_loop (fuel : nat) (s : state) : option (list nat) :=
  match fuel with
  | O => None
  | S f =>
      if (cdepth s <? 0)%Z then None
      else
        match partitions (length (arr s)) s with
        | None => None
        | Some s' =>
            let a := insertion (arr s') (lo s') (hi s') in
            match stack s', depths s' with
            | [], _ => Some a
            | (pl, pr) :: st, d :: ds =>
                sort_loop f (mkState a pl pr st ds d)
            | _ :: _, [] => None
            end
        end
  end.

End Keys.

(** [aquicksort_<npy::double_tag>(v, tosort, num)] on
    [tosort = 0 .. num-1]. *)
Definition aquicksort (v : list pyfloat) : option (list nat) :=
  let n := length v in
  sort_loop v (S n)
    (mkState (seq 0 n) 0 (n - 1) [] [] (2 * Z.log2 (Z.of_nat n))%Z).

(** [v.argsort(kind='quicksort')]; where the embedding has no answer (the
    heap sort) the positions are left as they are. *)
Definition argsort (v : list pyfloat) : list nat :=
  match aquicksort v with
  | Some a => a
  | None => seq 0 (length v)
  end.

End Numpy.


(** * Vocabulary of the statements *)

Local Open Scope string_scope.

(** The columns whose missing values [load_data] filters on. *)
Definition key_columns : list string := ["REVENUES"; "PROFIT"; "EMPLOYEES"].

(** [df[c] = df[c].apply(f)] as a function of the frame. *)
Definition cleaned_column (d : DataFrame) (c : string)
  (f : value -> result value) : result DataFrame :=
  rbind (of_option (KeyError c) (Frame.column d c)) (fun s =>
  rbind (apply f s) (fun s' => Ret (Frame.set_column d c (map snd s')))).

(** The three cleaning steps of [load_data], in order. *)
Definition clean_frame (d : DataFrame) : result DataFrame :=
  rbind (cleaned_column d "REVENUES" clean_money) (fun d1 =>
  rbind (cleaned_column d1 "PROFIT" clean_money) (fun d2 =>
  cleaned_column d2 "EMPLOYEES" clean_count)).

(** A cleaned Table: a frame that [load_data] returns for a parsed input
    with all the required columns. *)
Definition cleaned (df : DataFrame) : Prop :=
  exists parsed w r w',
    missing_columns parsed = [] /\
    load_data (Readable parsed) w = (Ret r, w') /\
    lookup r w' = df.

(** A revenue or profit cell [v] of the Table against the parsed cell
    [v0]: text becomes the float that [float] reads once ['$'] and [',']
    are removed, anything else is kept. *)
Definition money_field (v0 v : value) : Prop :=
  match v0 with
  | VStr s =>
      exists f,
        PyNum.float_of_string
          (PyStr.remove_char "," (PyStr.remove_char "$" s)) = Some f /\
        v = VFloat f
  | _ => v = v0 /\ Value.isna v0 = false
  end.

(** The same for the employee count, read by [int]. *)
Definition count_field (v0 v : value) : Prop :=
  match v0 with
  | VStr s =>
      exists z,
        PyNum.int_of_string (PyStr.remove_char "," s) = Some z /\
        v = VInt z
  | _ => v = v0 /\ Value.isna v0 = false
  end.

(** The field [c] of the parsed row [r0] and of the Table row [r]. *)
Definition field (rel : value -> value -> Prop) (cols : list string)
  (c : string) (r0 r : row) : Prop :=
  exists v0 v,
    Frame.cell cols r0 c = Some v0 /\ Frame.cell cols r c = Some v /\
    rel v0 v /\ Value.is_number v = true.

(** A row of the Table against the parsed row it comes from. *)
Definition clean_row (cols : list string) (r0 r : row) : Prop :=
  fst r = fst r0 /\
  field money_field cols "REVENUES" r0 r /\
  field money_field cols "PROFIT" r0 r /\
  field count_field cols "EMPLOYEES" r0 r /\
  (forall v, Frame.cell cols r "EMPLOYEES" = Some v -> Value.isna v = false).

(** Every cell of the column is a number. *)
Definition numeric_column (df : DataFrame) (c : string) : Prop :=
  exists i,
    Frame.col_index (columns df) c = Some i /\
    Forall (fun r => Value.is_number (Frame.cell_at i r) = true) (rows df).

(** One cleaning step on a row: the cell at position [i] is replaced by
    what [f] makes of it. *)
Definition cell_step (i : nat) (f : value -> result value) (r r' : row)
  : Prop :=
  fst r' = fst r /\
  exists v', f (Frame.cell_at i r) = Ret v' /\
             snd r' = Frame.replace_nth i v' (snd r).

(** Text that [float] rejects once ['$'] and [','] are removed. *)
Definition unparseable_money (v : value) : Prop :=
  exists s,
    v = VStr s /\
    PyNum.float_of_string
      (PyStr.remove_char "," (PyStr.remove_char "$" s)) = None.

(** Text that [int] rejects once [','] is removed. *)
Definition unparseable_count (v : value) : Prop :=
  exists s,
    v = VStr s /\ PyNum.int_of_string (PyStr.remove_char "," s) = None.

(** A row with a field that does not convert. *)
Definition bad_row (cols : list string) (r : row) : Prop :=
  (exists v, Frame.cell cols r "REVENUES" = Some v /\ unparseable_money v) \/
  (exists v, Frame.cell cols r "PROFIT" = Some v /\ unparseable_money v) \/
  (exists v, Frame.cell cols r "EMPLOYEES" = Some v /\ unparseable_count v).

(** The three steps together, cell by cell. *)
Definition cleaned_cells (i j k : nat) (r0 r : row) : Prop :=
  fst r = fst r0 /\
  exists a b c,
    clean_money (Frame.cell_at i r0) = Ret a /\
    clean_money (Frame.cell_at j r0) = Ret b /\
    clean_count (Frame.cell_at k r0) = Ret c /\
    snd r = Frame.replace_nth k c
              (Frame.replace_nth j b (Frame.replace_nth i a (snd r0))).

(** The Table a run of the loader returns, if it returns one. *)
Definition table_of (out : result ref * world) : option DataFrame :=
  match out with
  | (Ret r, w) => Some (lookup r w)
  | (Raise _, _) => None
  end.

(** What Python type a cell has; a [NaN] float is the missing value. *)
Inductive kind : Type := KStr | KInt | KFloat | KMissing | KBool.

Definition kind_of (v : value) : kind :=
  match v with
  | VStr _ => KStr
  | VInt _ => KInt
  | VFloat NaN => KMissing
  | VFloat _ => KFloat
  | VBool _ => KBool
  end.

(** The kinds of the revenue, profit and employee cells of each row. *)
Definition key_kinds (df : DataFrame) : list (list (option kind)) :=
  map (fun r => map (fun c => option_map kind_of (Frame.cell (columns df) r c))
                  key_columns) (rows df).

(** The invariant other queries rely on. *)
Definition table_invariant (df : DataFrame) : Prop :=
  numeric_column df "REVENUES" /\
  numeric_column df "PROFIT" /\
  numeric_column df "EMPLOYEES" /\
  Frame.has_column df "NAME" = true /\
  Frame.has_column df "STATE" = true /\
  Frame.has_column df "COUNTY" = true.

(** The texts a page shows, in order: errors, headings and the templates
    of formatted lines. *)
Definition messages (p : list ui_event) : list string :=
  flat_map (fun e =>
    match e with
    | UiError m => [m]
    | UiWrite (Text s) => [s]
    | UiWrite (Fmt t _) => [t]
    | _ => []
    end) p.

(** The number in the column [c] of a row. *)
Definition number_at (cols : list string) (r : row) (c : string)
  : option pyfloat :=
  match Frame.cell cols r c with
  | Some v => Value.as_number v
  | None => None
  end.

(** The row has a region. *)
Definition has_state (cols : list string) (r : row) : bool :=
  match Frame.cell cols r "STATE" with
  | Some v => negb (Value.isna v)
  | None => false
  end.

(** The revenues of the given rows, as numbers. *)
Definition revenue_numbers (cols : list string) (rs : list row)
  : list pyfloat :=
  flat_map (fun r => match number_at cols r "REVENUES" with
                     | Some x => [x]
                     | None => []
                     end) rs.

(** The Table without the rows that have no region. *)
Definition with_state (df : DataFrame) : DataFrame :=
  mkFrame (columns df) (filter (has_state (columns df)) (rows df)).

(** The number in a cell, [NaN] for a cell that holds none. *)
Definition number_of (v : value) : pyfloat :=
  match Value.as_number v with
  | Some x => x
  | None => NaN
  end.

(** The key and the number of each row, for a group-by. *)
Definition keyed (s v : nat) (rs : list row) : list (value * pyfloat) :=
  map (fun r => (Frame.cell_at s r, number_of (Frame.cell_at v r))) rs.

(** The part of the script between the choice of a state and the mean
    employee count, as a function of the Table. *)
Definition region_report (df : DataFrame) (state : value)
  : result (Series * pyfloat * pyfloat) :=
  rbind (state_data df state) (fun sd =>
  rbind (profit_margins sd) (fun margins =>
  let sd' := Frame.set_column sd "PROFIT_MARGIN" (map snd margins) in
  rbind (avg_profit_margin sd') (fun margin =>
  rbind (avg_employees sd') (fun employees =>
  Ret (margins, margin, employees))))).

(** The row of a group-by has a key. *)
Definition keyed_present (kx : value * pyfloat) : bool :=
  negb (Value.isna (fst kx)).

(** [a] may stand before [b] in a descending order with the missing values
    last: [b] is not greater, and nothing follows a missing value but
    missing values. *)
Definition descending (a b : pyfloat) : Prop :=
  PyFloat.ltb a b = false /\
  (PyFloat.is_nan a = true -> PyFloat.is_nan b = true).

(** The revenue of a row, [NaN] when it holds no number. *)
Definition revenue_of (cols : list string) (r : row) : pyfloat :=
  match number_at cols r "REVENUES" with
  | Some x => x
  | None => NaN
  end.

(** The positions of a list whose key passes a test. *)
Definition positions (p : pyfloat -> bool) (items : list pyfloat) : list nat :=
  filter (fun i => p (nth i items NaN)) (seq 0 (length items)).

(** The columns of [df[['NAME', 'REVENUES']]]. *)
Definition top_columns : list string := ["NAME"; "REVENUES"].

(** [r'] is the row [r] of the Table cut down to its name and revenue:
    the same index label and the same two cells. *)
Definition name_and_revenue (cols : list string) (r r' : row) : Prop :=
  fst r' = fst r /\
  Frame.cell top_columns r' "NAME" = Frame.cell cols r "NAME" /\
  Frame.cell top_columns r' "REVENUES" = Frame.cell cols r "REVENUES".

(** The rows are in descending order of revenue, missing revenues last. *)
Definition by_revenue_descending (cols : list string) (rs : list row) : Prop :=
  StronglySorted
    (fun r1 r2 => descending (revenue_of cols r1) (revenue_of cols r2)) rs.

(** The rows with equal revenue keep the order of their index labels,
    which is their order in the Table. *)
Definition ties_in_table_order (cols : list string) (rs : list row) : Prop :=
  StronglySorted
    (fun r1 r2 =>
       PyFloat.eqb (revenue_of cols r1) (revenue_of cols r2) = true ->
       (fst r1 < fst r2)%nat) rs.

(** The formatted lines of a page: template and arguments. *)
Definition formatted (p : list ui_event) : list (string * list value) :=
  flat_map (fun e =>
    match e with
    | UiWrite (Fmt t args) => [(t, args)]
    | _ => []
    end) p.

(** No row of the frame is of the given state. *)
Definition no_row_of (df : DataFrame) (state : value) : Prop :=
  Forall (fun r =>
    forall v, Frame.cell (columns df) r "STATE" = Some v ->
              Value.eqb v state = false) (rows df).

(** The options of the state select box: [df['STATE'].unique()]. *)
Definition state_options (df : DataFrame) : list value :=
  match Frame.column df "STATE" with
  | Some s => Agg.unique (map snd s)
  | None => []
  end.

(** The objects below [n] are left as they are by [m], which may add
    objects, and what [m] returns satisfies [Q]. *)
Definition preserves (n : nat) {A : Type} (Q : A -> Prop) (m : App A) : Prop :=
  forall w,
    (n <= length (heap w))%nat ->
    firstn n (heap (snd (m w))) = firstn n (heap w) /\
    (n <= length (heap (snd (m w))))%nat /\
    (forall a, fst (m w) = Ret a -> Q a).

Definition any {A : Type} (_ : A) : Prop := True.

(** A fresh reference, above the objects below [n]. *)
Definition fresh (n : nat) (r : ref) : Prop := (n <= r)%nat.

(** Aggregation passes one after the other over the same objects, each
    with its own widget values; a pass that raises ends there and the
    next one starts. *)
Definition passes (argsort : list pyfloat -> list nat) (df : ref)
  (ws : list widgets) (w : world) : world :=
  fold_left (fun w wd => snd (dashboard argsort df wd w)) ws w.

(** ** Inputs used in the examples *)

Definition header : list string :=
  ["NAME"; "REVENUES"; "PROFIT"; "EMPLOYEES"; "STATE"; "COUNTY"].

(** Scenario A of the specification, as [read_csv] parses it: every column
    is text, the count column too since ["1,000"] is not a number. *)
Definition scenario_A : DataFrame :=
  mkFrame header
    [ (0%nat, [VStr "Acme"; VStr "$1,000.00"; VStr "$100.00"; VStr "1,000";
               VStr "CA"; VStr "Santa Clara"]);
      (1%nat, [VStr "Beta"; VStr "$500.00"; VStr "-$50.00"; VStr "500";
               VStr "CA"; VStr "Santa Clara"]) ].

(** A file without the PROFIT column; its revenue and employee columns hold
    plain integers. *)
Definition no_profit : DataFrame :=
  mkFrame ["NAME"; "REVENUES"; "EMPLOYEES"; "STATE"; "COUNTY"]
    [ (0%nat, [VStr "Acme"; VInt 1000; VInt 10; VStr "CA";
               VStr "Santa Clara"]) ].

(** The widgets as the page first shows them, with CA selected. *)
Definition default_widgets : widgets := mkWidgets 10 (VStr "CA").

(** A file whose revenue text spells a NaN, whose profit column is read as
    integers and whose employee column is read as floats. *)
Definition odd_types : DataFrame :=
  mkFrame header
    [ (0%nat, [VStr "Acme"; VStr "$nan"; VInt 100;
               VFloat (Finite (Q2Qc (5 # 2))); VStr "CA";
               VStr "Santa Clara"]) ].

(** A file with a revenue that is not a number. *)
Definition bad_revenue : DataFrame :=
  mkFrame header
    [ (0%nat, [VStr "Acme"; VStr "$1,000.00"; VStr "$100.00"; VStr "1,000";
               VStr "CA"; VStr "Santa Clara"]);
      (1%nat, [VStr "Beta"; VStr "unknown"; VStr "-$50.00"; VStr "500";
               VStr "CA"; VStr "Santa Clara"]) ].

(** A file whose first row has no state. *)
Definition no_region : DataFrame :=
  mkFrame header
    [ (0%nat, [VStr "Acme"; VStr "$1,000.00"; VStr "$100.00"; VStr "1,000";
               VFloat NaN; VStr "Santa Clara"]);
      (1%nat, [VStr "Beta"; VStr "$500.00"; VStr "-$50.00"; VStr "500";
               VStr "CA"; VStr "Santa Clara"]) ].

(** The Tables the loader returns for these files. *)
Definition table_A : DataFrame :=
  lookup 1%nat (snd (load_data (Readable scenario_A) init)).

Definition table_no_region : DataFrame :=
  lookup 1%nat (snd (load_data (Readable no_region) init)).

(** A file with two companies of equal revenue. *)
Definition equal_revenues : DataFrame :=
  mkFrame header
    [ (0%nat, [VStr "Acme"; VStr "$500.00"; VStr "$100.00"; VStr "1,000";
               VStr "CA"; VStr "Santa Clara"]);
      (1%nat, [VStr "Beta"; VStr "$500.00"; VStr "-$50.00"; VStr "500";
               VStr "CA"; VStr "Santa Clara"]) ].

Definition table_equal_revenues : DataFrame :=
  lookup 1%nat (snd (load_data (Readable equal_revenues) init)).

(** A file with eighteen companies, A to R, of equal revenue. *)
Definition tied_revenues : DataFrame :=
  mkFrame header
    (map (fun i : nat =>
            (i, [VStr (String (ascii_of_nat (65 + i)) EmptyString);
                 VStr "$500.00"; VStr "$50.00"; VStr "100"; VStr "CA";
                 VStr "Santa Clara"]))
       (seq 0 18)).

Definition table_tied_revenues : DataFrame :=
  lookup 1%nat (snd (load_data (Readable tied_revenues) init)).

(** The state column of a row is missing. *)
Definition lacks_state (cols : list string) (r : row) : bool :=
  negb (has_state cols r).

(** Scenario C of the specification: a company without revenue. *)
Definition zero_revenue : DataFrame :=
  mkFrame header
    [ (0%nat, [VStr "Acme"; VStr "$0.00"; VStr "$100.00"; VStr "1,000";
               VStr "CA"; VStr "Santa Clara"]) ].

Definition table_zero_revenue : DataFrame :=
  lookup 1%nat (snd (load_data (Readable zero_revenue) init)).

(** ** Vocabulary of the further properties *)

(** A Table row against its parsed row outside the three cleaned columns:
    the same label, the same number of cells and the same cells. *)
Definition kept_row (cols : list string) (r0 r : row) : Prop :=
  fst r = fst r0 /\
  length (snd r) = length (snd r0) /\
  forall c, ~ In c key_columns -> Frame.cell cols r c = Frame.cell cols r0 c.

(** The revenue, profit and employee cells of the row are numbers. *)
Definition numeric_keys (cols : list string) (r : row) : Prop :=
  forall c v,
    In c key_columns -> Frame.cell cols r c = Some v ->
    Value.is_number v = true.

(** The members of the group of key [k]: what goes with a key equal to
    [k], in order. *)
Definition group_of {A : Type} (k : value) (l : list (value * A)) : list A :=
  map snd (filter (fun kx => Value.eqb (fst kx) k) l).

(** No two groups have equal keys. *)
Definition distinct_keys {A : Type} (g : list (value * A)) : Prop :=
  ForallOrdPairs (fun a b => Value.eqb (fst a) (fst b) = false) g.

(** A file in which no row has all of revenue, profit and employee count. *)
Definition no_complete_row : DataFrame :=
  mkFrame header
    [ (0%nat, [VStr "Acme"; VFloat NaN; VStr "$100.00"; VStr "1,000";
               VStr "CA"; VStr "Santa Clara"]);
      (1%nat, [VStr "Beta"; VStr "$500.00"; VStr "-$50.00"; VFloat NaN;
               VStr "CA"; VStr "Santa Clara"]) ].

(** A file whose revenue, profit and employee columns were read as numbers;
    its second row has no profit. *)
Definition plain_numbers : DataFrame :=
  mkFrame header
    [ (0%nat, [VStr "Acme"; VInt 1000; VFloat (PyFloat.of_Z 100); VInt 10;
               VStr "CA"; VStr "Santa Clara"]);
      (1%nat, [VStr "Beta"; VInt 500; VFloat NaN; VInt 5;
               VStr "CA"; VStr "Alameda"]);
      (2%nat, [VStr "Gamma"; VInt 700; VInt (-20); VInt 7;
               VStr "TX"; VStr "Travis"]) ].

(** The rows of the frame whose cell in the column [c] equals [k]. *)
Definition rows_of (df : DataFrame) (c : string) (k : value) : list row :=
  filter (fun r => match Frame.cell (columns df) r c with
                   | Some v => Value.eqb v k
                   | None => false
                   end) (rows df).

(** The number in the column [c] of a row, [NaN] where it holds none. *)
Definition number_in (cols : list string) (c : string) (r : row) : pyfloat :=
  match number_at cols r c with
  | Some x => x
  | None => NaN
  end.

(** How many rows of the frame are of the county [k]. *)
Definition companies_in (df : DataFrame) (k : value) : nat :=
  length (rows_of df "COUNTY" k).

(** The employees of the rows of the county [k], summed. *)
Definition employees_in (df : DataFrame) (k : value) : pyfloat :=
  Agg.nansum (map (number_in (columns df) "EMPLOYEES")
                (rows_of df "COUNTY" k)).

(** The row has a county. *)
Definition has_county (cols : list string) (r : row) : bool :=
  match Frame.cell cols r "COUNTY" with
  | Some v => negb (Value.isna v)
  | None => false
  end.

(** A file with a county column in which no row has a county. *)
Definition no_county : DataFrame :=
  mkFrame header
    [ (0%nat, [VStr "Acme"; VInt 1000; VInt 100; VInt 10; VStr "CA";
               VFloat NaN]);
      (1%nat, [VStr "Beta"; VInt 500; VInt (-50); VInt 5; VStr "TX";
               VFloat NaN]) ].

(** Every row has a cell for every column, as in a pandas frame. *)
Definition rectangular (df : DataFrame) : Prop :=
  Forall (fun r => length (snd r) = length (columns df)) (rows df).

Local Close Scope string_scope.
(** * Properties *)

(** ** Float arithmetic and order *)

Module PyFloatFacts.

Import PyFloat.
Local Open Scope Qc_scope.

Lemma Qc_ltb_lt (a b : Qc) : Qc_ltb a b = true <-> a < b.
Proof.
  unfold Qc_ltb. rewrite Qclt_alt.
  destruct (a ?= b); split; congruence.
Qed.

Lemma Qc_ltb_ge (a b : Qc) : Qc_ltb a b = false <-> b <= a.
Proof.
  split; intro H.
  - apply Qcnot_lt_le. intro L. apply Qc_ltb_lt in L. congruence.
  - destruct (Qc_ltb a b) eqn:E; [|reflexivity].
    apply Qc_ltb_lt in E. exfalso. exact (Qclt_not_le _ _ E H).
Qed.

Lemma Qc_eqb_eq (a b : Qc) : Qc_eqb a b = true <-> a = b.
Proof.
  unfold Qc_eqb. destruct (Qc_eq_dec a b); split; congruence.
Qed.

Lemma ltb_asym (x y : pyfloat) : ltb x y = true -> ltb y x = false.
Proof.
  destruct x, y; simpl; try congruence.
  intro H. apply Qc_ltb_lt in H. apply Qc_ltb_ge. now apply Qclt_le_weak.
Qed.

Lemma ltb_irrefl (x : pyfloat) : ltb x x = false.
Proof.
  destruct (ltb x x) eqn:E; [|reflexivity].
  now rewrite (ltb_asym _ _ E) in E.
Qed.

(** On floats that are not [NaN], "not greater" is transitive. *)
Lemma le_trans (x y z : pyfloat) :
  is_nan y = false ->
  ltb y x = false -> ltb z y = false -> ltb z x = false.
Proof.
  destruct x, y, z; simpl; try congruence.
  intros _ H1 H2. apply Qc_ltb_ge in H1, H2. apply Qc_ltb_ge.
  eapply Qcle_trans; eassumption.
Qed.

Lemma eqb_refl (x : pyfloat) : is_nan x = false -> eqb x x = true.
Proof.
  destruct x; simpl; try congruence. intros _. now apply Qc_eqb_eq.
Qed.

End PyFloatFacts.

(** ** The insertion sort meets the contract *)

Module SortsFacts.

Import Sorts.

Section Insertion.

Variable before : pyfloat -> pyfloat -> bool.
Variable keys : list pyfloat.

Hypothesis before_true :
  forall a b, before a b = true -> PyFloat.ltb b a = false.
Hypothesis before_false :
  forall a b, before a b = false -> PyFloat.ltb a b = false.

Local Abbreviation cmp :=
  (fun i j : nat => before (nth i keys NaN) (nth j keys NaN)).
Local Abbreviation present :=
  (fun i : nat => PyFloat.is_nan (nth i keys NaN) = false).

Lemma insert_by_perm (i : nat) (l : list nat) :
  Permutation (insert_by cmp i l) (i :: l).
Proof.
  induction l as [|j t IH]; simpl; [reflexivity|].
  destruct (cmp i j); [reflexivity|].
  rewrite IH. apply perm_swap.
Qed.

Lemma insert_by_sorted (i : nat) (l : list nat) :
  Forall present l ->
  StronglySorted (ascending keys) l ->
  StronglySorted (ascending keys) (insert_by cmp i l).
Proof.
  induction l as [|j t IH]; intros Hp Hs; simpl.
  - constructor; constructor.
  - inversion Hp as [|? ? Hj Ht]; subst.
    inversion Hs as [|? ? Hst Hall]; subst.
    destruct (cmp i j) eqn:E.
    + constructor; [assumption|].
      assert (Hij : ascending keys i j) by (apply before_true; exact E).
      constructor; [exact Hij|].
      rewrite Forall_forall in Hall |- *. intros x Hx.
      unfold ascending in *.
      eapply PyFloatFacts.le_trans; [exact Hj | exact Hij | now apply Hall].
    + constructor; [now apply IH|].
      apply (Permutation_Forall (Permutation_sym (insert_by_perm i t))).
      constructor; [|assumption].
      apply before_false. exact E.
Qed.

Lemma fold_insert_perm (l : list nat) :
  Permutation (fold_right (insert_by cmp) [] l) l.
Proof.
  induction l as [|i t IH]; simpl; [reflexivity|].
  rewrite insert_by_perm. now constructor.
Qed.

Lemma fold_insert_sorted (l : list nat) :
  Forall present l ->
  StronglySorted (ascending keys) (fold_right (insert_by cmp) [] l).
Proof.
  induction l as [|i t IH]; intro Hp; simpl; [constructor|].
  inversion Hp; subst.
  apply insert_by_sorted; [|now apply IH].
  apply (Permutation_Forall (Permutation_sym (fold_insert_perm t))).
  assumption.
Qed.

End Insertion.

Lemma argsort_by_contract (before : pyfloat -> pyfloat -> bool) :
  (forall a b, before a b = true -> PyFloat.ltb b a = false) ->
  (forall a b, before a b = false -> PyFloat.ltb a b = false) ->
  argsort_contract (argsort_by before).
Proof.
  intros Ht Hf keys Hk. unfold argsort_by. split.
  - apply fold_insert_perm.
  - apply fold_insert_sorted; try assumption.
    rewrite Forall_forall in Hk |- *. intros i Hi.
    apply in_seq in Hi. apply Hk, nth_In. lia.
Qed.

Lemma stable_argsort_contract : argsort_contract stable_argsort.
Proof.
  apply argsort_by_contract; intros a b H.
  - now apply negb_true_iff in H.
  - apply negb_false_iff in H. now apply PyFloatFacts.ltb_asym.
Qed.

End SortsFacts.

(** ** Lists, cells and columns *)

Module FrameFacts.

Import Frame.
Local Open Scope nat_scope.

Lemma col_index_nth (cols : list string) (c : string) (i : nat) :
  col_index cols c = Some i -> nth_error cols i = Some c.
Proof.
  revert i. induction cols as [|x t IH]; intros i H; simpl in H.
  - discriminate.
  - destruct (String.eqb_spec x c).
    + inversion H; subst. reflexivity.
    + destruct (col_index t c); simpl in H; inversion H; subst.
      simpl. now apply IH.
Qed.

Lemma col_index_inj (cols : list string) (c1 c2 : string) (i : nat) :
  col_index cols c1 = Some i -> col_index cols c2 = Some i -> c1 = c2.
Proof.
  intros H1 H2. apply col_index_nth in H1, H2. congruence.
Qed.

Lemma replace_nth_length (i : nat) (v : value) (l : list value) :
  length (replace_nth i v l) = length l.
Proof.
  revert i. induction l; destruct i; simpl; auto.
Qed.

Lemma nth_replace_same (i : nat) (v d : value) (l : list value) :
  i < length l -> nth i (replace_nth i v l) d = v.
Proof.
  revert i. induction l; destruct i; simpl; intros; try lia; auto.
  apply IHl. lia.
Qed.

Lemma nth_replace_other (i j : nat) (v d : value) (l : list value) :
  i <> j -> nth j (replace_nth i v l) d = nth j l d.
Proof.
  revert i j. induction l; destruct i, j; simpl; intros; try congruence; auto.
Qed.

(** A cell that is not missing lies within its row. *)
Lemma cell_at_in_row (i : nat) (r : row) :
  Value.isna (cell_at i r) = false -> i < length (snd r).
Proof.
  unfold cell_at. intro H.
  destruct (Nat.ltb_spec i (length (snd r))); [assumption|].
  rewrite nth_overflow in H by assumption. discriminate.
Qed.

End FrameFacts.

(** ** The loader *)

Module LoadFacts.

Import Frame FrameFacts.
Local Open Scope nat_scope.
Local Open Scope app_scope.

Lemma lookup_last (h : list DataFrame) (d : DataFrame) (p : list ui_event) :
  lookup (length h) (mkWorld (h ++ [d]) p) = d.
Proof. unfold lookup. simpl. apply nth_middle. Qed.

Lemma load_data_unfold (parsed : DataFrame) (w : world) :
  missing_columns parsed = [] ->
  load_data (Readable parsed) w =
  (let df := S (length (heap w)) in
   clean_column df "REVENUES" clean_money ;;
   clean_column df "PROFIT" clean_money ;;
   clean_column df "EMPLOYEES" clean_count ;;
   ret df)
  (mkWorld (heap w ++ [parsed; dropna key_columns parsed])
     (page w ++ [UiWrite (Text "### Columns in the uploaded dataset:");
                 UiWrite (Index (columns parsed))])).
Proof.
  intro Hm.
  unfold load_data, try, read_csv.
  unfold bind at 1. unfold new_frame at 1.
  unfold bind at 1. unfold st_write at 1, emit at 1.
  unfold bind at 1. unfold read_frame at 1. cbn [heap page].
  rewrite !lookup_last.
  unfold bind at 1. unfold st_write at 1, emit at 1. cbn [heap page].
  rewrite Hm.
  unfold bind at 1. unfold new_frame at 1. cbn [heap page].
  rewrite length_app, Nat.add_comm. cbn [length Nat.add].
  rewrite <- !app_assoc. reflexivity.
Qed.

Lemma lookup_second (h : list DataFrame) (a b : DataFrame)
  (p : list ui_event) :
  lookup (S (length h)) (mkWorld (h ++ [a; b]) p) = b.
Proof. unfold lookup. cbn [heap]. induction h; simpl; auto. Qed.

Lemma replace_frame_middle (h t : list DataFrame) (d d' : DataFrame) :
  replace_frame (length h) d' (h ++ d :: t) = h ++ d' :: t.
Proof. induction h as [|x h IH]; simpl; [reflexivity|]. now rewrite IH. Qed.

Lemma replace_frame_second (h : list DataFrame) (a b b' : DataFrame) :
  replace_frame (S (length h)) b' (h ++ [a; b]) = h ++ [a; b'].
Proof.
  change (h ++ [a; b]) with (h ++ [a] ++ [b]).
  change (h ++ [a; b']) with (h ++ [a] ++ [b']).
  rewrite !app_assoc.
  replace (S (length h)) with (length (h ++ [a]))
    by (rewrite length_app; simpl; lia).
  apply replace_frame_middle.
Qed.

(** One cleaning step runs as [cleaned_column] says, on the object itself. *)
Lemma clean_column_run (r : ref) (c : string) (f : value -> result value)
  (w : world) :
  clean_column r c f w =
  match cleaned_column (lookup r w) c f with
  | Ret d' => (Ret tt, mkWorld (replace_frame r d' (heap w)) (page w))
  | Raise e => (Raise e, w)
  end.
Proof.
  unfold clean_column, cleaned_column, getitem, setitem, bind, read_frame,
    or_raise, lift, write_frame, ret, raise, rbind, of_option.
  destruct (column (lookup r w) c); [|reflexivity].
  destruct (apply f s); reflexivity.
Qed.

Lemma load_data_accepted (parsed : DataFrame) (w : world) :
  missing_columns parsed = [] ->
  match clean_frame (dropna key_columns parsed) with
  | Ret df =>
      load_data (Readable parsed) w =
      (Ret (S (length (heap w))),
       mkWorld (heap w ++ [parsed; df])
         (page w ++ [UiWrite (Text "### Columns in the uploaded dataset:");
                     UiWrite (Index (columns parsed))]))
  | Raise e => exists w', load_data (Readable parsed) w = (Raise e, w')
  end.
Proof.
  intro Hm.
  remember (load_data (Readable parsed) w) as out eqn:E.
  rewrite (load_data_unfold parsed w Hm) in E.
  set (d0 := dropna key_columns parsed) in *. cbv zeta in E.
  unfold clean_frame.
  unfold bind at 1 in E. rewrite clean_column_run, lookup_second in E.
  destruct (cleaned_column d0 "REVENUES" clean_money) as [d1|e];
    cbn [rbind heap page] in *; [|subst out; eexists; reflexivity].
  rewrite replace_frame_second in E.
  unfold bind at 1 in E. rewrite clean_column_run, lookup_second in E.
  destruct (cleaned_column d1 "PROFIT" clean_money) as [d2|e];
    cbn [rbind heap page] in *; [|subst out; eexists; reflexivity].
  rewrite replace_frame_second in E.
  unfold bind at 1 in E. rewrite clean_column_run, lookup_second in E.
  destruct (cleaned_column d2 "EMPLOYEES" clean_count) as [d3|e];
    cbn [rbind heap page] in *; [|subst out; eexists; reflexivity].
  rewrite replace_frame_second in E. exact E.
Qed.

Lemma cleaned_inv (df : DataFrame) :
  cleaned df ->
  exists parsed,
    missing_columns parsed = [] /\
    clean_frame (dropna key_columns parsed) = Ret df.
Proof.
  intros (parsed & w & r & w' & Hm & Hl & Hdf).
  exists parsed. split; [assumption|].
  pose proof (load_data_accepted parsed w Hm) as H.
  destruct (clean_frame (dropna key_columns parsed)) as [d|e].
  - rewrite H in Hl. inversion Hl; subst.
    now rewrite lookup_second.
  - destruct H as [w'' H]. rewrite H in Hl. discriminate.
Qed.


Lemma apply_cells (i : nat) (f : value -> result value) (rs : list row)
  (s' : Series) :
  apply f (map (fun r => (fst r, cell_at i r)) rs) = Ret s' ->
  Forall2 (cell_step i f) rs
    (map (fun rv => (fst (fst rv), replace_nth i (snd rv) (snd (fst rv))))
       (combine rs (map snd s'))).
Proof.
  revert s'. induction rs as [|r t IH]; intros s' H; simpl in H.
  - inversion H; subst. constructor.
  - destruct (f (cell_at i r)) as [v'|e] eqn:E; [|discriminate].
    destruct (apply f _) as [t'|e] eqn:Et; [|discriminate].
    inversion H; subst. simpl. constructor.
    + split; [reflexivity|]. exists v'. split; [exact E | reflexivity].
    + now apply IH.
Qed.

Lemma cleaned_column_rows (d d' : DataFrame) (c : string)
  (f : value -> result value) :
  cleaned_column d c f = Ret d' ->
  exists i,
    col_index (columns d) c = Some i /\
    columns d' = columns d /\
    Forall2 (cell_step i f) (rows d) (rows d').
Proof.
  unfold cleaned_column, column, set_column.
  destruct (col_index (columns d) c) as [i|]; [|discriminate].
  cbn [option_map of_option rbind].
  destruct (apply f _) as [s'|e] eqn:E; [|discriminate].
  cbn [rbind]. intro H. inversion H; subst. cbn [columns rows].
  exists i. repeat split. now apply apply_cells.
Qed.

Lemma apply_raises (f : value -> result value) (s : Series) (e : exn) :
  apply f s = Raise e -> exists v, In v (map snd s) /\ f v = Raise e.
Proof.
  induction s as [|[i v] t IH]; simpl; [discriminate|].
  destruct (f v) as [v'|e'] eqn:E.
  - destruct (apply f t) as [t'|e'']; [discriminate|].
    intro H. inversion H; subst.
    destruct (IH eq_refl) as (x & Hx & Hf). exists x. auto.
  - intro H. inversion H; subst. exists v. auto.
Qed.

Lemma clean_money_raises (v : value) (e : exn) :
  clean_money v = Raise e -> exists m, e = ValueError m.
Proof.
  destruct v; simpl; try discriminate.
  destruct (PyNum.float_of_string _); [discriminate|].
  intro H. inversion H. eauto.
Qed.

Lemma clean_count_raises (v : value) (e : exn) :
  clean_count v = Raise e -> exists m, e = ValueError m.
Proof.
  destruct v; simpl; try discriminate.
  destruct (PyNum.int_of_string _); [discriminate|].
  intro H. inversion H. eauto.
Qed.

(** A cleaning step on a column that exists raises what the cell function
    raises. *)
Lemma cleaned_column_raises (d : DataFrame) (c : string)
  (f : value -> result value) (e : exn) :
  has_column d c = true ->
  cleaned_column d c f = Raise e ->
  exists v, f v = Raise e.
Proof.
  unfold has_column, cleaned_column, column.
  destruct (col_index (columns d) c) as [i|]; [|discriminate].
  intros _. cbn [option_map of_option rbind].
  destruct (apply f _) as [s'|e'] eqn:E; [discriminate|].
  cbn [rbind]. intro H. inversion H; subst.
  destruct (apply_raises _ _ _ E) as (v & _ & Hv). eauto.
Qed.

Lemma Forall2_compose {A B C : Type} (R1 : A -> B -> Prop)
  (R2 : B -> C -> Prop) (R3 : A -> C -> Prop) :
  (forall a b c, R1 a b -> R2 b c -> R3 a c) ->
  forall l1 l2 l3, Forall2 R1 l1 l2 -> Forall2 R2 l2 l3 -> Forall2 R3 l1 l3.
Proof.
  intros HR l1 l2 l3 H12. revert l3.
  induction H12; intros l3 H23; inversion H23; subst; constructor; eauto.
Qed.

Lemma Forall2_strengthen {A B : Type} (P : A -> Prop) (R R' : A -> B -> Prop) :
  (forall a b, P a -> R a b -> R' a b) ->
  forall l l', Forall P l -> Forall2 R l l' -> Forall2 R' l l'.
Proof.
  intros HR l l' HP H. induction H; constructor; inversion HP; subst; auto.
Qed.

Lemma has_column_index (d : DataFrame) (c : string) :
  has_column d c = true -> exists i, col_index (columns d) c = Some i.
Proof.
  unfold has_column. destruct (col_index (columns d) c); [eauto|discriminate].
Qed.

Lemma clean_frame_rows (d0 df : DataFrame) (i j k : nat) :
  col_index (columns d0) "REVENUES" = Some i ->
  col_index (columns d0) "PROFIT" = Some j ->
  col_index (columns d0) "EMPLOYEES" = Some k ->
  clean_frame d0 = Ret df ->
  columns df = columns d0 /\
  Forall2 (cleaned_cells i j k) (rows d0) (rows df).
Proof.
  intros Hi Hj Hk. unfold clean_frame.
  destruct (cleaned_column d0 _ _) as [d1|] eqn:E1; [|discriminate].
  cbn [rbind].
  destruct (cleaned_column d1 _ _) as [d2|] eqn:E2; [|discriminate].
  cbn [rbind]. intro E3.
  apply cleaned_column_rows in E1 as (i' & Hi' & C1 & R1).
  apply cleaned_column_rows in E2 as (j' & Hj' & C2 & R2).
  apply cleaned_column_rows in E3 as (k' & Hk' & C3 & R3).
  rewrite C2, C1 in Hk'. rewrite C1 in Hj'.
  assert (i' = i) by congruence. assert (j' = j) by congruence.
  assert (k' = k) by congruence. subst i' j' k'.
  assert (Nij : i <> j).
  { intro; subst. pose proof (col_index_inj _ _ _ _ Hi Hj). discriminate. }
  assert (Nik : i <> k).
  { intro; subst. pose proof (col_index_inj _ _ _ _ Hi Hk). discriminate. }
  assert (Njk : j <> k).
  { intro; subst. pose proof (col_index_inj _ _ _ _ Hj Hk). discriminate. }
  split; [congruence|].
  assert (R12 : Forall2 (fun r0 r2 =>
            fst r2 = fst r0 /\
            exists a b,
              clean_money (cell_at i r0) = Ret a /\
              clean_money (cell_at j r0) = Ret b /\
              snd r2 = replace_nth j b (replace_nth i a (snd r0)))
            (rows d0) (rows d2)).
  { eapply Forall2_compose; [| exact R1 | exact R2].
    intros r0 r1 r2 [F1 (a & Ha & S1)] [F2 (b & Hb & S2)].
    split; [congruence|]. exists a, b.
    unfold cell_at in *.
    rewrite S1, nth_replace_other in Hb by assumption.
    repeat split; try assumption. congruence. }
  eapply Forall2_compose; [| exact R12 | exact R3].
  intros r0 r2 r3 [F2 (a & b & Ha & Hb & S2)] [F3 (c & Hc & S3)].
  split; [congruence|]. exists a, b, c.
  unfold cell_at in *.
  rewrite S2, !nth_replace_other in Hc by assumption.
  repeat split; try assumption. congruence.
Qed.

Lemma dropna_columns (subset : list string) (d : DataFrame) :
  columns (dropna subset d) = columns d.
Proof. reflexivity. Qed.

(** The rows that survive the filter have the key cells. *)
Lemma survivors (parsed : DataFrame) (c : string) (i : nat) :
  In c key_columns ->
  col_index (columns parsed) c = Some i ->
  Forall (fun r => Value.isna (cell_at i r) = false)
    (rows (dropna key_columns parsed)).
Proof.
  intros Hc Hi. apply Forall_forall. intros r Hr.
  unfold dropna in Hr. cbn [rows] in Hr.
  apply filter_In in Hr as [_ Hr].
  rewrite forallb_forall in Hr. specialize (Hr c Hc).
  unfold cell in Hr. rewrite Hi in Hr. cbn [option_map] in Hr.
  now apply negb_true_iff in Hr.
Qed.

Lemma clean_money_field (v0 v : value) :
  Value.isna v0 = false -> clean_money v0 = Ret v ->
  money_field v0 v /\ Value.is_number v = true.
Proof.
  intros Hn H. destruct v0; simpl in *.
  - destruct (PyNum.float_of_string _) as [f|] eqn:E; [|discriminate].
    inversion H; subst. split; [eauto|reflexivity].
  - inversion H; subst. auto.
  - inversion H; subst. auto.
  - inversion H; subst. auto.
Qed.

Lemma clean_count_field (v0 v : value) :
  Value.isna v0 = false -> clean_count v0 = Ret v ->
  count_field v0 v /\ Value.is_number v = true /\ Value.isna v = false.
Proof.
  intros Hn H. destruct v0; simpl in *.
  - destruct (PyNum.int_of_string _) as [z|] eqn:E; [|discriminate].
    inversion H; subst. split; [eauto|split; reflexivity].
  - inversion H; subst. auto.
  - inversion H; subst. auto.
  - inversion H; subst. auto.
Qed.

Lemma cleaned_cells_row (cols : list string) (i j k : nat) (r0 r : row) :
  col_index cols "REVENUES" = Some i ->
  col_index cols "PROFIT" = Some j ->
  col_index cols "EMPLOYEES" = Some k ->
  Value.isna (cell_at i r0) = false ->
  Value.isna (cell_at j r0) = false ->
  Value.isna (cell_at k r0) = false ->
  cleaned_cells i j k r0 r ->
  clean_row cols r0 r.
Proof.
  intros Hi Hj Hk Ni Nj Nk [Hf (a & b & c & Ha & Hb & Hc & Hs)].
  assert (Nij : i <> j).
  { intro; subst. pose proof (col_index_inj _ _ _ _ Hi Hj). discriminate. }
  assert (Nik : i <> k).
  { intro; subst. pose proof (col_index_inj _ _ _ _ Hi Hk). discriminate. }
  assert (Njk : j <> k).
  { intro; subst. pose proof (col_index_inj _ _ _ _ Hj Hk). discriminate. }
  pose proof (cell_at_in_row _ _ Ni) as Li.
  pose proof (cell_at_in_row _ _ Nj) as Lj.
  pose proof (cell_at_in_row _ _ Nk) as Lk.
  assert (Ci : cell_at i r = a).
  { unfold cell_at. rewrite Hs.
    rewrite !nth_replace_other by auto. now apply nth_replace_same. }
  assert (Cj : cell_at j r = b).
  { unfold cell_at. rewrite Hs.
    rewrite nth_replace_other by auto.
    apply nth_replace_same. now rewrite replace_nth_length. }
  assert (Ck : cell_at k r = c).
  { unfold cell_at. rewrite Hs.
    apply nth_replace_same. now rewrite !replace_nth_length. }
  destruct (clean_money_field _ _ Ni Ha) as [Fa Na].
  destruct (clean_money_field _ _ Nj Hb) as [Fb Nb].
  destruct (clean_count_field _ _ Nk Hc) as (Fc & Nc & Mc).
  unfold clean_row, field, cell. rewrite Hi, Hj, Hk. cbn [option_map].
  rewrite Ci, Cj, Ck.
  split; [assumption|].
  split; [eauto 6|]. split; [eauto 6|]. split; [eauto 6|].
  intros v Hv. inversion Hv; subst. assumption.
Qed.

Lemma missing_none_has (d : DataFrame) (c : string) :
  missing_columns d = [] -> In c required_columns -> has_column d c = true.
Proof.
  unfold missing_columns. intros H Hin.
  destruct (has_column d c) eqn:E; [reflexivity|].
  assert (Hc : In c (filter (fun col => negb (has_column d col))
                       required_columns)).
  { apply filter_In. split; [assumption|]. now rewrite E. }
  rewrite H in Hc. destruct Hc.
Qed.

Lemma required_indices (parsed : DataFrame) :
  missing_columns parsed = [] ->
  exists i j k,
    col_index (columns parsed) "REVENUES" = Some i /\
    col_index (columns parsed) "PROFIT" = Some j /\
    col_index (columns parsed) "EMPLOYEES" = Some k.
Proof.
  intro Hm.
  destruct (has_column_index parsed "REVENUES") as [i Hi];
    [apply missing_none_has; simpl; auto|].
  destruct (has_column_index parsed "PROFIT") as [j Hj];
    [apply missing_none_has; simpl; auto|].
  destruct (has_column_index parsed "EMPLOYEES") as [k Hk];
    [apply missing_none_has; simpl; auto|].
  eauto 6.
Qed.

Lemma clean_frame_clean_rows (parsed df : DataFrame) :
  missing_columns parsed = [] ->
  clean_frame (dropna key_columns parsed) = Ret df ->
  columns df = columns parsed /\
  Forall2 (clean_row (columns parsed))
    (rows (dropna key_columns parsed)) (rows df).
Proof.
  intros Hm Hc.
  destruct (required_indices parsed Hm) as (i & j & k & Hi & Hj & Hk).
  destruct (clean_frame_rows (dropna key_columns parsed) df i j k Hi Hj Hk Hc)
    as [Hcols Hrows].
  split; [exact Hcols|].
  assert (Hs : Forall (fun r =>
            Value.isna (cell_at i r) = false /\
            Value.isna (cell_at j r) = false /\
            Value.isna (cell_at k r) = false)
            (rows (dropna key_columns parsed))).
  { pose proof (survivors parsed "REVENUES" i) as S1.
    pose proof (survivors parsed "PROFIT" j) as S2.
    pose proof (survivors parsed "EMPLOYEES" k) as S3.
    rewrite Forall_forall in *. intros r Hr.
    repeat split; [apply S1|apply S2|apply S3]; simpl; auto. }
  eapply Forall2_strengthen; [|exact Hs|exact Hrows].
  intros r0 r (Ni & Nj & Nk) H.
  eapply cleaned_cells_row; eassumption.
Qed.

Lemma clean_frame_raises (d0 : DataFrame) (e : exn) :
  has_column d0 "REVENUES" = true ->
  has_column d0 "PROFIT" = true ->
  has_column d0 "EMPLOYEES" = true ->
  clean_frame d0 = Raise e -> exists m, e = ValueError m.
Proof.
  intros H1 H2 H3. unfold clean_frame.
  destruct (cleaned_column d0 _ _) as [d1|e1] eqn:E1; cbn [rbind].
  - apply cleaned_column_rows in E1 as (i & _ & C1 & _).
    destruct (cleaned_column d1 _ _) as [d2|e2] eqn:E2; cbn [rbind].
    + apply cleaned_column_rows in E2 as (j & _ & C2 & _).
      intro E3. apply cleaned_column_raises in E3 as [v Hv].
      * eapply clean_count_raises; eassumption.
      * unfold has_column in *. now rewrite C2, C1.
    + intro H. inversion H; subst.
      apply cleaned_column_raises in E2 as [v Hv].
      * eapply clean_money_raises; eassumption.
      * unfold has_column in *. now rewrite C1.
  - intro H. inversion H; subst.
    apply cleaned_column_raises in E1 as [v Hv]; [|assumption].
    eapply clean_money_raises; eassumption.
Qed.

Lemma bad_row_not_cleaned (cols : list string) (i j k : nat) (r0 r : row) :
  col_index cols "REVENUES" = Some i ->
  col_index cols "PROFIT" = Some j ->
  col_index cols "EMPLOYEES" = Some k ->
  bad_row cols r0 -> ~ cleaned_cells i j k r0 r.
Proof.
  intros Hi Hj Hk Hbad [_ (a & b & c & Ha & Hb & Hc & _)].
  unfold bad_row, cell in Hbad. rewrite Hi, Hj, Hk in Hbad.
  cbn [option_map] in Hbad.
  destruct Hbad as [(v & Hv & s & -> & Hs)|[(v & Hv & s & -> & Hs)
                                            |(v & Hv & s & -> & Hs)]];
    inversion Hv as [Hv']; clear Hv.
  - rewrite Hv' in Ha. simpl in Ha. rewrite Hs in Ha. discriminate.
  - rewrite Hv' in Hb. simpl in Hb. rewrite Hs in Hb. discriminate.
  - rewrite Hv' in Hc. simpl in Hc. rewrite Hs in Hc. discriminate.
Qed.

End LoadFacts.

(** ** The invariant of a cleaned Table *)

Module TableFacts.

Import Frame FrameFacts LoadFacts.
Local Open Scope nat_scope.

Lemma Forall2_right {A B : Type} (R : A -> B -> Prop) (P : B -> Prop) :
  (forall a b, R a b -> P b) ->
  forall l l', Forall2 R l l' -> Forall P l'.
Proof. intros HR l l' H. induction H; constructor; eauto. Qed.

Lemma clean_row_numeric (cols : list string) (c : string) (i : nat)
  (rel : value -> value -> Prop) (r0 r : row) :
  col_index cols c = Some i ->
  field rel cols c r0 r -> Value.is_number (cell_at i r) = true.
Proof.
  intros Hi (v0 & v & _ & Hv & _ & Hn).
  unfold cell in Hv. rewrite Hi in Hv. cbn [option_map] in Hv.
  inversion Hv; subst. assumption.
Qed.

Lemma cleaned_invariant (df : DataFrame) : cleaned df -> table_invariant df.
Proof.
  intro H. apply cleaned_inv in H as (parsed & Hm & Hc).
  destruct (clean_frame_clean_rows parsed df Hm Hc) as [Hcols Hrows].
  destruct (required_indices parsed Hm) as (i & j & k & Hi & Hj & Hk).
  unfold table_invariant, numeric_column, has_column. rewrite Hcols.
  repeat split.
  - exists i. split; [assumption|].
    eapply Forall2_right; [|exact Hrows].
    intros r0 r (_ & F & _). eapply clean_row_numeric; eassumption.
  - exists j. split; [assumption|].
    eapply Forall2_right; [|exact Hrows].
    intros r0 r (_ & _ & F & _). eapply clean_row_numeric; eassumption.
  - exists k. split; [assumption|].
    eapply Forall2_right; [|exact Hrows].
    intros r0 r (_ & _ & _ & F & _). eapply clean_row_numeric; eassumption.
  - apply (missing_none_has parsed "NAME" Hm). simpl; auto.
  - apply (missing_none_has parsed "STATE" Hm). simpl; auto 6.
  - apply (missing_none_has parsed "COUNTY" Hm). simpl; auto 7.
Qed.

(** What a run of the loader returned is a cleaned Table. *)
Lemma loaded_cleaned (parsed : DataFrame) (w : world) (df : DataFrame) :
  missing_columns parsed = [] ->
  table_of (load_data (Readable parsed) w) = Some df ->
  cleaned df.
Proof.
  intros Hm H. unfold table_of in H.
  destruct (load_data (Readable parsed) w) as [[r|e] w'] eqn:E;
    [|discriminate].
  inversion H; subst. exists parsed, w, r, w'. auto.
Qed.

End TableFacts.

(** ** Sums and groups *)

Module AggFacts.

Import Agg.
Local Open Scope nat_scope.

(** Adding to a group adds one value and keeps the others. *)
Lemma add_to_group_values {A} (k : value) (x : A)
  (g : list (value * list A)) :
  Permutation (concat (map snd (add_to_group k x g)))
    (x :: concat (map snd g)).
Proof.
  induction g as [|[k' xs] t IH]; cbn [add_to_group].
  - reflexivity.
  - destruct (Value.eqb k k'); cbn [map concat snd].
    + rewrite <- app_assoc. cbn [app].
      symmetry. apply Permutation_middle.
    + rewrite IH. symmetry. apply Permutation_middle.
Qed.

Lemma fold_groups_values (l : list (value * pyfloat))
  (acc : list (value * list pyfloat)) :
  Permutation
    (concat (map snd
       (fold_left (fun g kx => if Value.isna (fst kx) then g
                               else add_to_group (fst kx) (snd kx) g) l acc)))
    (concat (map snd acc) ++ map snd (filter keyed_present l)).
Proof.
  revert acc. induction l as [|[k x] t IH]; intro acc;
    cbn [fold_left filter map].
  - now rewrite app_nil_r.
  - unfold keyed_present at 1. cbn [fst snd].
    destruct (Value.isna k); cbn [negb].
    + apply IH.
    + rewrite IH, add_to_group_values. cbn [map snd].
      apply Permutation_middle.
Qed.

(** The groups hold the values of the rows that have a key, each once. *)
Lemma groups_values (l : list (value * pyfloat)) :
  Permutation (concat (map snd (groups l)))
    (map snd (filter keyed_present l)).
Proof. unfold groups. apply (fold_groups_values l []). Qed.

Lemma groups_filter {A} (l : list (value * A)) :
  groups l = groups (filter (fun kx => negb (Value.isna (fst kx))) l).
Proof.
  unfold groups. generalize (@nil (value * list A)) as acc.
  induction l as [|[k x] t IH]; intro acc; simpl; [reflexivity|].
  destruct (Value.isna k) eqn:E; simpl; [apply IH|].
  rewrite E. apply IH.
Qed.

Lemma add_to_group_keys {A} (k : value) (x : A) (g : list (value * list A)) :
  Value.isna k = false ->
  Forall (fun kv => Value.isna (fst kv) = false) g ->
  Forall (fun kv => Value.isna (fst kv) = false) (add_to_group k x g).
Proof.
  intros Hk Hg. induction Hg as [|[k' xs] t Hh Ht IH]; simpl.
  - constructor; [assumption|constructor].
  - destruct (Value.eqb k k'); constructor; auto.
Qed.

(** No group has the missing value as its key. *)
Lemma groups_keys {A} (l : list (value * A)) :
  Forall (fun kv => Value.isna (fst kv) = false) (groups l).
Proof.
  unfold groups.
  assert (H : Forall (fun kv : value * list A => Value.isna (fst kv) = false)
                []) by constructor.
  revert H. generalize (@nil (value * list A)) as acc.
  induction l as [|[k x] t IH]; intros acc H; simpl; [assumption|].
  destruct (Value.isna k) eqn:E; [now apply IH|].
  apply IH. now apply add_to_group_keys.
Qed.

Lemma numbers_numeric (l : list value) :
  Forall (fun v => Value.is_number v = true) l ->
  numbers l = Some (map number_of l).
Proof.
  induction 1 as [|v t Hv Ht IH]; simpl; [reflexivity|].
  rewrite IH. unfold number_of.
  destruct v; simpl in *; try discriminate; reflexivity.
Qed.

Lemma combine_map {A B C} (f : A -> B) (g : A -> C) (l : list A) :
  combine (map f l) (map g l) = map (fun a => (f a, g a)) l.
Proof. induction l; simpl; congruence. Qed.

(** A group-by over a numeric column, in terms of the rows. *)
Lemma groupby_rows (f : list pyfloat -> pyfloat) (df : DataFrame)
  (key col : string) (s v : nat) :
  Frame.col_index (columns df) key = Some s ->
  Frame.col_index (columns df) col = Some v ->
  Forall (fun r => Value.is_number (Frame.cell_at v r) = true) (rows df) ->
  groupby f df key col
  = Ret (map (fun g => (fst g, f (snd g))) (groups (keyed s v (rows df)))).
Proof.
  intros Hs Hv Hn. unfold groupby, Frame.column. rewrite Hs, Hv.
  cbn [option_map]. rewrite !map_map. cbn [snd].
  rewrite (numbers_numeric
             (map (fun x : nat * list value => Frame.cell_at v x) (rows df))).
  - rewrite map_map.
    now rewrite (combine_map
                   (fun x : nat * list value => Frame.cell_at s x)
                   (fun x : nat * list value =>
                      number_of (Frame.cell_at v x))).
  - now apply Forall_map.
Qed.

End AggFacts.

(** ** Lists, permutations and sorted lists *)

Module ListFacts.

Local Open Scope nat_scope.

Lemma combine_seq_from {A} (d : A) (l : list A) (a : nat) :
  combine (seq a (length l)) l
  = map (fun i => (i, nth (i - a) l d)) (seq a (length l)).
Proof.
  revert a. induction l as [|x t IH]; intro a; simpl; [reflexivity|].
  rewrite Nat.sub_diag. f_equal.
  rewrite IH. apply map_ext_in. intros i Hi. apply in_seq in Hi.
  replace (i - a) with (S (i - S a)) by lia. reflexivity.
Qed.

Lemma combine_seq {A} (d : A) (l : list A) :
  combine (seq 0 (length l)) l
  = map (fun i => (i, nth i l d)) (seq 0 (length l)).
Proof.
  rewrite (combine_seq_from d l 0). apply map_ext. intro i.
  now rewrite Nat.sub_0_r.
Qed.

Lemma map_nth_seq_from {A} (d : A) (l : list A) (a : nat) :
  map (fun i => nth (i - a) l d) (seq a (length l)) = l.
Proof.
  revert a. induction l as [|x t IH]; intro a; simpl; [reflexivity|].
  rewrite Nat.sub_diag. f_equal.
  rewrite <- (IH (S a)) at 2. apply map_ext_in. intros i Hi.
  apply in_seq in Hi.
  replace (i - a) with (S (i - S a)) by lia. reflexivity.
Qed.

Lemma map_nth_seq {A} (d : A) (l : list A) :
  map (fun i => nth i l d) (seq 0 (length l)) = l.
Proof.
  rewrite <- (map_nth_seq_from d l 0) at 2. apply map_ext. intro i.
  now rewrite Nat.sub_0_r.
Qed.

Lemma filter_map {A B} (p : B -> bool) (f : A -> B) (l : list A) :
  filter p (map f l) = map f (filter (fun x => p (f x)) l).
Proof.
  induction l as [|x t IH]; simpl; [reflexivity|].
  destruct (p (f x)); simpl; congruence.
Qed.

Lemma filter_split_perm {A} (p : A -> bool) (l : list A) :
  Permutation (filter p l ++ filter (fun x => negb (p x)) l) l.
Proof.
  induction l as [|x t IH]; simpl; [constructor|].
  destruct (p x); simpl.
  - now constructor.
  - rewrite <- Permutation_middle. now constructor.
Qed.

Lemma sorted_map {A B} (R : B -> B -> Prop) (f : A -> B) (l : list A) :
  StronglySorted (fun x y => R (f x) (f y)) l ->
  StronglySorted R (map f l).
Proof.
  induction 1 as [|x t Hs IH Hall]; simpl; constructor; [assumption|].
  apply Forall_map. exact Hall.
Qed.

Lemma sorted_app {A} (R : A -> A -> Prop) (l1 l2 : list A) :
  StronglySorted R l1 -> StronglySorted R l2 ->
  (forall x y, In x l1 -> In y l2 -> R x y) ->
  StronglySorted R (l1 ++ l2).
Proof.
  intros H1 H2 H. induction H1 as [|x t Hs IH Hall]; simpl; [assumption|].
  constructor.
  - apply IH. intros a b Ha Hb. apply H; simpl; auto.
  - apply Forall_app. split; [assumption|].
    apply Forall_forall. intros y Hy. apply H; simpl; auto.
Qed.

Lemma sorted_rev {A} (R : A -> A -> Prop) (l : list A) :
  StronglySorted R l -> StronglySorted (fun x y => R y x) (rev l).
Proof.
  induction 1 as [|x t Hs IH Hall]; simpl; [constructor|].
  apply sorted_app; [assumption|repeat constructor|].
  intros a b Ha [<-|[]]. rewrite Forall_forall in Hall.
  apply Hall. now apply in_rev.
Qed.

Lemma sorted_weaken {A} (R R' : A -> A -> Prop) (l : list A) :
  (forall x y, In x l -> In y l -> R x y -> R' x y) ->
  StronglySorted R l -> StronglySorted R' l.
Proof.
  intros H Hs. induction Hs as [|x t Hs IH Hall]; constructor.
  - apply IH. intros a b Ha Hb. apply H; simpl; auto.
  - rewrite Forall_forall in *. intros y Hy.
    apply H; simpl; auto.
Qed.

Lemma in_firstn {A} (n : nat) (l : list A) (x : A) :
  In x (firstn n l) -> In x l.
Proof.
  intro H. rewrite <- (firstn_skipn n l). apply in_or_app. now left.
Qed.

Lemma sorted_firstn {A} (R : A -> A -> Prop) (n : nat) (l : list A) :
  StronglySorted R l -> StronglySorted R (firstn n l).
Proof.
  intro H. revert n. induction H as [|x t Hs IH Hall]; intro n.
  - rewrite firstn_nil. constructor.
  - destruct n; simpl; constructor; [apply IH|].
    rewrite Forall_forall in *. intros y Hy.
    apply Hall. eapply in_firstn; eassumption.
Qed.

End ListFacts.

(** ** Sorting a frame *)

Module SortFacts.

Import ListFacts.
Local Open Scope nat_scope.

Section Nargsort.

Variable argsort : list pyfloat -> list nat.
Hypothesis argsort_ok : argsort_contract argsort.

Lemma nargsort_positions (items : list pyfloat) :
  nargsort argsort items
  = rev (map (fun i => nth i (rev (positions Agg.not_nan items)) 0)
           (argsort (rev (map (fun i => nth i items NaN)
                            (positions Agg.not_nan items)))))
    ++ positions PyFloat.is_nan items.
Proof.
  unfold nargsort, positions.
  rewrite (combine_seq NaN), !filter_map, !map_map. cbn [fst snd].
  rewrite !map_id. reflexivity.
Qed.

Lemma positions_keys (p : pyfloat -> bool) (items : list pyfloat) :
  Forall (fun i => i < length items /\ p (nth i items NaN) = true)
    (positions p items).
Proof.
  apply Forall_forall. intros i Hi. unfold positions in Hi.
  apply filter_In in Hi as [Hi Hp]. apply in_seq in Hi. split; [lia|exact Hp].
Qed.

Lemma positions_split (items : list pyfloat) :
  Permutation (positions Agg.not_nan items ++ positions PyFloat.is_nan items)
    (seq 0 (length items)).
Proof.
  unfold positions.
  rewrite <- (filter_split_perm (fun i => Agg.not_nan (nth i items NaN))
                (seq 0 (length items))) at 3.
  apply Permutation_app_head.
  erewrite filter_ext; [reflexivity|].
  intro i. unfold Agg.not_nan. now rewrite negb_involutive.
Qed.

(** The keys handed to [argsort] and what it returns. *)
Lemma argsort_present (items : list pyfloat) :
  let ip := positions Agg.not_nan items in
  let keys := rev (map (fun i => nth i items NaN) ip) in
  Permutation (argsort keys) (seq 0 (length ip)) /\
  StronglySorted (ascending keys) (argsort keys).
Proof.
  intros ip keys.
  assert (Hk : Forall (fun x => PyFloat.is_nan x = false) keys).
  { unfold keys. apply Forall_rev, Forall_map.
    eapply Forall_impl; [|apply positions_keys].
    intros i [_ H]. unfold Agg.not_nan in H.
    now apply negb_true_iff in H. }
  destruct (argsort_ok keys Hk) as [Hp Hs].
  split; [|assumption].
  unfold keys in Hp. now rewrite length_rev, length_map in Hp.
Qed.

Lemma nargsort_perm (items : list pyfloat) :
  Permutation (nargsort argsort items) (seq 0 (length items)).
Proof.
  rewrite nargsort_positions.
  destruct (argsort_present items) as [Hp _].
  rewrite <- positions_split. apply Permutation_app_tail.
  rewrite <- Permutation_rev.
  rewrite (Permutation_map _ Hp).
  rewrite <- (length_rev (positions Agg.not_nan items)).
  rewrite map_nth_seq. symmetry. apply Permutation_rev.
Qed.

Lemma nth_map_in {A B} (f : A -> B) (l : list A) (d : A) (d' : B) (i : nat) :
  i < length l -> nth i (map f l) d' = f (nth i l d).
Proof.
  intro H. rewrite (nth_indep _ d' (f d)) by now rewrite length_map.
  apply map_nth.
Qed.

Lemma sorted_all {A} (R : A -> A -> Prop) (l : list A) :
  (forall x y, In x l -> In y l -> R x y) -> StronglySorted R l.
Proof.
  induction l as [|x t IH]; intro H; constructor.
  - apply IH. intros a b Ha Hb. apply H; simpl; auto.
  - apply Forall_forall. intros y Hy. apply H; simpl; auto.
Qed.

Lemma ltb_nan_r (x : pyfloat) : PyFloat.ltb x NaN = false.
Proof. destruct x; reflexivity. Qed.

Lemma is_nan_eq (x : pyfloat) : PyFloat.is_nan x = true -> x = NaN.
Proof. destruct x; simpl; congruence. Qed.

Lemma nargsort_sorted (items : list pyfloat) :
  StronglySorted
    (fun i j => descending (nth i items NaN) (nth j items NaN))
    (nargsort argsort items).
Proof.
  rewrite nargsort_positions.
  destruct (argsort_present items) as [Hp Hs].
  set (ip := positions Agg.not_nan items) in *.
  set (key := fun i => nth i items NaN) in *.
  set (keys := rev (map key ip)) in *.
  assert (Hg : forall x, In x (argsort keys) ->
             key (nth x (rev ip) 0) = nth x keys NaN /\
             PyFloat.is_nan (key (nth x (rev ip) 0)) = false).
  { intros x Hx.
    apply (Permutation_in _ Hp) in Hx. apply in_seq in Hx.
    assert (Hl : x < length (rev ip)) by (rewrite length_rev; lia).
    split.
    - unfold keys. rewrite <- map_rev. symmetry. now apply nth_map_in.
    - pose proof (positions_keys Agg.not_nan items) as Hk.
      rewrite Forall_forall in Hk.
      destruct (Hk (nth x (rev ip) 0)) as [_ Hn].
      + apply in_rev. now apply nth_In.
      + unfold Agg.not_nan in Hn. now apply negb_true_iff in Hn. }
  apply sorted_app.
  - apply (sorted_rev (fun x y => descending (key y) (key x))).
    apply sorted_map.
    eapply sorted_weaken; [|exact Hs].
    intros x y Hx Hy Hxy. unfold ascending in Hxy.
    destruct (Hg x Hx) as [Ex Nx]. destruct (Hg y Hy) as [Ey Ny].
    split.
    + rewrite Ex, Ey. exact Hxy.
    + rewrite Ny. discriminate.
  - apply sorted_all. intros x y Hx Hy.
    pose proof (positions_keys PyFloat.is_nan items) as Hk.
    rewrite Forall_forall in Hk.
    destruct (Hk x Hx) as [_ Nx]. destruct (Hk y Hy) as [_ Ny].
    apply is_nan_eq in Nx, Ny. cbv beta. unfold key. rewrite Nx, Ny.
    split; auto.
  - intros x y Hx Hy.
    pose proof (positions_keys PyFloat.is_nan items) as Hk.
    rewrite Forall_forall in Hk. destruct (Hk y Hy) as [_ Ny].
    apply is_nan_eq in Ny. cbv beta. unfold key. rewrite Ny.
    split; [apply ltb_nan_r|reflexivity].
Qed.

Lemma take_rows (df : DataFrame) (idx : list nat) (d : row) :
  Forall (fun i => i < length (rows df)) idx ->
  rows (Frame.take idx df) = map (fun i => nth i (rows df) d) idx.
Proof.
  unfold Frame.take. cbn [rows].
  induction 1 as [|i t Hi Ht IH]; simpl; [reflexivity|].
  rewrite IH.
  destruct (nth_error (rows df) i) as [r|] eqn:E.
  - simpl. f_equal. symmetry. now apply nth_error_nth.
  - apply nth_error_None in E. lia.
Qed.

(** Sorting a frame on a numeric column: the rows are kept, each once, and
    come out in descending order of the column, missing values last. *)
Lemma sort_values_rows (df : DataFrame) (c : string) (v : nat) :
  Frame.col_index (columns df) c = Some v ->
  Forall (fun r => Value.is_number (Frame.cell_at v r) = true) (rows df) ->
  exists sorted,
    sort_values argsort df c = Ret sorted /\
    columns sorted = columns df /\
    Permutation (rows sorted) (rows df) /\
    StronglySorted
      (fun r1 r2 => descending (number_of (Frame.cell_at v r1))
                      (number_of (Frame.cell_at v r2)))
      (rows sorted).
Proof.
  intros Hv Hn.
  set (items := map (fun r : row => number_of (Frame.cell_at v r)) (rows df)).
  assert (Hlen : length items = length (rows df))
    by (unfold items; apply length_map).
  assert (Hidx : Forall (fun i => i < length (rows df))
                   (nargsort argsort items)).
  { apply (Permutation_Forall (Permutation_sym (nargsort_perm items))).
    apply Forall_forall. intros i Hi. apply in_seq in Hi. lia. }
  exists (Frame.take (nargsort argsort items) df).
  split; [|split; [reflexivity|split]].
  - unfold sort_values, Frame.column. rewrite Hv.
    cbn [option_map of_option rbind]. rewrite map_map. cbn [snd].
    rewrite (AggFacts.numbers_numeric
               (map (fun x : nat * list value => Frame.cell_at v x)
                  (rows df))) by now apply Forall_map.
    cbn [of_option rbind]. rewrite map_map. reflexivity.
  - rewrite (take_rows df _ (0, []) Hidx).
    rewrite (Permutation_map _ (nargsort_perm items)).
    rewrite Hlen. now rewrite map_nth_seq.
  - rewrite (take_rows df _ (0, []) Hidx).
    apply sorted_map.
    eapply sorted_weaken; [|apply nargsort_sorted].
    intros x y Hx Hy H. rewrite Forall_forall in Hidx.
    unfold items in H. cbv beta in H.
    rewrite !(nth_map_in _ _ ((0, []) : row)) in H by auto.
    exact H.
Qed.

(** Two keys that differ leave the sort no choice. *)
Lemma argsort_pair (k0 k1 : pyfloat) :
  PyFloat.is_nan k0 = false -> PyFloat.is_nan k1 = false ->
  (PyFloat.ltb k0 k1 = true -> argsort [k0; k1] = [0; 1]) /\
  (PyFloat.ltb k1 k0 = true -> argsort [k0; k1] = [1; 0]).
Proof.
  intros N0 N1.
  destruct (argsort_ok [k0; k1]) as [Hp Hs]; [repeat constructor; assumption|].
  apply Permutation_sym in Hp. cbn [length seq] in Hp.
  apply Permutation_length_2_inv in Hp.
  split; intro Hlt; destruct Hp as [E|E]; rewrite E in *; try reflexivity;
    exfalso; inversion Hs as [|? ? _ Hall]; subst;
    inversion Hall as [|? ? H _]; subst;
    unfold ascending in H; cbn [nth] in H; congruence.
Qed.

End Nargsort.

End SortFacts.

(** ** Objects that a computation leaves alone *)

Module HeapFacts.

Local Open Scope nat_scope.
Local Open Scope app_scope.

Lemma firstn_replace_frame (n r : nat) (d : DataFrame) (h : list DataFrame) :
  n <= r -> firstn n (replace_frame r d h) = firstn n h.
Proof.
  revert n r. induction h as [|x t IH]; intros n r H.
  - destruct r; reflexivity.
  - destruct r; simpl.
    + replace n with 0 by lia. reflexivity.
    + destruct n; [reflexivity|]. simpl. f_equal. apply IH. lia.
Qed.

Lemma length_replace_frame (r : nat) (d : DataFrame) (h : list DataFrame) :
  length (replace_frame r d h) = length h.
Proof.
  revert r. induction h as [|x t IH]; intro r; destruct r; simpl; auto.
Qed.

Section Preserves.

Variable n : nat.

Lemma preserves_weaken {A} (Q Q' : A -> Prop) (m : App A) :
  (forall a, Q a -> Q' a) -> preserves n Q m -> preserves n Q' m.
Proof.
  intros HQ Hm w Hw. destruct (Hm w Hw) as (H1 & H2 & H3).
  repeat split; auto.
Qed.

Lemma preserves_pure {A} (f : world -> result A) :
  preserves n any (fun w => (f w, w)).
Proof. intros w Hw. cbn [fst snd]. repeat split; auto. Qed.

Lemma preserves_ret {A} (a : A) : preserves n any (ret a).
Proof. apply (preserves_pure (fun _ => Ret a)). Qed.

Lemma preserves_raise {A} (e : exn) : preserves n any (@raise A e).
Proof. apply (preserves_pure (fun _ => Raise e)). Qed.

Lemma preserves_lift {A} (r : result A) : preserves n any (lift r).
Proof. apply (preserves_pure (fun _ => r)). Qed.

Lemma preserves_or_raise {A} (e : exn) (o : option A) :
  preserves n any (or_raise e o).
Proof. destruct o; [apply preserves_ret|apply preserves_raise]. Qed.

Lemma preserves_read (r : ref) : preserves n any (read_frame r).
Proof. apply (preserves_pure (fun w => Ret (lookup r w))). Qed.

Lemma preserves_emit (e : ui_event) : preserves n any (emit e).
Proof. intros w Hw. cbn. repeat split; auto. Qed.

Lemma preserves_new (d : DataFrame) : preserves n (fresh n) (new_frame d).
Proof.
  intros w Hw. cbn [new_frame fst snd heap].
  split; [|split].
  - rewrite firstn_app.
    replace (n - length (heap w)) with 0 by lia.
    cbn [firstn]. apply app_nil_r.
  - rewrite length_app. lia.
  - intros a H. inversion H; subst. exact Hw.
Qed.

Lemma preserves_write (r : ref) (d : DataFrame) :
  fresh n r -> preserves n any (write_frame r d).
Proof.
  intros Hr w Hw. cbn [write_frame fst snd heap].
  split; [|split].
  - now apply firstn_replace_frame.
  - now rewrite length_replace_frame.
  - intros; exact I.
Qed.

Lemma preserves_bind {A B} (Q : A -> Prop) (Q' : B -> Prop)
  (m : App A) (k : A -> App B) :
  preserves n Q m ->
  (forall a, Q a -> preserves n Q' (k a)) ->
  preserves n Q' (bind m k).
Proof.
  intros Hm Hk w Hw. unfold bind.
  destruct (Hm w Hw) as (H1 & H2 & H3).
  destruct (m w) as [[a|e] w1]; cbn [fst snd] in *.
  - destruct (Hk a (H3 a eq_refl) w1 H2) as (K1 & K2 & K3).
    repeat split; [congruence|assumption|assumption].
  - repeat split; [assumption|assumption|discriminate].
Qed.

Lemma preserves_setitem (r : ref) (c : string) (s : Series) :
  fresh n r -> preserves n any (setitem r c s).
Proof.
  intro Hr. unfold setitem.
  eapply preserves_bind; [apply preserves_read|].
  intros d _. now apply preserves_write.
Qed.

Lemma preserves_getitem (r : ref) (c : string) :
  preserves n any (getitem r c).
Proof.
  unfold getitem.
  eapply preserves_bind; [apply preserves_read|].
  intros d _. apply preserves_or_raise.
Qed.

End Preserves.

End HeapFacts.

(** * The claims *)

(** ** Loading *)

(** C2, as the code has it.  For every parsed input with all the required
    columns that [load_data] accepts, the returned Table has the columns of
    the input and one row for each parsed row that misses none of revenue,
    profit and employee count, with the same index label.  In each such row
    the three fields are numbers, never strings: a field that was text is
    the float (revenue, profit) or the integer (employee count) that Python
    reads from it, which for revenue and profit is [NaN] or an infinity when
    the text spells one; a field that was already a number is left as it
    was, whatever its type.  The employee count is never missing. *)
Theorem load_data_fields_numeric (parsed : DataFrame) (w w' : world)
  (r : ref) :
  missing_columns parsed = [] ->
  load_data (Readable parsed) w = (Ret r, w') ->
  columns (lookup r w') = columns parsed /\
  Forall2 (clean_row (columns parsed))
    (rows (Frame.dropna key_columns parsed)) (rows (lookup r w')).
Proof.
  intros Hm Hl.
  apply LoadFacts.clean_frame_clean_rows; [assumption|].
  pose proof (LoadFacts.load_data_accepted parsed w Hm) as H.
  destruct (clean_frame (Frame.dropna key_columns parsed)) as [d|e].
  - rewrite H in Hl. inversion Hl; subst.
    now rewrite LoadFacts.lookup_second.
  - destruct H as [w'' H]. rewrite H in Hl. discriminate.
Qed.

Lemma load_data_fields_numeric_witness :
  columns (lookup 1%nat (snd (load_data (Readable scenario_A) init)))
  = columns scenario_A /\
  Forall2 (clean_row (columns scenario_A))
    (rows (Frame.dropna key_columns scenario_A))
    (rows (lookup 1%nat (snd (load_data (Readable scenario_A) init)))).
Proof.
  apply (load_data_fields_numeric scenario_A init
           (snd (load_data (Readable scenario_A) init)) 1%nat).
  - reflexivity.
  - vm_compute. reflexivity.
Defined.

(** C2 as stated fails: the loader accepts [odd_types] and returns a row
    whose revenue is missing, whose profit is an integer and whose employee
    count is a float. *)
Lemma load_data_odd_types :
  missing_columns odd_types = [] /\
  option_map key_kinds (table_of (load_data (Readable odd_types) init))
  = Some [[Some KMissing; Some KInt; Some KFloat]].
Proof. split; vm_compute; reflexivity. Qed.

(** C7, as the code has it.  When a row that survives the missing-value
    filter has revenue or profit text that [float] rejects once ['$'] and
    [','] are removed, or employee text that [int] rejects once [','] is
    removed, [load_data] raises the [ValueError] to its caller and returns
    no Table; no row is left out for this reason. *)
Theorem load_data_raises_on_bad_text (parsed : DataFrame) (w : world) :
  missing_columns parsed = [] ->
  Exists (bad_row (columns parsed))
    (rows (Frame.dropna key_columns parsed)) ->
  exists m w', load_data (Readable parsed) w = (Raise (ValueError m), w').
Proof.
  intros Hm Hbad.
  pose proof (LoadFacts.load_data_accepted parsed w Hm) as H.
  destruct (LoadFacts.required_indices parsed Hm)
    as (i & j & k & Hi & Hj & Hk).
  destruct (clean_frame (Frame.dropna key_columns parsed)) as [d|e] eqn:E.
  - exfalso.
    destruct (LoadFacts.clean_frame_rows
                (Frame.dropna key_columns parsed) d i j k Hi Hj Hk E)
      as [_ Hrows].
    clear E H. induction Hrows; inversion Hbad; subst; auto.
    eapply LoadFacts.bad_row_not_cleaned; eassumption.
  - destruct H as [w' H].
    apply LoadFacts.clean_frame_raises in E as [m ->].
    + eauto.
    + apply (LoadFacts.missing_none_has parsed); simpl; auto.
    + apply (LoadFacts.missing_none_has parsed); simpl; auto.
    + apply (LoadFacts.missing_none_has parsed); simpl; auto.
Qed.

Lemma load_data_raises_on_bad_text_witness :
  exists m w',
    load_data (Readable bad_revenue) init = (Raise (ValueError m), w').
Proof.
  apply (load_data_raises_on_bad_text bad_revenue init).
  - reflexivity.
  - apply Exists_cons_tl, Exists_cons_hd.
    left. eexists. split; [reflexivity|].
    eexists. split; [reflexivity|]. vm_compute. reflexivity.
Defined.

(** C7 as stated fails: on [bad_revenue] the loader raises and returns no
    Table, instead of returning the Table without the second row. *)
Lemma load_data_bad_revenue :
  fst (load_data (Readable bad_revenue) init)
  = Raise (ValueError "could not convert string to float: 'unknown'") /\
  table_of (load_data (Readable bad_revenue) init) = None.
Proof. split; vm_compute; reflexivity. Qed.

(** C1 at a file without the PROFIT column.  [load_data] lists the missing
    column, but it returns the parsed frame itself, rows included, not an
    empty one; the script finds the frame not empty, goes on to the
    aggregations over the parsed rows and shows the revenue tables, until
    the margin step fails on the absent column.  The message for an
    invalid file is never shown. *)
Theorem missing_column_still_aggregates :
  table_of (load_data (Readable no_profit) init) = Some no_profit /\
  messages (page (snd (load_data (Readable no_profit) init)))
  = ["### Columns in the uploaded dataset:";
     "Missing columns in the uploaded data: PROFIT"]%string /\
  fst (main Sorts.stable_argsort (Some (Readable no_profit))
         default_widgets init)
  = Raise (KeyError "PROFIT") /\
  messages (page (snd (main Sorts.stable_argsort (Some (Readable no_profit))
                         default_widgets init)))
  = ["### Columns in the uploaded dataset:";
     "Missing columns in the uploaded data: PROFIT";
     "### Total Revenue by State:";
     "### Total Revenue of the Top {} Companies: ${:,.2f}";
     "### Average Revenue by State"]%string.
Proof. repeat split; vm_compute; reflexivity. Qed.

(** ** The profit margin *)

Module MarginFacts.

Lemma ne_zero_number (v : value) (x : pyfloat) :
  Value.as_number v = Some x ->
  Value.ne_zero v = negb (PyFloat.is_zero x).
Proof.
  unfold Value.ne_zero, Value.eqb, PyFloat.is_zero.
  destruct v; simpl; intro H; inversion H; subst; reflexivity.
Qed.

Lemma number_of_numeric (v : value) :
  Value.is_number v = true -> exists x, Value.as_number v = Some x.
Proof. destruct v; simpl; intro H; try discriminate; eauto. Qed.


End MarginFacts.



(** Scenario C: the margin of a company without revenue is 0. *)
Example profit_margin_zero_revenue :
  profit_margins table_zero_revenue = Ret [(0%nat, VInt 0)].
Proof. vm_compute. reflexivity. Qed.

(** ** Revenue by region *)

(** Equalities between computed floats. *)
Ltac float_eq :=
  vm_compute;
  repeat match goal with
         | |- _ /\ _ => split
         | |- Finite _ = Finite _ => f_equal; apply Qc_is_canon; reflexivity
         | |- @eq pyfloat _ _ => reflexivity
         | |- _ => progress f_equal
         end;
  try reflexivity.

Module RegionFacts.

Import Frame.

Lemma table_A_cleaned : cleaned table_A.
Proof.
  exists scenario_A, init, 1%nat, (snd (load_data (Readable scenario_A) init)).
  repeat split; vm_compute; reflexivity.
Qed.

Lemma table_no_region_cleaned : cleaned table_no_region.
Proof.
  exists no_region, init, 1%nat, (snd (load_data (Readable no_region) init)).
  repeat split; vm_compute; reflexivity.
Qed.

Lemma keyed_revenues (cols : list string) (s v : nat) (rs : list row) :
  col_index cols "STATE" = Some s ->
  col_index cols "REVENUES" = Some v ->
  Forall (fun r => Value.is_number (cell_at v r) = true) rs ->
  map snd (filter keyed_present (keyed s v rs))
  = revenue_numbers cols (filter (has_state cols) rs).
Proof.
  intros Hs Hv. induction 1 as [|r t Hr Ht IH]; [reflexivity|].
  cbn [keyed map filter]. unfold keyed_present at 1, has_state at 1, cell.
  rewrite Hs. cbn [option_map fst].
  destruct (Value.isna (cell_at s r)); cbn [negb]; [exact IH|].
  cbn [map snd revenue_numbers flat_map]. unfold number_at at 1, cell.
  rewrite Hv. cbn [option_map].
  destruct (MarginFacts.number_of_numeric _ Hr) as [x Hx].
  unfold number_of. rewrite Hx. cbn [app]. f_equal. exact IH.
Qed.

End RegionFacts.

(** C5, as the code has it.  For every cleaned Table the revenue-by-region
    mapping is computed; its entries are the sums of groups of revenues,
    no group has the missing value as its region, and the groups hold the
    revenues of the rows that have a region, each once: a row whose
    region is missing is in no group.  Nothing is stated on what the
    entries add up to, which depends on the order of the additions. *)
Theorem revenue_by_region_partition (df : DataFrame) :
  cleaned df ->
  exists gs : list (value * list pyfloat),
    state_revenue_dict df
    = Ret (map (fun g => (fst g, Agg.nansum (snd g))) gs) /\
    Forall (fun g => Value.isna (fst g) = false) gs /\
    Permutation (concat (map snd gs))
      (revenue_numbers (columns df)
         (filter (has_state (columns df)) (rows df))).
Proof.
  intro Hc.
  destruct (TableFacts.cleaned_invariant df Hc)
    as ((v & Hv & Hn) & _ & _ & _ & Hstate & _).
  destruct (LoadFacts.has_column_index df _ Hstate) as [s Hs].
  exists (Agg.groups (keyed s v (rows df))). split; [|split].
  - unfold state_revenue_dict.
    now apply AggFacts.groupby_rows with (s := s) (v := v).
  - apply AggFacts.groups_keys.
  - rewrite AggFacts.groups_values.
    now rewrite (RegionFacts.keyed_revenues (columns df) s v (rows df)).
Qed.

Lemma revenue_by_region_partition_witness :
  exists gs : list (value * list pyfloat),
    state_revenue_dict table_A
    = Ret (map (fun g => (fst g, Agg.nansum (snd g))) gs) /\
    Forall (fun g => Value.isna (fst g) = false) gs /\
    Permutation (concat (map snd gs))
      (revenue_numbers (columns table_A)
         (filter (has_state (columns table_A)) (rows table_A))).
Proof.
  apply (revenue_by_region_partition table_A).
  exists scenario_A, init, 1%nat, (snd (load_data (Readable scenario_A) init)).
  repeat split; vm_compute; reflexivity.
Defined.

(** C5 as stated fails: in the Table of [no_region] the mapping has the
    single entry CA with 500, while the revenue of the whole Table is
    1500. *)
Lemma revenue_by_region_misses_rows :
  cleaned table_no_region /\
  state_revenue_dict table_no_region = Ret [(VStr "CA", PyFloat.of_Z 500)] /\
  Agg.nansum (revenue_numbers (columns table_no_region)
                (rows table_no_region))
  = PyFloat.of_Z 1500 /\
  Agg.fsum (map snd [(VStr "CA", PyFloat.of_Z 500)])
  <> Agg.nansum (revenue_numbers (columns table_no_region)
                   (rows table_no_region)).
Proof.
  split; [exact RegionFacts.table_no_region_cleaned|].
  split; [float_eq|]. split; [float_eq|].
  vm_compute. intro H. inversion H.
Qed.

(** ** The top companies *)

Module TopFacts.

Import Frame ListFacts.
Local Open Scope nat_scope.

Lemma select_name_revenue (df : DataFrame) (n v : nat) :
  col_index (columns df) "NAME" = Some n ->
  col_index (columns df) "REVENUES" = Some v ->
  select df top_columns
  = Some (mkFrame top_columns
            (map (fun r => (fst r, [cell_at n r; cell_at v r])) (rows df))).
Proof.
  intros Hn Hv. unfold select, top_columns. cbn [indices].
  rewrite Hn, Hv. reflexivity.
Qed.

Lemma top_name : col_index top_columns "NAME" = Some 0.
Proof. reflexivity. Qed.

Lemma top_revenue : col_index top_columns "REVENUES" = Some 1.
Proof. reflexivity. Qed.

Lemma revenue_of_top (r : row) :
  revenue_of top_columns r = number_of (cell_at 1 r).
Proof. reflexivity. Qed.

(** The top-N of a cleaned Table: the first N rows of the Table's names
    and revenues once sorted. *)
Lemma top_companies_rows (argsort : list pyfloat -> list nat)
  (df : DataFrame) (N : nat) :
  argsort_contract argsort ->
  cleaned df ->
  exists sub sorted,
    select df top_columns = Some sub /\
    Forall2 (name_and_revenue (columns df)) (rows df) (rows sub) /\
    Permutation sorted (rows sub) /\
    by_revenue_descending top_columns sorted /\
    top_companies argsort df N = Ret (mkFrame top_columns (firstn N sorted)) /\
    total_revenue (mkFrame top_columns (firstn N sorted))
    = Ret (Agg.nansum (map (revenue_of top_columns) (firstn N sorted))).
Proof.
  intros Hsort Hc.
  destruct (TableFacts.cleaned_invariant df Hc)
    as ((v & Hv & Hnum) & _ & _ & Hname & _).
  destruct (LoadFacts.has_column_index df _ Hname) as [n Hn].
  pose proof (select_name_revenue df n v Hn Hv) as Hsel.
  set (sub := mkFrame top_columns
                (map (fun r => (fst r, [cell_at n r; cell_at v r]))
                   (rows df))) in *.
  assert (Hsubnum : Forall (fun r => Value.is_number (cell_at 1 r) = true)
                      (rows sub)).
  { unfold sub. cbn [rows]. apply Forall_map.
    eapply Forall_impl; [|exact Hnum]. intros r H. exact H. }
  destruct (SortFacts.sort_values_rows argsort Hsort sub "REVENUES" 1
              eq_refl Hsubnum) as (sorted & Hs & Hcols & Hperm & Hdesc).
  exists sub, (rows sorted).
  split; [exact Hsel|]. split.
  { unfold sub. cbn [rows]. clear - Hn Hv.
    induction (rows df) as [|r t IH]; constructor; [|exact IH].
    unfold name_and_revenue, cell.
    rewrite Hn, Hv, top_name, top_revenue.
    repeat split. }
  split; [exact Hperm|]. split; [exact Hdesc|]. split.
  { unfold top_companies.
    change (select df _) with (select df top_columns).
    rewrite Hsel. cbn [of_option rbind].
    rewrite Hs. cbn [rbind]. unfold head.
    change (columns sub) with top_columns in Hcols. now rewrite Hcols. }
  unfold total_revenue, column_agg, column. cbn [columns rows].
  rewrite top_revenue. cbn [option_map of_option rbind].
  rewrite map_map. cbn [snd].
  rewrite (AggFacts.numbers_numeric
             (map (fun x : nat * list value => cell_at 1 x)
                (firstn N (rows sorted)))).
  - cbn [of_option rbind]. rewrite map_map. reflexivity.
  - apply Forall_map.
    apply (Permutation_Forall (Permutation_sym Hperm)) in Hsubnum.
    rewrite Forall_forall in *. intros r Hr.
    apply Hsubnum. eapply in_firstn; exact Hr.
Qed.

End TopFacts.

(** C3, as the code has it.  For every cleaned Table and every N from 1 to
    50 the top-N is computed; it has the name and the revenue column, its
    rows are rows of the Table cut down to these two columns, each taken at
    most once and with its index label, their number is min(N, number of
    rows of the Table), and they are in descending order of revenue, rows
    with a missing revenue last.  [sort_values] is called with the default
    sort, which does not promise an order among rows of equal revenue, and
    nothing is stated about it. *)
Theorem top_companies_sorted (argsort : list pyfloat -> list nat)
  (df : DataFrame) (N : nat) :
  argsort_contract argsort ->
  cleaned df ->
  (1 <= N <= 50)%nat ->
  exists sub top,
    Frame.select df top_columns = Some sub /\
    Forall2 (name_and_revenue (columns df)) (rows df) (rows sub) /\
    top_companies argsort df N = Ret top /\
    columns top = top_columns /\
    length (rows top) = Nat.min N (length (rows df)) /\
    by_revenue_descending (columns top) (rows top) /\
    exists rest, Permutation (rows top ++ rest) (rows sub).
Proof.
  intros Hsort Hc _.
  destruct (TopFacts.top_companies_rows argsort df N Hsort Hc)
    as (sub & sorted & Hsel & Hrows & Hperm & Hdesc & Htop & _).
  exists sub, (mkFrame top_columns (firstn N sorted)).
  cbn [columns rows].
  repeat split; try assumption.
  - rewrite length_firstn, (Permutation_length Hperm).
    now rewrite (Forall2_length Hrows).
  - now apply ListFacts.sorted_firstn.
  - exists (skipn N sorted). now rewrite firstn_skipn.
Qed.

Lemma top_companies_sorted_witness :
  exists sub top,
    Frame.select table_A top_columns = Some sub /\
    Forall2 (name_and_revenue (columns table_A)) (rows table_A) (rows sub) /\
    top_companies Sorts.stable_argsort table_A 1 = Ret top /\
    columns top = top_columns /\
    length (rows top) = Nat.min 1 (length (rows table_A)) /\
    by_revenue_descending (columns top) (rows top) /\
    exists rest, Permutation (rows top ++ rest) (rows sub).
Proof.
  apply (top_companies_sorted Sorts.stable_argsort table_A 1).
  - exact SortsFacts.stable_argsort_contract.
  - exists scenario_A, init, 1%nat,
      (snd (load_data (Readable scenario_A) init)).
    repeat split; vm_compute; reflexivity.
  - lia.
Defined.

(** C3 as stated fails on the order of equal revenues.  [sort_values] sorts
    with numpy's quicksort, whose first partition of more than 17 keys
    exchanges equal keys.  In the Table of [tied_revenues], eighteen
    companies of the same revenue, the top 10 lists the companies 0, 1, 16,
    15, ..., 9: sorted by revenue, and not in the order of the Table.  (A
    part of up to 17 keys is sorted by insertion, which keeps the order:
    the two companies of [equal_revenues] stay as they are.) *)
Lemma top_companies_ties_reordered :
  cleaned table_tied_revenues /\
  Numpy.aquicksort (repeat (PyFloat.of_Z 500) 18)
  = Some [0; 15; 14; 13; 12; 11; 10; 9; 8; 7; 6; 5; 4; 3; 2; 1; 16; 17]%nat /\
  (exists top,
     top_companies Numpy.argsort table_tied_revenues 10 = Ret top /\
     map fst (rows top) = [0; 1; 16; 15; 14; 13; 12; 11; 10; 9]%nat /\
     Forall (fun r => PyFloat.eqb (revenue_of (columns top) r)
                        (PyFloat.of_Z 500) = true) (rows top) /\
     by_revenue_descending (columns top) (rows top) /\
     ~ ties_in_table_order (columns top) (rows top)) /\
  (exists top,
     top_companies Numpy.argsort table_equal_revenues 2 = Ret top /\
     map fst (rows top) = [0; 1]%nat).
Proof.
  split.
  { exists tied_revenues, init, 1%nat,
      (snd (load_data (Readable tied_revenues) init)).
    repeat split; vm_compute; reflexivity. }
  split; [vm_compute; reflexivity|].
  split.
  - eexists. split; [vm_compute; reflexivity|].
    split; [reflexivity|]. split; [|split].
    + repeat constructor.
    + repeat constructor; vm_compute; congruence.
    + intro H.
      inversion H as [|? ? H1 _]; subst.
      inversion H1 as [|? ? H2 _]; subst.
      inversion H2 as [|? ? _ Hall]; subst.
      inversion Hall as [|? ? Hlt _]; subst.
      cbn [fst] in Hlt.
      assert (C : (16 < 15)%nat) by (apply Hlt; vm_compute; reflexivity).
      lia.
  - eexists. split; [vm_compute; reflexivity|reflexivity].
Qed.

(** ** Scenario A *)

(** Evaluate a query whose sort has two distinct keys to order. *)
Ltac sort_pair H :=
  vm_compute;
  match goal with
  | |- context [?f [?a; ?b]] =>
      let E := fresh "E" in
      destruct (SortFacts.argsort_pair f H a b eq_refl eq_refl) as [E _];
      rewrite E by (vm_compute; reflexivity); clear E
  end.

(** C8.  On the two rows of scenario A the loader returns the revenues
    1000.0 and 500.0; the revenue-by-region mapping is CA: 1500.0; the top 1
    is Acme with 1000.0; the margins of the rows of CA are 10.0 for Acme
    (label 0) and -10.0 for Beta (label 1), and their mean is 0.0.  The page
    of a run with top 1 and CA selected shows the total 1000.0 and the mean
    margin 0.0. *)
Theorem scenario_A_results (argsort : list pyfloat -> list nat) :
  argsort_contract argsort ->
  table_of (load_data (Readable scenario_A) init) = Some table_A /\
  Frame.column table_A "NAME"
  = Some [(0%nat, VStr "Acme"); (1%nat, VStr "Beta")] /\
  Frame.column table_A "REVENUES"
  = Some [(0%nat, VFloat (PyFloat.of_Z 1000));
          (1%nat, VFloat (PyFloat.of_Z 500))] /\
  state_revenue_dict table_A = Ret [(VStr "CA", PyFloat.of_Z 1500)] /\
  top_companies argsort table_A 1
  = Ret (mkFrame top_columns
           [(0%nat, [VStr "Acme"; VFloat (PyFloat.of_Z 1000)])]) /\
  (exists employees,
     region_report table_A (VStr "CA")
     = Ret ([(0%nat, VFloat (PyFloat.of_Z 10));
             (1%nat, VFloat (PyFloat.of_Z (-10)))],
            PyFloat.of_Z 0, employees)) /\
  In ("### Total Revenue of the Top {} Companies: ${:,.2f}"%string,
      [VInt 1; VFloat (PyFloat.of_Z 1000)])
    (formatted (page (snd (main argsort (Some (Readable scenario_A))
                             (mkWidgets 1 (VStr "CA")) init)))) /\
  In ("### Average Profit Margin for Companies in {}: {:.2f}%"%string,
      [VStr "CA"; VFloat (PyFloat.of_Z 0)])
    (formatted (page (snd (main argsort (Some (Readable scenario_A))
                             (mkWidgets 1 (VStr "CA")) init)))).
Proof.
  intro H.
  split; [vm_compute; reflexivity|].
  split; [vm_compute; reflexivity|].
  split; [float_eq|].
  split; [float_eq|].
  split; [sort_pair H; float_eq|].
  split; [eexists; float_eq|].
  split; sort_pair H; vm_compute;
    repeat first [left; solve [float_eq] | right].
Qed.

Lemma scenario_A_results_witness :
  table_of (load_data (Readable scenario_A) init) = Some table_A /\
  Frame.column table_A "NAME"
  = Some [(0%nat, VStr "Acme"); (1%nat, VStr "Beta")] /\
  Frame.column table_A "REVENUES"
  = Some [(0%nat, VFloat (PyFloat.of_Z 1000));
          (1%nat, VFloat (PyFloat.of_Z 500))] /\
  state_revenue_dict table_A = Ret [(VStr "CA", PyFloat.of_Z 1500)] /\
  top_companies Sorts.stable_argsort table_A 1
  = Ret (mkFrame top_columns
           [(0%nat, [VStr "Acme"; VFloat (PyFloat.of_Z 1000)])]) /\
  (exists employees,
     region_report table_A (VStr "CA")
     = Ret ([(0%nat, VFloat (PyFloat.of_Z 10));
             (1%nat, VFloat (PyFloat.of_Z (-10)))],
            PyFloat.of_Z 0, employees)) /\
  In ("### Total Revenue of the Top {} Companies: ${:,.2f}"%string,
      [VInt 1; VFloat (PyFloat.of_Z 1000)])
    (formatted (page (snd (main Sorts.stable_argsort
                             (Some (Readable scenario_A))
                             (mkWidgets 1 (VStr "CA")) init)))) /\
  In ("### Average Profit Margin for Companies in {}: {:.2f}%"%string,
      [VStr "CA"; VFloat (PyFloat.of_Z 0)])
    (formatted (page (snd (main Sorts.stable_argsort
                             (Some (Readable scenario_A))
                             (mkWidgets 1 (VStr "CA")) init)))).
Proof.
  apply (scenario_A_results Sorts.stable_argsort).
  exact SortsFacts.stable_argsort_contract.
Defined.

(** ** A state without rows *)

Module EmptyFacts.

Import Frame.
Local Open Scope nat_scope.

Lemma col_index_app (cols extra : list string) (c : string) (i : nat) :
  col_index cols c = Some i -> col_index (cols ++ extra) c = Some i.
Proof.
  revert i. induction cols as [|x t IH]; intros i H; simpl in *.
  - discriminate.
  - destruct (String.eqb x c); [assumption|].
    destruct (col_index t c) as [j|]; [|discriminate].
    now rewrite (IH j eq_refl).
Qed.

Lemma col_index_new (cols : list string) (c : string) :
  col_index cols c = None ->
  col_index (cols ++ [c]) c = Some (length cols).
Proof.
  induction cols as [|x t IH]; simpl.
  - now rewrite String.eqb_refl.
  - destruct (String.eqb x c); [discriminate|].
    destruct (col_index t c); [discriminate|].
    intros _. now rewrite IH.
Qed.

(** A column of a frame without rows has the mean [NaN]. *)
Lemma column_agg_mean_empty (cols : list string) (c : string) (i : nat) :
  col_index cols c = Some i ->
  column_agg Agg.mean (mkFrame cols []) c = Ret NaN.
Proof.
  intro H. unfold column_agg, column. cbn [columns rows]. rewrite H.
  reflexivity.
Qed.

(** Assigning an empty Series to a frame without rows. *)
Lemma set_column_empty (cols : list string) (c : string) :
  exists cols',
    set_column (mkFrame cols []) c [] = mkFrame cols' [] /\
    (exists i, col_index cols' c = Some i) /\
    (forall c' j, col_index cols c' = Some j -> col_index cols' c' = Some j).
Proof.
  unfold set_column. cbn [columns rows].
  destruct (col_index cols c) as [i|] eqn:E.
  - exists cols. repeat split; eauto.
  - exists (cols ++ [c]). repeat split.
    + eexists. now apply col_index_new.
    + intros c' j. apply col_index_app.
Qed.

End EmptyFacts.

(** C6, as the code has it.  When no row of a cleaned Table is of the
    selected state, the margins are an empty Series, and the mean margin
    and the mean employee count are both [NaN]: the script has no value
    that stands for "no data". *)
Theorem empty_region_means_nan (df : DataFrame) (state : value) :
  cleaned df ->
  no_row_of df state ->
  region_report df state = Ret ([], NaN, NaN).
Proof.
  intros Hc Hnone.
  destruct (TableFacts.cleaned_invariant df Hc)
    as (_ & _ & (k & Hk & _) & _ & Hstate & _).
  destruct (LoadFacts.has_column_index df _ Hstate) as [s Hs].
  unfold region_report, state_data. rewrite Hs. cbn [of_option rbind].
  assert (E : filter (fun r => Value.eqb (Frame.cell_at s r) state) (rows df)
              = []).
  { unfold no_row_of in Hnone. induction Hnone as [|r t Hr Ht IH];
      [reflexivity|].
    simpl. unfold Frame.cell in Hr. rewrite Hs in Hr.
    rewrite (Hr _ eq_refl). exact IH. }
  rewrite E. unfold profit_margins. cbn [rows apply_rows rbind map columns].
  destruct (EmptyFacts.set_column_empty (columns df) "PROFIT_MARGIN")
    as (cols' & -> & [i Hi] & Hkeep).
  unfold avg_profit_margin, avg_employees.
  rewrite (EmptyFacts.column_agg_mean_empty _ _ _ Hi).
  rewrite (EmptyFacts.column_agg_mean_empty _ _ _ (Hkeep _ _ Hk)).
  reflexivity.
Qed.

Lemma empty_region_means_nan_witness :
  region_report table_A (VStr "TX") = Ret ([], NaN, NaN).
Proof.
  apply (empty_region_means_nan table_A (VStr "TX")).
  - exists scenario_A, init, 1%nat,
      (snd (load_data (Readable scenario_A) init)).
    repeat split; vm_compute; reflexivity.
  - repeat constructor; intros v Hv; vm_compute in Hv; inversion Hv;
      reflexivity.
Defined.

(** C6 as stated fails.  In the Table of [no_region] the missing value is
    one of the options of the select box; once it is selected no row
    matches, and the page shows [NaN] for the mean margin and for the mean
    employee count. *)
Lemma empty_region_shows_nan :
  In (VFloat NaN) (state_options table_no_region) /\
  region_report table_no_region (VFloat NaN) = Ret ([], NaN, NaN) /\
  In ("### Average Profit Margin for Companies in {}: {:.2f}%"%string,
      [VFloat NaN; VFloat NaN])
    (formatted (page (snd (main Sorts.stable_argsort
                             (Some (Readable no_region))
                             (mkWidgets 10 (VFloat NaN)) init)))) /\
  In ("### Average Number of Employees for Companies in {}: {:,.0f}"%string,
      [VFloat NaN; VFloat NaN])
    (formatted (page (snd (main Sorts.stable_argsort
                             (Some (Readable no_region))
                             (mkWidgets 10 (VFloat NaN)) init)))).
Proof.
  split; [vm_compute; auto|].
  split; [vm_compute; reflexivity|].
  split; vm_compute; repeat (first [left; reflexivity | right]).
Qed.

(** ** The Table is not mutated *)

Module PassFacts.

Import HeapFacts.
Local Open Scope nat_scope.

Ltac primitive :=
  first
    [ apply preserves_read
    | apply preserves_lift
    | apply preserves_or_raise
    | apply preserves_emit
    | apply preserves_ret
    | apply preserves_getitem
    | apply preserves_setitem; assumption
    | apply preserves_write; assumption ].

Ltac walk :=
  repeat first
    [ eapply preserves_bind; [apply preserves_new | intros ? ?]
    | eapply preserves_bind; [primitive | intros ? _] ];
  primitive.

(** A pass adds objects and changes none of those that were there. *)
Lemma dashboard_preserves (argsort : list pyfloat -> list nat) (n : nat)
  (df : ref) (wd : widgets) :
  preserves n any (dashboard argsort df wd).
Proof. unfold dashboard. cbv zeta. walk. Qed.

Lemma lookup_firstn (n i : nat) (w w' : world) :
  i < n ->
  firstn n (heap w') = firstn n (heap w) ->
  lookup i w' = lookup i w.
Proof.
  intros Hi H. unfold lookup.
  rewrite <- (firstn_skipn n (heap w')), <- (firstn_skipn n (heap w)).
  destruct (Nat.lt_ge_cases i (length (firstn n (heap w)))) as [L|L].
  - rewrite !app_nth1; rewrite ?H; auto.
  - assert (Hl : length (heap w) <= i).
    { rewrite length_firstn in L. lia. }
    assert (Hl' : length (heap w') <= i).
    { pose proof (f_equal (@length _) H) as E.
      rewrite !length_firstn in E. lia. }
    rewrite !firstn_skipn. now rewrite !nth_overflow.
Qed.

Lemma passes_preserve (argsort : list pyfloat -> list nat) (n : nat)
  (df : ref) (ws : list widgets) (w : world) :
  n <= length (heap w) ->
  firstn n (heap (passes argsort df ws w)) = firstn n (heap w).
Proof.
  revert w. induction ws as [|wd t IH]; intros w Hw; [reflexivity|].
  cbn [passes fold_left].
  destruct (dashboard_preserves argsort n df wd w Hw) as (H1 & H2 & _).
  fold (passes argsort df t (snd (dashboard argsort df wd w))).
  rewrite IH by assumption. exact H1.
Qed.

(** The reference [load_data] returns is to an object. *)
Lemma load_data_ref (file : uploaded_file) (w0 w : world) (df : ref) :
  load_data file w0 = (Ret df, w) -> df < length (heap w).
Proof.
  destruct file as [e|parsed].
  - cbn. intro H. inversion H; subst. cbn. rewrite length_app. simpl. lia.
  - destruct (missing_columns parsed) as [|c t] eqn:Hm.
    + pose proof (LoadFacts.load_data_accepted parsed w0 Hm) as H.
      destruct (clean_frame _) as [d|e].
      * rewrite H. intro E. inversion E; subst. cbn.
        rewrite length_app. simpl. lia.
      * destruct H as [w' H]. rewrite H. discriminate.
    + unfold load_data, try, read_csv, bind, new_frame, st_write, st_error,
        emit, read_frame, ret. cbn [heap page].
      rewrite LoadFacts.lookup_last, Hm.
      intro H. inversion H; subst. cbn. rewrite length_app. simpl. lia.
Qed.

End PassFacts.

(** C9.  Whatever [load_data] returned, no aggregation pass changes it:
    after any sequence of passes, each with its own top-N and selected
    state and whether it ends normally or in an exception, the object the
    loader returned holds the same columns, rows and cells as before.  The
    margin column is assigned to the frame of the selected rows, an object
    of its own. *)
Theorem aggregation_keeps_table (argsort : list pyfloat -> list nat)
  (file : uploaded_file) (w0 w : world) (df : ref) (ws : list widgets) :
  load_data file w0 = (Ret df, w) ->
  lookup df (passes argsort df ws w) = lookup df w.
Proof.
  intro H. apply PassFacts.load_data_ref in H.
  apply (PassFacts.lookup_firstn (S df)); [lia|].
  apply PassFacts.passes_preserve. lia.
Qed.

Lemma aggregation_keeps_table_witness :
  lookup 1%nat
    (passes Sorts.stable_argsort 1%nat
       [mkWidgets 1 (VStr "CA"); mkWidgets 50 (VStr "TX")]
       (snd (load_data (Readable scenario_A) init)))
  = lookup 1%nat (snd (load_data (Readable scenario_A) init)).
Proof.
  apply (aggregation_keeps_table Sorts.stable_argsort (Readable scenario_A)
           init).
  vm_compute. reflexivity.
Defined.

(** The margin column of scenario A lands on the frame of the selected
    rows, the sixth object of the run, and not on the Table. *)
Example margin_column_on_its_own_object :
  columns (lookup 5%nat
             (passes Sorts.stable_argsort 1%nat [mkWidgets 1 (VStr "CA")]
                (snd (load_data (Readable scenario_A) init))))
  = (header ++ ["PROFIT_MARGIN"%string])%list /\
  columns (lookup 1%nat
             (passes Sorts.stable_argsort 1%nat [mkWidgets 1 (VStr "CA")]
                (snd (load_data (Readable scenario_A) init))))
  = header.
Proof. split; vm_compute; reflexivity. Qed.

(** ** Rows without a region *)

Module MissingRegionFacts.

Import Frame ListFacts.
Local Open Scope nat_scope.

Lemma keyed_filter (cols : list string) (s v : nat) (rs : list row) :
  col_index cols "STATE" = Some s ->
  keyed s v (filter (has_state cols) rs)
  = filter (fun kx => negb (Value.isna (fst kx))) (keyed s v rs).
Proof.
  intro Hs. unfold keyed. rewrite filter_map. f_equal.
  apply filter_ext. intro r. unfold has_state, cell. now rewrite Hs.
Qed.

(** A group-by on the state sees the Table as if the rows without a
    state were not there. *)
Lemma groupby_with_state (f : list pyfloat -> pyfloat) (df : DataFrame) :
  cleaned df ->
  Agg.groupby f (with_state df) "STATE" "REVENUES"
  = Agg.groupby f df "STATE" "REVENUES" /\
  exists m,
    Agg.groupby f df "STATE" "REVENUES" = Ret m /\
    Forall (fun kv => Value.isna (fst kv) = false) m.
Proof.
  intro Hc.
  destruct (TableFacts.cleaned_invariant df Hc)
    as ((v & Hv & Hn) & _ & _ & _ & Hstate & _).
  destruct (LoadFacts.has_column_index df _ Hstate) as [s Hs].
  rewrite (AggFacts.groupby_rows f df _ _ s v Hs Hv Hn).
  rewrite (AggFacts.groupby_rows f (with_state df) _ _ s v Hs Hv).
  - cbn [with_state rows]. rewrite (keyed_filter _ s v _ Hs).
    rewrite <- AggFacts.groups_filter. split; [reflexivity|].
    eexists. split; [reflexivity|].
    apply Forall_map. apply AggFacts.groups_keys.
  - cbn [with_state rows]. rewrite Forall_forall in *.
    intros r Hr. apply filter_In in Hr as [Hr _]. now apply Hn.
Qed.

Lemma items_rows_keys (items : list (value * value)) (ixs : list nat) :
  Forall (fun kv => Value.isna (fst kv) = false) items ->
  Forall (fun r => Value.isna (cell_at 0 r) = false)
    (combine ixs (map (fun kv => [fst kv; snd kv]) items)).
Proof.
  intro H. revert ixs. induction H as [|kv t Hk Ht IH]; intro ixs.
  - destruct ixs; constructor.
  - destruct ixs as [|i ixs]; [constructor|].
    simpl. constructor; [exact Hk|apply IH].
Qed.

Lemma related_row {A B} (R : A -> B -> Prop) (l : list A) (l' : list B)
  (a : A) :
  Forall2 R l l' -> In a l -> exists b, In b l' /\ R a b.
Proof.
  induction 1 as [|x y t t' Hxy Ht IH]; intros Hin; [destruct Hin|].
  destruct Hin as [<-|Hin].
  - exists y. split; [now left|assumption].
  - destruct (IH Hin) as (b & Hb & Hr). exists b. split; [now right|auto].
Qed.

(** In a sorted list what is in front stands before what follows. *)
Lemma sorted_front {A} (R : A -> A -> Prop) (l1 l2 : list A) (y : A) :
  StronglySorted R (l1 ++ l2) -> In y l2 -> Forall (fun x => R x y) l1.
Proof.
  induction l1 as [|x t IH]; cbn [app]; intros Hs Hy; [constructor|].
  inversion Hs as [|? ? Ht Hall]; subst. constructor; [|now apply IH].
  rewrite Forall_forall in Hall. apply Hall. apply in_or_app. now right.
Qed.

End MissingRegionFacts.

(** C10.  A cleaned Table can hold rows whose state is missing: the Table
    of [no_region] does.  In every cleaned Table the revenue-by-region
    mapping and the mean-revenue-by-region table are what they would be
    without these rows, and no entry of either has the missing value as its
    state.  The top-N ranks all the rows, with or without a state: the
    names and revenues of all the rows of the Table are sorted in
    descending order of revenue, and the top-N is the first N of them, its
    total the sum of their revenues.  So a row is in the top-N, whatever
    its state, unless N rows that stand before it in the descending order
    fill the top-N; and when N reaches the number of rows the top-N holds
    every row.  In the Table of [no_region] the company without a state is
    the top 1 with its revenue of 1000, while both mappings have CA alone,
    with 500. *)
Theorem missing_region_rows (argsort : list pyfloat -> list nat) :
  argsort_contract argsort ->
  (cleaned table_no_region /\
   existsb (lacks_state (columns table_no_region)) (rows table_no_region)
   = true) /\
  (forall df,
     cleaned df ->
     state_revenue_dict df = state_revenue_dict (with_state df) /\
     pivot_table df = pivot_table (with_state df) /\
     (exists m,
        state_revenue_dict df = Ret m /\
        Forall (fun kv => Value.isna (fst kv) = false) m) /\
     (exists p,
        pivot_table df = Ret p /\
        Forall (fun r => has_state (columns p) r = true) (rows p))) /\
  (forall df N,
     cleaned df ->
     exists sub sorted,
       Frame.select df top_columns = Some sub /\
       Forall2 (name_and_revenue (columns df)) (rows df) (rows sub) /\
       Permutation sorted (rows sub) /\
       by_revenue_descending top_columns sorted /\
       top_companies argsort df N
       = Ret (mkFrame top_columns (firstn N sorted)) /\
       length (firstn N sorted) = Nat.min N (length (rows df)) /\
       total_revenue (mkFrame top_columns (firstn N sorted))
       = Ret (Agg.nansum (map (revenue_of top_columns) (firstn N sorted))) /\
       (forall r, In r (rows df) ->
          exists r',
            name_and_revenue (columns df) r r' /\
            (In r' (firstn N sorted) \/
             (length (firstn N sorted) = N /\
              Forall (fun t => descending (revenue_of top_columns t)
                                 (revenue_of top_columns r'))
                (firstn N sorted)))) /\
       ((length (rows df) <= N)%nat ->
        Permutation (firstn N sorted) (rows sub))) /\
  (top_companies argsort table_no_region 1
   = Ret (mkFrame top_columns
            [(0%nat, [VStr "Acme"; VFloat (PyFloat.of_Z 1000)])]) /\
   total_revenue (mkFrame top_columns
                    [(0%nat, [VStr "Acme"; VFloat (PyFloat.of_Z 1000)])])
   = Ret (PyFloat.of_Z 1000) /\
   state_revenue_dict table_no_region = Ret [(VStr "CA", PyFloat.of_Z 500)] /\
   pivot_table table_no_region
   = Ret (mkFrame ["STATE"; "REVENUES"]%string
            [(0%nat, [VStr "CA"; VFloat (PyFloat.of_Z 500)])])).
Proof.
  intro Hsort.
  split; [split; [exact RegionFacts.table_no_region_cleaned
                 |vm_compute; reflexivity]|].
  split; [|split].
  - intros df Hc.
    destruct (MissingRegionFacts.groupby_with_state Agg.nansum df Hc)
      as (Es & ms & Hms & Ks).
    destruct (MissingRegionFacts.groupby_with_state Agg.mean df Hc)
      as (Em & mm & Hmm & Km).
    unfold state_revenue_dict, pivot_table. rewrite Es, Em.
    split; [reflexivity|]. split; [reflexivity|].
    split; [eauto|].
    rewrite Hmm. cbn [rbind]. eexists. split; [reflexivity|].
    unfold Agg.frame_of_items. cbn [rows columns].
    eapply Forall_impl;
      [|apply MissingRegionFacts.items_rows_keys].
    + intros r Hr. unfold has_state, Frame.cell.
      cbn [Frame.col_index String.eqb Ascii.eqb Bool.eqb option_map].
      now rewrite Hr.
    + unfold Agg.float_items. apply Forall_map. cbn [fst].
      rewrite Forall_forall in *. intros kv Hkv.
      apply filter_In in Hkv as [Hkv _]. now apply Km.
  - intros df N Hc.
    destruct (TopFacts.top_companies_rows argsort df N Hsort Hc)
      as (sub & sorted & Hsel & Hrows & Hperm & Hdesc & Htop & Htot).
    pose proof (Permutation_length Hperm) as Hlen.
    pose proof (Forall2_length Hrows) as Hlen'.
    exists sub, sorted.
    split; [assumption|]. split; [assumption|]. split; [assumption|].
    split; [assumption|]. split; [assumption|].
    split; [rewrite length_firstn; lia|]. split; [assumption|]. split.
    + intros r Hr.
      destruct (MissingRegionFacts.related_row _ _ _ r Hrows Hr)
        as (r' & Hr' & Hrel).
      exists r'. split; [assumption|].
      apply (Permutation_in _ (Permutation_sym Hperm)) in Hr'.
      rewrite <- (firstn_skipn N sorted) in Hr'.
      apply in_app_or in Hr' as [Hin|Hin]; [now left|right].
      split.
      * rewrite length_firstn. apply Nat.min_l.
        destruct (Nat.le_gt_cases N (length sorted)) as [L|L]; [assumption|].
        rewrite skipn_all2 in Hin by lia. destruct Hin.
      * apply (MissingRegionFacts.sorted_front
                 (fun a b => descending (revenue_of top_columns a)
                               (revenue_of top_columns b))
                 (firstn N sorted) (skipn N sorted) r'); [|assumption].
        rewrite firstn_skipn. exact Hdesc.
    + intro HN. rewrite firstn_all2 by lia. exact Hperm.
  - split; [sort_pair Hsort; float_eq|].
    split; [float_eq|]. split; float_eq.
Qed.

Lemma missing_region_rows_witness :
  top_companies Sorts.stable_argsort table_no_region 1
  = Ret (mkFrame top_columns
           [(0%nat, [VStr "Acme"; VFloat (PyFloat.of_Z 1000)])]) /\
  state_revenue_dict table_no_region = Ret [(VStr "CA", PyFloat.of_Z 500)].
Proof.
  destruct (missing_region_rows Sorts.stable_argsort
              SortsFacts.stable_argsort_contract)
    as (_ & _ & _ & Htop & _ & Hdict & _).
  split; [exact Htop|exact Hdict].
Defined.

(** * Further properties *)

Import Frame FrameFacts.
Local Open Scope nat_scope.
Local Open Scope app_scope.

(** ** Group keys *)

Module KeyFacts.

Lemma float_eqb_sym (a b : pyfloat) : PyFloat.eqb a b = PyFloat.eqb b a.
Proof.
  destruct a, b; simpl; try reflexivity.
  unfold PyFloat.Qc_eqb.
  destruct (Qc_eq_dec q q0), (Qc_eq_dec q0 q); congruence.
Qed.

Lemma float_eqb_trans (a b c : pyfloat) :
  PyFloat.eqb a b = true -> PyFloat.eqb b c = true -> PyFloat.eqb a c = true.
Proof.
  destruct a, b, c; simpl; try congruence.
  rewrite !PyFloatFacts.Qc_eqb_eq. congruence.
Qed.

Lemma key_eqb_sym (a b : value) : Value.eqb a b = Value.eqb b a.
Proof.
  destruct a, b; unfold Value.eqb, Value.as_number; try reflexivity;
    try apply String.eqb_sym; apply float_eqb_sym.
Qed.

Lemma key_eqb_trans (a b c : value) :
  Value.eqb a b = true -> Value.eqb b c = true -> Value.eqb a c = true.
Proof.
  destruct a, b, c; unfold Value.eqb, Value.as_number; try congruence;
    try (rewrite !String.eqb_eq; congruence);
    apply float_eqb_trans.
Qed.

Lemma key_eqb_refl (a : value) : Value.isna a = false -> Value.eqb a a = true.
Proof.
  destruct a; unfold Value.eqb, Value.as_number; intro H.
  - apply String.eqb_refl.
  - apply PyFloatFacts.eqb_refl. reflexivity.
  - apply PyFloatFacts.eqb_refl. destruct f; simpl in *; congruence.
  - apply PyFloatFacts.eqb_refl. reflexivity.
Qed.

Lemma key_eqb_missing (a b : value) : Value.isna a = true -> Value.eqb a b = false.
Proof.
  destruct a as [| |f|]; simpl; try discriminate.
  destruct f; try discriminate. intros _.
  destruct b; unfold Value.eqb, Value.as_number; reflexivity.
Qed.

End KeyFacts.

(** ** What the groups hold *)

Module GroupFacts.

Import Agg KeyFacts.

Lemma groups_snoc {A} (l : list (value * A)) (kx : value * A) :
  groups (l ++ [kx])
  = if Value.isna (fst kx) then groups l
    else add_to_group (fst kx) (snd kx) (groups l).
Proof. unfold groups. now rewrite fold_left_app. Qed.

Lemma group_of_snoc {A} (k' : value) (l : list (value * A)) (kx : value * A) :
  group_of k' (l ++ [kx])
  = group_of k' l ++ (if Value.eqb (fst kx) k' then [snd kx] else []).
Proof.
  unfold group_of. rewrite filter_app, map_app. cbn [filter].
  destruct (Value.eqb (fst kx) k'); reflexivity.
Qed.

Lemma filter_none {B} (f : B -> bool) (l : list B) :
  (forall x, In x l -> f x = false) -> filter f l = [].
Proof.
  induction l as [|a l IH]; [reflexivity|]. intro H. cbn [filter].
  rewrite (H a (or_introl eq_refl)). apply IH. intros x Hx. apply H. now right.
Qed.

Lemma add_to_group_fst {A} (Q : value -> Prop) (k : value) (x : A)
  (g : list (value * list A)) :
  Q k -> Forall (fun kv => Q (fst kv)) g ->
  Forall (fun kv => Q (fst kv)) (add_to_group k x g).
Proof.
  intros Hk Hg. induction Hg as [|[k' xs] t Hh Ht IH]; cbn [add_to_group].
  - repeat constructor. exact Hk.
  - destruct (Value.eqb k k'); constructor; auto.
Qed.

Lemma add_to_group_distinct {A} (k : value) (x : A)
  (g : list (value * list A)) :
  distinct_keys g -> distinct_keys (add_to_group k x g).
Proof.
  unfold distinct_keys.
  induction 1 as [|[k' xs] t Hh Ht IH]; cbn [add_to_group].
  - repeat constructor.
  - destruct (Value.eqb k k') eqn:E; constructor; auto.
    cbn [fst] in *.
    apply (add_to_group_fst (fun c => Value.eqb k' c = false)); [|exact Hh].
    now rewrite key_eqb_sym.
Qed.

Lemma add_to_group_content {A} (C : value -> list A) (k : value) (x : A)
  (g : list (value * list A)) :
  Value.eqb k k = true ->
  distinct_keys g ->
  Forall (fun kv => snd kv = C (fst kv)) g ->
  (Forall (fun kv => Value.eqb k (fst kv) = false) g -> C k = []) ->
  Forall (fun kv => snd kv
                    = C (fst kv) ++ (if Value.eqb k (fst kv) then [x] else []))
    (add_to_group k x g).
Proof.
  intros Hkk Hd. unfold distinct_keys in Hd.
  induction Hd as [|[k' xs] t Hh Ht IH]; intros Hc Hnew; cbn [add_to_group].
  - constructor; [|constructor]. cbn [fst snd].
    now rewrite Hkk, (Hnew (Forall_nil _)).
  - inversion Hc as [|? ? Hc1 Hc2]; subst. cbn [fst snd] in *.
    destruct (Value.eqb k k') eqn:E.
    + constructor; cbn [fst snd]; [now rewrite E, Hc1|].
      rewrite Forall_forall in *. intros kv Hkv.
      destruct (Value.eqb k (fst kv)) eqn:E'.
      * exfalso. specialize (Hh kv Hkv).
        rewrite key_eqb_sym in E.
        rewrite (key_eqb_trans _ _ _ E E') in Hh. discriminate.
      * rewrite app_nil_r. now apply Hc2.
    + constructor; cbn [fst snd]; [now rewrite E, app_nil_r|].
      apply IH; [assumption|].
      intro Hall. apply Hnew. constructor; assumption.
Qed.

Lemma add_to_group_keeps {A} (k : value) (x : A) (g : list (value * list A))
  (kv : value * list A) :
  In kv g -> exists kv', In kv' (add_to_group k x g) /\ fst kv' = fst kv.
Proof.
  induction g as [|[k' xs] t IH]; [intros []|].
  cbn [add_to_group]. intros [<-|H].
  - destruct (Value.eqb k k'); eexists; split; [left; reflexivity|reflexivity
                                               |left; reflexivity|reflexivity].
  - destruct (Value.eqb k k').
    + exists kv. split; [now right|reflexivity].
    + destruct (IH H) as (kv' & Hin & Hf). exists kv'. split; [now right|auto].
Qed.

Lemma add_to_group_covers {A} (k : value) (x : A) (g : list (value * list A)) :
  Value.eqb k k = true ->
  exists kv', In kv' (add_to_group k x g) /\ Value.eqb k (fst kv') = true.
Proof.
  intro Hkk. induction g as [|[k' xs] t IH]; cbn [add_to_group].
  - eexists. split; [left; reflexivity|exact Hkk].
  - destruct (Value.eqb k k') eqn:E.
    + eexists. split; [left; reflexivity|exact E].
    + destruct IH as (kv' & Hin & He). exists kv'. split; [now right|auto].
Qed.

(** What [groupby] makes of a list of keyed values: a group holds exactly
    what goes with the keys equal to its own, in order; no two groups have
    equal keys; no group has the missing key; every key that is not missing
    has its group. *)
Lemma groups_spec {A} (l : list (value * A)) :
  Forall (fun kv => snd kv = group_of (fst kv) l) (groups l) /\
  distinct_keys (groups l) /\
  (forall kx, In kx l -> Value.isna (fst kx) = false ->
     exists kv, In kv (groups l) /\ Value.eqb (fst kx) (fst kv) = true).
Proof.
  induction l as [|[k x] l IH] using rev_ind.
  - repeat split; try constructor. intros kx [].
  - destruct IH as (Hc & Hd & Hcov).
    rewrite groups_snoc. cbn [fst snd].
    destruct (Value.isna k) eqn:Ek.
    + split; [|split; [assumption|]].
      * eapply Forall_impl; [|exact Hc]. intros kv ->.
        rewrite group_of_snoc. cbn [fst].
        now rewrite (key_eqb_missing _ _ Ek), app_nil_r.
      * intros kx Hin Hn. apply in_app_or in Hin as [Hin|[<-|[]]]; auto.
        cbn [fst] in Hn. congruence.
    + pose proof (key_eqb_refl k Ek) as Hkk.
      split; [|split].
      * eapply Forall_impl;
          [|apply (add_to_group_content (fun k' => group_of k' l) k x);
            try assumption].
        { intros kv ->. now rewrite group_of_snoc. }
        intro Hnone. unfold group_of.
        assert (E : filter (fun kx => Value.eqb (fst kx) k) l = []);
          [|now rewrite E].
        apply filter_none. intros kx Hin.
        destruct (Value.eqb (fst kx) k) eqn:E; [|reflexivity]. exfalso.
        destruct (Value.isna (fst kx)) eqn:En;
          [rewrite (key_eqb_missing _ _ En) in E; discriminate|].
        destruct (Hcov kx Hin En) as (kv & Hkv & He).
        rewrite Forall_forall in Hnone. specialize (Hnone kv Hkv).
        rewrite key_eqb_sym in E.
        rewrite (key_eqb_trans _ _ _ E He) in Hnone. discriminate.
      * now apply add_to_group_distinct.
      * intros kx Hin Hn. apply in_app_or in Hin as [Hin|[<-|[]]].
        -- destruct (Hcov kx Hin Hn) as (kv & Hkv & He).
           destruct (add_to_group_keeps k x _ kv Hkv) as (kv' & Hin' & Hf).
           exists kv'. split; [assumption|]. now rewrite Hf.
        -- cbn [fst]. now apply add_to_group_covers.
Qed.

End GroupFacts.

(** ** Rows numbered anew *)

Module NumberFacts.

(** Rows numbered from [a] on, as [reset_index] leaves them. *)
Lemma labels_numbered {A} (l : list A) (a : nat) :
  map fst (combine (seq a (length l)) l) = seq a (length l).
Proof.
  revert a. induction l as [|x t IH]; intro a; cbn [length seq combine map];
    [reflexivity|]. cbn [fst]. f_equal. apply IH.
Qed.

Lemma cells_numbered {A} (l : list A) (a : nat) :
  map snd (combine (seq a (length l)) l) = l.
Proof.
  revert a. induction l as [|x t IH]; intro a; cbn [length seq combine map];
    [reflexivity|]. cbn [snd]. f_equal. apply IH.
Qed.




End NumberFacts.

(** ** A group-by over the states *)

Module GroupByFacts.

Import Agg AggFacts KeyFacts GroupFacts.

Lemma distinct_keys_map {A B} (f : list A -> B) (g : list (value * list A)) :
  distinct_keys g -> distinct_keys (map (fun kv => (fst kv, f (snd kv))) g).
Proof.
  unfold distinct_keys. induction 1 as [|a t Ha Ht IH]; cbn [map];
    constructor; [|assumption].
  apply Forall_map. exact Ha.
Qed.

Lemma group_of_keyed (s v : nat) (k : value) (rs : list row) :
  group_of k (keyed s v rs)
  = map (fun r => number_of (cell_at v r))
      (filter (fun r => Value.eqb (cell_at s r) k) rs).
Proof.
  unfold group_of, keyed.
  rewrite (ListFacts.filter_map (fun kx => Value.eqb (fst kx) k)).
  rewrite map_map. reflexivity.
Qed.

(** The aggregate of one column over the rows of a state. *)
Lemma state_data_agg (f : list pyfloat -> pyfloat) (df : DataFrame)
  (col : string) (s v : nat) (k : value) :
  col_index (columns df) "STATE" = Some s ->
  col_index (columns df) col = Some v ->
  Forall (fun r => Value.is_number (cell_at v r) = true) (rows df) ->
  exists sd,
    state_data df k = Ret sd /\
    column_agg f sd col = Ret (f (group_of k (keyed s v (rows df)))).
Proof.
  intros Hs Hv Hn. unfold state_data. rewrite Hs. cbn [of_option rbind].
  eexists. split; [reflexivity|].
  unfold column_agg, column. cbn [columns rows]. rewrite Hv.
  cbn [option_map of_option rbind]. rewrite map_map. cbn [snd].
  rewrite numbers_numeric.
  - cbn [of_option rbind]. rewrite map_map. now rewrite group_of_keyed.
  - apply Forall_map. apply Forall_forall. intros r Hr.
    apply filter_In in Hr as [Hr _].
    rewrite Forall_forall in Hn. now apply Hn.
Qed.

(** The items of a group-by over the states: one item per state, whose
    value is the aggregate over the rows of that state. *)
Lemma groupby_state_items (f : list pyfloat -> pyfloat) (df : DataFrame)
  (col : string) (s v : nat) :
  col_index (columns df) "STATE" = Some s ->
  col_index (columns df) col = Some v ->
  Forall (fun r => Value.is_number (cell_at v r) = true) (rows df) ->
  exists items,
    groupby f df "STATE" col = Ret items /\
    distinct_keys items /\
    Forall (fun kv =>
              Value.isna (fst kv) = false /\
              exists sd, state_data df (fst kv) = Ret sd /\
                         column_agg f sd col = Ret (snd kv)) items /\
    (forall r, In r (rows df) -> Value.isna (cell_at s r) = false ->
       exists kv, In kv items /\ Value.eqb (cell_at s r) (fst kv) = true).
Proof.
  intros Hs Hv Hn.
  exists (map (fun g => (fst g, f (snd g))) (groups (keyed s v (rows df)))).
  split; [exact (groupby_rows f df "STATE" col s v Hs Hv Hn)|].
  destruct (groups_spec (keyed s v (rows df))) as (Hc & Hd & Hcov).
  split; [|split].
  - now apply distinct_keys_map.
  - apply Forall_map. cbn [fst snd].
    pose proof (groups_keys (keyed s v (rows df))) as Hk.
    rewrite Forall_forall in Hc, Hk. apply Forall_forall.
    intros kv Hkv. split; [now apply Hk|].
    rewrite (Hc kv Hkv). now apply state_data_agg.
  - intros r Hr Hna.
    destruct (Hcov (cell_at s r, number_of (cell_at v r))) as (kv & Hkv & He).
    + unfold keyed. apply in_map_iff. now exists r.
    + exact Hna.
    + exists (fst kv, f (snd kv)). split; [|exact He].
      apply in_map_iff. now exists kv.
Qed.

End GroupByFacts.


(** ** More on the loader *)

Module LoadMore.

(** The frame behind the reference [load_data] returns for an accepted
    input is the cleaning of the filtered parsed frame. *)
Lemma load_data_returns (parsed : DataFrame) (w w' : world) (r : ref) :
  missing_columns parsed = [] ->
  load_data (Readable parsed) w = (Ret r, w') ->
  clean_frame (dropna key_columns parsed) = Ret (lookup r w').
Proof.
  intros Hm Hl.
  pose proof (LoadFacts.load_data_accepted parsed w Hm) as H.
  destruct (clean_frame (dropna key_columns parsed)) as [d|e].
  - rewrite H in Hl. inversion Hl; subst.
    now rewrite LoadFacts.lookup_second.
  - destruct H as [w'' H]. rewrite H in Hl. discriminate.
Qed.

Lemma replace_nth_same (i : nat) (l : list value) (d : value) :
  replace_nth i (nth i l d) l = l.
Proof.
  revert i. induction l as [|x t IH]; intro i; destruct i; simpl;
    try reflexivity.
  now rewrite IH.
Qed.

Lemma apply_same (f : value -> result value) (s : Series) :
  Forall (fun p => f (snd p) = Ret (snd p)) s -> apply f s = Ret s.
Proof.
  induction 1 as [|[i v] t Hv Ht IH]; simpl; [reflexivity|].
  cbn [snd] in Hv. now rewrite Hv, IH.
Qed.

(** A cleaning step whose function keeps every cell keeps the frame. *)
Lemma cleaned_column_same (d : DataFrame) (c : string)
  (f : value -> result value) (i : nat) :
  col_index (columns d) c = Some i ->
  Forall (fun r => f (cell_at i r) = Ret (cell_at i r)) (rows d) ->
  cleaned_column d c f = Ret d.
Proof.
  intros Hi Hall. unfold cleaned_column, column, set_column. rewrite Hi.
  cbn [option_map of_option rbind].
  rewrite apply_same by (apply Forall_map; exact Hall).
  cbn [rbind]. rewrite map_map. cbn [snd].
  destruct d as [cols rs]. cbn [columns rows] in *. do 2 f_equal.
  clear. induction rs as [|[l cells] t IH]; [reflexivity|].
  cbn [map combine fst snd]. rewrite IH. unfold cell_at. cbn [snd].
  now rewrite replace_nth_same.
Qed.

Lemma clean_money_number (v : value) :
  Value.is_number v = true -> clean_money v = Ret v.
Proof. destruct v; simpl; congruence. Qed.

Lemma clean_count_number (v : value) :
  Value.is_number v = true -> clean_count v = Ret v.
Proof. destruct v; simpl; congruence. Qed.

(** The Table of a rectangular file is rectangular. *)
Lemma table_rectangular (parsed : DataFrame) (w w' : world) (r : ref) :
  missing_columns parsed = [] ->
  rectangular parsed ->
  load_data (Readable parsed) w = (Ret r, w') ->
  rectangular (lookup r w').
Proof.
  intros Hm Hrect Hl.
  apply (load_data_returns parsed w w' r Hm) in Hl.
  destruct (LoadFacts.required_indices parsed Hm) as (i & j & k & Hi & Hj & Hk).
  destruct (LoadFacts.clean_frame_rows (dropna key_columns parsed) _ i j k
              Hi Hj Hk Hl) as [Hcols Hrows].
  unfold rectangular in *. rewrite Hcols. cbn [dropna columns].
  assert (H0 : Forall (fun r0 => length (snd r0) = length (columns parsed))
                 (rows (dropna key_columns parsed))).
  { apply Forall_forall. intros r0 Hr0. cbn [dropna rows] in Hr0.
    apply filter_In in Hr0 as [Hr0 _]. rewrite Forall_forall in Hrect.
    now apply Hrect. }
  clear - H0 Hrows.
  induction Hrows as [|r0 r1 t0 t1 [_ (a & b & c & _ & _ & _ & Hs)] Ht IH];
    [constructor|].
  inversion H0; subst. constructor; [|now apply IH].
  now rewrite Hs, !replace_nth_length.
Qed.

End LoadMore.


(** ** Files without data, and what cleaning keeps *)

(** X1.  When [read_csv] raises a [ValueError], as it does for a file it
    cannot parse, nothing is raised further: the loader shows the error
    with its text and returns a frame without columns and rows, and the
    script shows that there is no data and ends, without any aggregation. *)
Theorem read_error_no_aggregation (argsort : list pyfloat -> list nat)
  (msg : string) (wd : widgets) (w : world) :
  main argsort (Some (Unreadable (ValueError msg))) wd w
  = (Ret tt,
     mkWorld (heap w ++ [Frame.empty_frame])
       (page w ++
        [UiError ("Error reading file: " ++ msg);
         UiError "No data to display due to missing columns or other issues."])).
Proof.
  unfold main, load_data, try, read_csv, raise, bind, st_error, emit,
    new_frame, read_frame. cbn [heap page].
  rewrite LoadFacts.lookup_last. cbn [Frame.empty Frame.empty_frame columns].
  cbn [heap page]. now rewrite <- app_assoc.
Qed.

Lemma cleaned_column_no_rows (cols : list string) (c : string)
  (f : value -> result value) (i : nat) :
  col_index cols c = Some i ->
  cleaned_column (mkFrame cols []) c f = Ret (mkFrame cols []).
Proof.
  intro H. unfold cleaned_column, column, set_column. cbn [columns rows].
  rewrite H. reflexivity.
Qed.

(** X2.  When the file has the six required columns and no row has all of
    revenue, profit and employee count, the loader returns a Table with the
    columns of the file and no rows; the script shows the columns, then
    that there is no data, and ends without any aggregation. *)
Theorem no_complete_row_no_aggregation (argsort : list pyfloat -> list nat)
  (parsed : DataFrame) (wd : widgets) (w : world) :
  missing_columns parsed = [] ->
  rows (Frame.dropna key_columns parsed) = [] ->
  main argsort (Some (Readable parsed)) wd w
  = (Ret tt,
     mkWorld (heap w ++ [parsed; mkFrame (columns parsed) []])
       (page w ++
        [UiWrite (Text "### Columns in the uploaded dataset:");
         UiWrite (Index (columns parsed));
         UiError "No data to display due to missing columns or other issues."])).
Proof.
  intros Hm Hr.
  destruct (LoadFacts.required_indices parsed Hm) as (i & j & k & Hi & Hj & Hk).
  pose proof (LoadFacts.load_data_accepted parsed w Hm) as H.
  assert (E : Frame.dropna key_columns parsed = mkFrame (columns parsed) []).
  { unfold Frame.dropna in *. cbn [rows] in Hr. now rewrite Hr. }
  rewrite E in H. unfold clean_frame in H.
  rewrite (cleaned_column_no_rows _ _ _ i Hi) in H. cbn [rbind] in H.
  rewrite (cleaned_column_no_rows _ _ _ j Hj) in H. cbn [rbind] in H.
  rewrite (cleaned_column_no_rows _ _ _ k Hk) in H.
  unfold main, bind. rewrite H.
  unfold read_frame. rewrite LoadFacts.lookup_second.
  unfold Frame.empty. cbn [rows columns].
  destruct (columns parsed); unfold st_error, emit; cbn [heap page];
    now rewrite <- app_assoc.
Qed.

Lemma no_complete_row_no_aggregation_witness :
  main Sorts.stable_argsort (Some (Readable no_complete_row)) default_widgets
    init
  = (Ret tt,
     mkWorld
       (heap init ++ [no_complete_row; mkFrame (columns no_complete_row) []])
       (page init ++
        [UiWrite (Text "### Columns in the uploaded dataset:");
         UiWrite (Index (columns no_complete_row));
         UiError "No data to display due to missing columns or other issues."])).
Proof.
  apply (no_complete_row_no_aggregation Sorts.stable_argsort no_complete_row
           default_widgets init); reflexivity.
Defined.

(** X3.  Cleaning touches the revenue, profit and employee cells only: each
    row of the Table has the index label and the number of cells of the
    row of the file it comes from, and the same cell in every other
    column. *)
Theorem load_data_keeps_other_columns (parsed : DataFrame) (w w' : world)
  (r : ref) :
  missing_columns parsed = [] ->
  load_data (Readable parsed) w = (Ret r, w') ->
  Forall2 (kept_row (columns parsed))
    (rows (Frame.dropna key_columns parsed)) (rows (lookup r w')).
Proof.
  intros Hm Hl.
  apply (LoadMore.load_data_returns parsed w w' r Hm) in Hl.
  destruct (LoadFacts.required_indices parsed Hm) as (i & j & k & Hi & Hj & Hk).
  destruct (LoadFacts.clean_frame_rows (dropna key_columns parsed) _ i j k
              Hi Hj Hk Hl) as [_ Hrows].
  eapply Forall2_impl; [|exact Hrows].
  intros r0 r1 [Hf (a & b & c & _ & _ & _ & Hs)].
  split; [assumption|]. split.
  - now rewrite Hs, !replace_nth_length.
  - intros x Hx. unfold cell.
    destruct (col_index (columns parsed) x) as [m|] eqn:Em; [|reflexivity].
    cbn [option_map]. f_equal. unfold cell_at. rewrite Hs.
    rewrite !nth_replace_other; [reflexivity| | |];
      intro; subst m; apply Hx;
      [ rewrite (col_index_inj _ _ _ _ Em Hi)
      | rewrite (col_index_inj _ _ _ _ Em Hj)
      | rewrite (col_index_inj _ _ _ _ Em Hk) ]; simpl; auto.
Qed.

Lemma load_data_keeps_other_columns_witness :
  Forall2 (kept_row (columns scenario_A))
    (rows (Frame.dropna key_columns scenario_A))
    (rows (lookup 1 (snd (load_data (Readable scenario_A) init)))).
Proof.
  apply (load_data_keeps_other_columns scenario_A init
           (snd (load_data (Readable scenario_A) init)) 1).
  - reflexivity.
  - vm_compute. reflexivity.
Defined.

(** X4.  When the revenue, profit and employee cells of the file that are
    not missing are numbers already, cleaning changes nothing: the Table is
    the parsed frame without the rows that miss one of the three. *)
Theorem numeric_input_passes_through (parsed : DataFrame) (w : world) :
  missing_columns parsed = [] ->
  Forall (numeric_keys (columns parsed))
    (rows (Frame.dropna key_columns parsed)) ->
  table_of (load_data (Readable parsed) w)
  = Some (Frame.dropna key_columns parsed).
Proof.
  intros Hm Hnum.
  destruct (LoadFacts.required_indices parsed Hm) as (i & j & k & Hi & Hj & Hk).
  pose proof (LoadFacts.load_data_accepted parsed w Hm) as H.
  set (d0 := dropna key_columns parsed) in *.
  assert (Hcell : forall c m, In c key_columns ->
            col_index (columns parsed) c = Some m ->
            Forall (fun r => Value.is_number (cell_at m r) = true) (rows d0)).
  { intros c m Hc Hcm. eapply Forall_impl; [|exact Hnum].
    intros r Hr. apply (Hr c); [assumption|].
    unfold cell. now rewrite Hcm. }
  assert (E : clean_frame d0 = Ret d0).
  { unfold clean_frame.
    rewrite (LoadMore.cleaned_column_same d0 _ _ i Hi).
    2: { eapply Forall_impl; [|apply (Hcell "REVENUES"%string i); simpl; auto].
         intros r. apply LoadMore.clean_money_number. }
    cbn [rbind].
    rewrite (LoadMore.cleaned_column_same d0 _ _ j Hj).
    2: { eapply Forall_impl; [|apply (Hcell "PROFIT"%string j); simpl; auto].
         intros r. apply LoadMore.clean_money_number. }
    cbn [rbind].
    apply (LoadMore.cleaned_column_same d0 _ _ k Hk).
    eapply Forall_impl; [|apply (Hcell "EMPLOYEES"%string k); simpl; auto].
    intros r. apply LoadMore.clean_count_number. }
  rewrite E in H. rewrite H. unfold table_of.
  now rewrite LoadFacts.lookup_second.
Qed.

Lemma numeric_input_passes_through_witness :
  table_of (load_data (Readable plain_numbers) init)
  = Some (Frame.dropna key_columns plain_numbers).
Proof.
  apply (numeric_input_passes_through plain_numbers init).
  - reflexivity.
  - repeat constructor; intros c v Hc Hv;
      repeat (destruct Hc as [<-|Hc];
              [vm_compute in Hv; inversion Hv; reflexivity|]);
      destruct Hc.
Defined.

(** ** The states of the revenue mapping and of the pivot table *)

(** X5.  The revenue mapping of a cleaned Table has one entry per state: no two
    entries have equal keys, no key is missing, the value of an entry is
    the revenue sum over the rows [state_data] selects for its key, and
    every row that has a state finds its entry. *)
Theorem state_revenue_entries (df : DataFrame) :
  cleaned df ->
  exists items,
    state_revenue_dict df = Ret items /\
    distinct_keys items /\
    Forall (fun kv =>
              Value.isna (fst kv) = false /\
              exists sd, state_data df (fst kv) = Ret sd /\
                         column_agg Agg.nansum sd "REVENUES" = Ret (snd kv))
      items /\
    (forall r v, In r (rows df) ->
       Frame.cell (columns df) r "STATE" = Some v -> Value.isna v = false ->
       exists kv, In kv items /\ Value.eqb v (fst kv) = true).
Proof.
  intro Hc.
  destruct (TableFacts.cleaned_invariant df Hc)
    as ((v & Hv & Hn) & _ & _ & _ & Hstate & _).
  destruct (LoadFacts.has_column_index df _ Hstate) as [s Hs].
  destruct (GroupByFacts.groupby_state_items Agg.nansum df "REVENUES" s v
              Hs Hv Hn) as (items & Hg & Hd & Hitems & Hcov).
  exists items. repeat split; try assumption.
  intros r x Hr Hx Hna. unfold Frame.cell in Hx. rewrite Hs in Hx.
  cbn [option_map] in Hx. inversion Hx; subst. now apply Hcov.
Qed.

Lemma state_revenue_entries_witness :
  exists items,
    state_revenue_dict table_A = Ret items /\
    distinct_keys items /\
    Forall (fun kv =>
              Value.isna (fst kv) = false /\
              exists sd, state_data table_A (fst kv) = Ret sd /\
                         column_agg Agg.nansum sd "REVENUES" = Ret (snd kv))
      items /\
    (forall r v, In r (rows table_A) ->
       Frame.cell (columns table_A) r "STATE" = Some v ->
       Value.isna v = false ->
       exists kv, In kv items /\ Value.eqb v (fst kv) = true).
Proof.
  apply (state_revenue_entries table_A).
  exists scenario_A, init, 1%nat, (snd (load_data (Readable scenario_A) init)).
  repeat split; vm_compute; reflexivity.
Defined.



(** ** Counties *)

Module CountyFacts.

Import Agg AggFacts KeyFacts GroupFacts ListFacts.

Lemma rows_of_index (df : DataFrame) (c : string) (i : nat) (k : value) :
  col_index (columns df) c = Some i ->
  rows_of df c k = filter (fun r => Value.eqb (cell_at i r) k) (rows df).
Proof.
  intro H. unfold rows_of. apply filter_ext. intro r.
  unfold cell. now rewrite H.
Qed.

(** Keys that are equal select the same rows. *)
Lemma rows_of_equal_keys (df : DataFrame) (c : string) (k k' : value) :
  Value.eqb k k' = true -> rows_of df c k = rows_of df c k'.
Proof.
  intro H. unfold rows_of. apply filter_ext. intro r.
  destruct (cell (columns df) r c) as [v|]; [|reflexivity].
  destruct (Value.eqb v k) eqn:E.
  - symmetry. exact (key_eqb_trans _ _ _ E H).
  - destruct (Value.eqb v k') eqn:E'; [|reflexivity].
    rewrite key_eqb_sym in H.
    now rewrite (key_eqb_trans _ _ _ E' H) in E.
Qed.

Lemma pairs_perm {A} (R : A -> A -> Prop) (l l' : list A) :
  (forall x y, R x y -> R y x) ->
  Permutation l l' -> ForallOrdPairs R l -> ForallOrdPairs R l'.
Proof.
  intros Hsym Hp. induction Hp as [|x l l' Hp IH|x y l|l l' l'' H1 IH1 H2 IH2];
    intro H.
  - constructor.
  - inversion H as [|? ? Hx Hl]; subst. constructor; [|now apply IH].
    now apply (Permutation_Forall Hp).
  - inversion H as [|? ? Hy Hl]; subst.
    inversion Hl as [|? ? Hx Hl']; subst.
    inversion Hy as [|? ? Hyx Hy']; subst.
    constructor; [constructor; [now apply Hsym|assumption]|].
    constructor; assumption.
  - auto.
Qed.

Lemma sorted_of_map {A B} (R : B -> B -> Prop) (f : A -> B) (l : list A) :
  StronglySorted R (map f l) ->
  StronglySorted (fun x y => R (f x) (f y)) l.
Proof.
  induction l as [|x t IH]; cbn [map]; intro H; [constructor|].
  inversion H as [|? ? Hs Hall]; subst. constructor; [now apply IH|].
  rewrite Forall_map in Hall. exact Hall.
Qed.

Lemma add_to_group_all {A} (P : value * list A -> Prop) (k : value) (x : A)
  (g : list (value * list A)) :
  (forall k' xs, P (k', xs) -> P (k', xs ++ [x])) ->
  P (k, [x]) ->
  Forall P g -> Forall P (add_to_group k x g).
Proof.
  intros Happ Hnew Hg. induction Hg as [|[k' xs] t Hh Ht IH];
    cbn [add_to_group].
  - repeat constructor. exact Hnew.
  - destruct (Value.eqb k k'); constructor; auto.
Qed.

(** No group is empty. *)
Lemma groups_inhabited {A} (l : list (value * A)) :
  Forall (fun kv => snd kv <> []) (groups l).
Proof.
  induction l as [|[k x] l IH] using rev_ind; [constructor|].
  rewrite groups_snoc. cbn [fst snd].
  destruct (Value.isna k); [assumption|].
  apply add_to_group_all; cbn [snd]; try assumption.
  - intros _ xs _ E. now destruct xs.
  - discriminate.
Qed.

Lemma desc_counts (a b : Z) :
  descending (PyFloat.of_Z a) (PyFloat.of_Z b) -> (b <= a)%Z.
Proof.
  intros [H _]. unfold PyFloat.of_Z, PyFloat.ltb in H.
  apply PyFloatFacts.Qc_ltb_ge in H. unfold Qcle in H. cbn [this Q2Qc] in H.
  rewrite ?Qred_correct in H. now rewrite Zle_Qle.
Qed.

(** The first row of a frame sorted on a numeric column, if the frame has
    a row: a row of the frame that none of its rows comes before. *)
Lemma first_of_sorted (argsort : list pyfloat -> list nat) (t : DataFrame)
  (c : string) (v : nat) :
  argsort_contract argsort ->
  col_index (columns t) c = Some v ->
  Forall (fun r => Value.is_number (cell_at v r) = true) (rows t) ->
  rows t <> [] ->
  exists sorted r0,
    sort_values argsort t c = Ret sorted /\
    columns sorted = columns t /\
    head 1 sorted = mkFrame (columns t) [r0] /\
    In r0 (rows t) /\
    Forall (fun r => descending (number_of (cell_at v r0))
                       (number_of (cell_at v r))) (rows t).
Proof.
  intros Hsort Hv Hn Hne.
  destruct (SortFacts.sort_values_rows argsort Hsort t c v Hv Hn)
    as (sorted & Hs & Hcols & Hperm & Hdesc).
  destruct (rows sorted) as [|r0 rest] eqn:E.
  - apply Permutation_nil in Hperm. contradiction.
  - exists sorted, r0. repeat split; try assumption.
    + unfold head. now rewrite E, Hcols.
    + apply (Permutation_in _ Hperm). now left.
    + apply (Permutation_Forall Hperm).
      inversion Hdesc as [|? ? _ Hall]; subst.
      constructor; [|exact Hall].
      split; [apply PyFloatFacts.ltb_irrefl|auto].
Qed.

Lemma sort_no_rows (argsort : list pyfloat -> list nat) (cols : list string)
  (c : string) (v : nat) :
  argsort_contract argsort ->
  col_index cols c = Some v ->
  exists sorted,
    sort_values argsort (mkFrame cols []) c = Ret sorted /\
    columns sorted = cols /\ rows sorted = [].
Proof.
  intros Hsort Hv.
  destruct (SortFacts.sort_values_rows argsort Hsort (mkFrame cols []) c v
              Hv (Forall_nil _)) as (sorted & Hs & Hcols & Hperm & _).
  exists sorted. repeat split; try assumption.
  apply Permutation_sym in Hperm. now apply Permutation_nil.
Qed.

Lemma iloc0_first (cols : list string) (r0 : row) (c : string) (i : nat) :
  col_index cols c = Some i ->
  iloc0 (mkFrame cols [r0]) c = Ret (cell_at i r0).
Proof.
  intro H. unfold iloc0, column. cbn [columns rows]. now rewrite H.
Qed.

Lemma iloc0_no_rows (cols : list string) (c : string) (i : nat) :
  col_index cols c = Some i ->
  iloc0 (mkFrame cols []) c = Raise IndexError.
Proof.
  intro H. unfold iloc0, column. cbn [columns rows]. now rewrite H.
Qed.

(** The counties of a frame: the groups of its county column. *)
Lemma county_groups (df : DataFrame) (c : nat) :
  col_index (columns df) "COUNTY" = Some c ->
  let l := map (fun r : row => (cell_at c r, tt)) (rows df) in
  let ks := map fst (groups l) in
  map (fun g : value * list unit =>
         (fst g, VInt (Z.of_nat (length (snd g))))) (groups l)
  = map (fun k => (k, VInt (Z.of_nat (companies_in df k)))) ks /\
  Forall (fun k => Value.isna k = false /\ 1 <= companies_in df k) ks /\
  ForallOrdPairs (fun a b => Value.eqb a b = false) ks /\
  (forall r, In r (rows df) -> Value.isna (cell_at c r) = false ->
     exists k, In k ks /\ Value.eqb (cell_at c r) k = true).
Proof.
  intros Hc l ks.
  destruct (groups_spec l) as (Hcont & Hd & Hcov).
  pose proof (groups_keys l) as Hk.
  pose proof (groups_inhabited l) as Hi.
  assert (Hlen : Forall (fun g : value * list unit =>
                           length (snd g) = companies_in df (fst g))
                   (groups l)).
  { eapply Forall_impl; [|exact Hcont]. intros g ->.
    unfold group_of, companies_in. rewrite length_map.
    rewrite (rows_of_index df _ c _ Hc). unfold l.
    rewrite (filter_map (fun kx : value * unit => Value.eqb (fst kx) (fst g))).
    now rewrite length_map. }
  split; [|split; [|split]].
  - unfold ks. rewrite map_map. apply map_ext_in. intros g Hg.
    rewrite Forall_forall in Hlen. now rewrite (Hlen g Hg).
  - unfold ks. apply Forall_map. rewrite Forall_forall in *.
    intros g Hg. split; [now apply Hk|].
    rewrite <- (Hlen g Hg). specialize (Hi g Hg).
    destruct (snd g); [contradiction|cbn; lia].
  - unfold ks, distinct_keys in *. clear - Hd.
    induction Hd as [|a t Ha Ht IH]; cbn [map]; constructor; [|assumption].
    apply Forall_map. exact Ha.
  - intros r Hr Hna.
    destruct (Hcov (cell_at c r, tt)) as (g & Hg & He).
    + unfold l. apply in_map_iff. now exists r.
    + exact Hna.
    + exists (fst g). split; [|exact He]. unfold ks. now apply in_map.
Qed.

End CountyFacts.

Module CountFacts.

Import Agg AggFacts KeyFacts GroupFacts ListFacts CountyFacts.

Lemma cells_of_items (c1 c2 : string) (items : list (value * value)) :
  map snd (rows (frame_of_items c1 c2 items))
  = map (fun kv => [fst kv; snd kv]) items.
Proof.
  unfold frame_of_items. cbn [rows].
  rewrite <- (length_map (fun kv : value * value => [fst kv; snd kv]) items).
  apply NumberFacts.cells_numbered.
Qed.

Lemma length_numbered_map {A B} (f : A -> B) (l : list A) (a : nat) :
  length (combine (seq a (length l)) (map f l)) = length l.
Proof.
  rewrite length_combine, length_seq, length_map. apply Nat.min_id.
Qed.

(** The table of the counties and their numbers of companies. *)
Lemma company_counts_rows (argsort : list pyfloat -> list nat)
  (df : DataFrame) (c : nat) :
  argsort_contract argsort ->
  col_index (columns df) "COUNTY" = Some c ->
  exists cc ks,
    county_company_count argsort df = Ret cc /\
    columns cc = ["COUNTY"; "count"]%string /\
    rows cc
    = combine (seq 0 (length ks))
        (map (fun k => [k; VInt (Z.of_nat (companies_in df k))]) ks) /\
    Forall (fun k => Value.isna k = false /\ 1 <= companies_in df k) ks /\
    ForallOrdPairs (fun a b => Value.eqb a b = false) ks /\
    StronglySorted (fun a b => companies_in df b <= companies_in df a) ks /\
    (forall r, In r (rows df) -> Value.isna (cell_at c r) = false ->
       exists k, In k ks /\ Value.eqb (cell_at c r) k = true).
Proof.
  intros Hsort Hc.
  destruct (county_groups df c Hc) as (E & Hks & Hd & Hcov).
  cbv zeta in E, Hks, Hd, Hcov.
  set (ks0 := map fst (groups (map (fun r : row => (cell_at c r, tt))
                                 (rows df)))) in *.
  set (count_row := fun k => [k; VInt (Z.of_nat (companies_in df k))]).
  unfold county_company_count, column. rewrite Hc.
  cbn [option_map of_option rbind]. rewrite map_map. cbn [snd].
  unfold row in E. rewrite E. clear E.
  set (F := frame_of_items "COUNTY" "count"
              (map (fun k => (k, VInt (Z.of_nat (companies_in df k)))) ks0)).
  assert (HF : map snd (rows F) = map count_row ks0).
  { unfold F. rewrite cells_of_items, map_map. reflexivity. }
  assert (Hnum : Forall (fun r => Value.is_number (cell_at 1 r) = true)
                   (rows F)).
  { apply Forall_forall. intros r Hr.
    assert (Hin : In (snd r) (map snd (rows F))) by now apply in_map.
    rewrite HF in Hin. apply in_map_iff in Hin as (k & Hk & _).
    unfold cell_at. now rewrite <- Hk. }
  destruct (SortFacts.sort_values_rows argsort Hsort F "count" 1 eq_refl Hnum)
    as (sorted & Hs & Hcols & Hperm & Hdesc).
  rewrite Hs. cbn [rbind].
  pose proof (Permutation_map snd Hperm) as Hp. rewrite HF in Hp.
  destruct (Permutation_map_inv count_row ks0 Hp) as (ks & Eks & Pks).
  exists (mkFrame (columns sorted)
            (combine (seq 0 (length (rows sorted))) (map snd (rows sorted)))),
    ks.
  split; [reflexivity|]. cbn [columns rows].
  split; [now rewrite Hcols|]. split; [|split; [|split; [|split]]].
  - pose proof (length_map snd (rows sorted)) as Hlen.
    rewrite Eks, length_map in Hlen.
    replace (length (rows sorted)) with (length ks) by exact Hlen.
    now rewrite Eks.
  - now apply (Permutation_Forall Pks).
  - apply (pairs_perm _ ks0); try assumption.
    intros x y H. now rewrite key_eqb_sym.
  - apply (sorted_map
             (fun c1 c2 : list value =>
                descending (number_of (nth 1 c1 (VFloat NaN)))
                  (number_of (nth 1 c2 (VFloat NaN)))) snd) in Hdesc.
    rewrite Eks in Hdesc. apply sorted_of_map in Hdesc.
    eapply sorted_weaken; [|exact Hdesc].
    intros a b _ _ H. cbn in H. apply desc_counts in H. lia.
  - intros r Hr Hna. destruct (Hcov r Hr Hna) as (k & Hk & He).
    exists k. split; [|exact He]. now apply (Permutation_in _ Pks).
Qed.

End CountFacts.

(** X7.  The table of counties by number of companies: when the frame has
    a county column, the rows of the table are numbered from 0 and hold,
    for a list of counties, the county and the number of rows of the frame
    that are of it.  No county of the list is missing or without a row, no
    two are equal, every row that has a county finds its county in the
    list, and the counties come in descending order of their number. *)
Theorem company_counts (argsort : list pyfloat -> list nat) (df : DataFrame) :
  argsort_contract argsort ->
  has_column df "COUNTY" = true ->
  exists cc ks,
    county_company_count argsort df = Ret cc /\
    rows cc
    = combine (seq 0 (length ks))
        (map (fun k => [k; VInt (Z.of_nat (companies_in df k))]) ks) /\
    Forall (fun k => Value.isna k = false /\ 1 <= companies_in df k) ks /\
    ForallOrdPairs (fun a b => Value.eqb a b = false) ks /\
    StronglySorted (fun a b => companies_in df b <= companies_in df a) ks /\
    (forall r, has_county (columns df) r = true -> In r (rows df) ->
       exists k v, In k ks /\ cell (columns df) r "COUNTY" = Some v /\
                   Value.eqb v k = true).
Proof.
  intros Hsort Hcol.
  destruct (LoadFacts.has_column_index df _ Hcol) as [c Hc].
  destruct (CountFacts.company_counts_rows argsort df c Hsort Hc)
    as (cc & ks & H1 & _ & H2 & H3 & H4 & H5 & H6).
  exists cc, ks. repeat split; try assumption.
  intros r Hr Hin. unfold has_county, cell in *. rewrite Hc in *.
  cbn [option_map] in *. apply negb_true_iff in Hr.
  destruct (H6 r Hin Hr) as (k & Hk & He). eauto.
Qed.

Lemma company_counts_witness :
  exists cc ks,
    county_company_count Sorts.stable_argsort plain_numbers = Ret cc /\
    rows cc
    = combine (seq 0 (length ks))
        (map (fun k => [k; VInt (Z.of_nat (companies_in plain_numbers k))])
           ks) /\
    Forall (fun k => Value.isna k = false /\
                     1 <= companies_in plain_numbers k) ks /\
    ForallOrdPairs (fun a b => Value.eqb a b = false) ks /\
    StronglySorted (fun a b => companies_in plain_numbers b
                               <= companies_in plain_numbers a) ks /\
    (forall r, has_county (columns plain_numbers) r = true ->
       In r (rows plain_numbers) ->
       exists k v, In k ks /\
                   cell (columns plain_numbers) r "COUNTY" = Some v /\
                   Value.eqb v k = true).
Proof.
  apply (company_counts Sorts.stable_argsort plain_numbers).
  - exact SortsFacts.stable_argsort_contract.
  - reflexivity.
Defined.


Module TopCountyFacts.

Import Agg AggFacts KeyFacts GroupFacts ListFacts CountyFacts.

Lemma numbered_in {A} (l : list A) (a : nat) (x : A) :
  In x l -> exists i, In (i, x) (combine (seq a (length l)) l).
Proof.
  revert a. induction l as [|y t IH]; intros a H; [destruct H|].
  cbn [length seq combine]. destruct H as [->|H].
  - exists a. now left.
  - destruct (IH (S a) H) as [i Hi]. exists i. now right.
Qed.

(** A county with a row is a county of some row that has a county. *)
Lemma county_with_row (df : DataFrame) (c : nat) (k : value) :
  col_index (columns df) "COUNTY" = Some c ->
  1 <= companies_in df k ->
  exists r, In r (rows df) /\ Value.eqb (cell_at c r) k = true /\
            Value.isna (cell_at c r) = false.
Proof.
  intros Hc H. unfold companies_in in H. rewrite (rows_of_index df _ c _ Hc) in H.
  destruct (filter _ (rows df)) as [|r t] eqn:E; [cbn in H; lia|].
  assert (Hr : In r (filter (fun r => Value.eqb (cell_at c r) k) (rows df)))
    by (rewrite E; now left).
  apply filter_In in Hr as [Hr He]. exists r. repeat split; try assumption.
  destruct (Value.isna (cell_at c r)) eqn:N; [|reflexivity].
  now rewrite (key_eqb_missing _ k N) in He.
Qed.

End TopCountyFacts.

(** X8.  The county shown as the one with the most companies: when the
    frame has a county column and a row with a county, the renamed counts
    table is sorted, its first row is read without an exception, and it
    holds a county that is not missing with the number of rows of the
    frame that are of it; no county has more rows. *)
Theorem top_county_by_companies (argsort : list pyfloat -> list nat)
  (df : DataFrame) :
  argsort_contract argsort ->
  has_column df "COUNTY" = true ->
  existsb (has_county (columns df)) (rows df) = true ->
  exists cc sorted county,
    county_company_count argsort df = Ret cc /\
    sort_values argsort
      (mkFrame ["COUNTY"; "NUM_COMPANIES"]%string (rows cc)) "NUM_COMPANIES"
    = Ret sorted /\
    iloc0 (head 1 sorted) "COUNTY" = Ret county /\
    iloc0 (head 1 sorted) "NUM_COMPANIES"
    = Ret (VInt (Z.of_nat (companies_in df county))) /\
    Value.isna county = false /\
    forall k, companies_in df k <= companies_in df county.
Proof.
  intros Hsort Hcol Hsome.
  destruct (LoadFacts.has_column_index df _ Hcol) as [c Hc].
  destruct (CountFacts.company_counts_rows argsort df c Hsort Hc)
    as (cc & ks & Hcc & _ & Hrows & Hks & _ & _ & Hcov).
  set (count_row := fun k => [k; VInt (Z.of_nat (companies_in df k))]) in *.
  set (t := mkFrame ["COUNTY"; "NUM_COMPANIES"]%string (rows cc)).
  assert (Hcells : forall r, In r (rows cc) ->
            exists k, In k ks /\ snd r = count_row k).
  { intros [i cells] Hr. rewrite Hrows in Hr. apply in_combine_r in Hr.
    apply in_map_iff in Hr as (k & Hk & Hin). exists k. auto. }
  assert (Hnum : Forall (fun r => Value.is_number (cell_at 1 r) = true)
                   (rows t)).
  { apply Forall_forall. intros r Hr. destruct (Hcells r Hr) as (k & _ & E).
    unfold cell_at. now rewrite E. }
  assert (Hne : rows t <> []).
  { apply existsb_exists in Hsome as (r & Hr & Hhas).
    unfold has_county, cell in Hhas. rewrite Hc in Hhas.
    cbn [option_map] in Hhas. apply negb_true_iff in Hhas.
    destruct (Hcov r Hr Hhas) as (k & Hk & _).
    cbn [t rows]. rewrite Hrows.
    destruct ks; [destruct Hk|]. cbn [length seq combine map].
    discriminate. }
  destruct (CountyFacts.first_of_sorted argsort t "NUM_COMPANIES"%string 1 Hsort eq_refl Hnum Hne)
    as (sorted & r0 & Hs & _ & Hhead & Hr0 & Hmax).
  destruct (Hcells r0 Hr0) as (k0 & Hk0 & E0).
  exists cc, sorted, k0. rewrite Hhead. cbn [t columns].
  split; [exact Hcc|]. split; [exact Hs|].
  rewrite (CountyFacts.iloc0_first ["COUNTY"; "NUM_COMPANIES"]%string r0
             "COUNTY"%string 0 eq_refl).
  rewrite (CountyFacts.iloc0_first ["COUNTY"; "NUM_COMPANIES"]%string r0
             "NUM_COMPANIES"%string 1 eq_refl).
  unfold cell_at. rewrite E0. cbn [count_row nth].
  split; [reflexivity|]. split; [reflexivity|].
  rewrite Forall_forall in Hks. split; [now apply Hks|].
  intro k. destruct (companies_in df k) as [|n] eqn:En; [lia|].
  rewrite <- En.
  destruct (TopCountyFacts.county_with_row df c k Hc) as (r & Hr & He & Hna);
    [lia|].
  destruct (Hcov r Hr Hna) as (k' & Hk' & He').
  assert (Ek : Value.eqb k k' = true).
  { rewrite KeyFacts.key_eqb_sym in He.
    exact (KeyFacts.key_eqb_trans _ _ _ He He'). }
  unfold companies_in at 1.
  rewrite (CountyFacts.rows_of_equal_keys df _ k k' Ek).
  fold (companies_in df k').
  apply (in_map count_row) in Hk'.
  destruct (TopCountyFacts.numbered_in _ 0 _ Hk') as [i Hi].
  rewrite length_map, <- Hrows in Hi.
  rewrite Forall_forall in Hmax. specialize (Hmax _ Hi).
  unfold cell_at in Hmax. rewrite E0 in Hmax. cbn in Hmax.
  apply CountyFacts.desc_counts in Hmax. lia.
Qed.

Lemma top_county_by_companies_witness :
  exists cc sorted county,
    county_company_count Sorts.stable_argsort plain_numbers = Ret cc /\
    sort_values Sorts.stable_argsort
      (mkFrame ["COUNTY"; "NUM_COMPANIES"]%string (rows cc)) "NUM_COMPANIES"
    = Ret sorted /\
    iloc0 (head 1 sorted) "COUNTY" = Ret county /\
    iloc0 (head 1 sorted) "NUM_COMPANIES"
    = Ret (VInt (Z.of_nat (companies_in plain_numbers county))) /\
    Value.isna county = false /\
    forall k, companies_in plain_numbers k <= companies_in plain_numbers county.
Proof.
  apply (top_county_by_companies Sorts.stable_argsort plain_numbers).
  - exact SortsFacts.stable_argsort_contract.
  - reflexivity.
  - reflexivity.
Defined.


(** X9.  When the frame has a county column and no row has a county, the
    counts table has no rows, and reading the first row of the sorted
    table raises [IndexError]. *)
Theorem no_county_index_error (argsort : list pyfloat -> list nat)
  (df : DataFrame) :
  argsort_contract argsort ->
  has_column df "COUNTY" = true ->
  existsb (has_county (columns df)) (rows df) = false ->
  exists cc sorted,
    county_company_count argsort df = Ret cc /\
    rows cc = [] /\
    sort_values argsort
      (mkFrame ["COUNTY"; "NUM_COMPANIES"]%string (rows cc)) "NUM_COMPANIES"
    = Ret sorted /\
    iloc0 (head 1 sorted) "COUNTY" = Raise IndexError.
Proof.
  intros Hsort Hcol Hnone.
  destruct (LoadFacts.has_column_index df _ Hcol) as [c Hc].
  destruct (CountFacts.company_counts_rows argsort df c Hsort Hc)
    as (cc & ks & Hcc & _ & Hrows & Hks & _).
  assert (E : ks = []).
  { destruct ks as [|k t]; [reflexivity|]. exfalso.
    inversion Hks as [|? ? [_ H1] _]; subst.
    destruct (TopCountyFacts.county_with_row df c k Hc H1)
      as (r & Hr & _ & Hna).
    assert (Hex : existsb (has_county (columns df)) (rows df) = true).
    { apply existsb_exists. exists r. split; [assumption|].
      unfold has_county, cell. rewrite Hc. cbn [option_map].
      now rewrite Hna. }
    congruence. }
  subst ks. cbn in Hrows.
  destruct (CountyFacts.sort_no_rows argsort ["COUNTY"; "NUM_COMPANIES"]%string
              "NUM_COMPANIES"%string 1 Hsort eq_refl)
    as (sorted & Hs & Hcols & Hr).
  exists cc, sorted. rewrite Hrows.
  split; [exact Hcc|]. split; [reflexivity|]. split; [exact Hs|].
  unfold head. rewrite Hr, Hcols. cbn [firstn].
  apply (CountyFacts.iloc0_no_rows _ _ 0). reflexivity.
Qed.

Lemma no_county_index_error_witness :
  exists cc sorted,
    county_company_count Sorts.stable_argsort no_county = Ret cc /\
    rows cc = [] /\
    sort_values Sorts.stable_argsort
      (mkFrame ["COUNTY"; "NUM_COMPANIES"]%string (rows cc)) "NUM_COMPANIES"
    = Ret sorted /\
    iloc0 (head 1 sorted) "COUNTY" = Raise IndexError.
Proof.
  apply (no_county_index_error Sorts.stable_argsort no_county).
  - exact SortsFacts.stable_argsort_contract.
  - reflexivity.
  - reflexivity.
Defined.


Module EmployeeFacts.

Import Agg AggFacts KeyFacts GroupFacts ListFacts CountyFacts.

Lemma select_county_employees (df : DataFrame) (c e : nat) :
  col_index (columns df) "COUNTY" = Some c ->
  col_index (columns df) "EMPLOYEES" = Some e ->
  select df ["COUNTY"; "EMPLOYEES"]%string
  = Some (mkFrame ["COUNTY"; "EMPLOYEES"]%string
            (map (fun r => (fst r, [cell_at c r; cell_at e r])) (rows df))).
Proof.
  intros Hc He. unfold select. cbn [indices]. rewrite Hc, He. reflexivity.
Qed.

Lemma number_in_index (cols : list string) (c : string) (i : nat) (r : row) :
  col_index cols c = Some i ->
  number_in cols c r = number_of (cell_at i r).
Proof.
  intro H. unfold number_in, number_at, number_of, cell. now rewrite H.
Qed.

Lemma employees_in_index (df : DataFrame) (c e : nat) (k : value) :
  col_index (columns df) "COUNTY" = Some c ->
  col_index (columns df) "EMPLOYEES" = Some e ->
  employees_in df k = nansum (group_of k (keyed c e (rows df))).
Proof.
  intros Hc He. unfold employees_in.
  rewrite GroupByFacts.group_of_keyed, (rows_of_index df _ c _ Hc).
  f_equal. apply map_ext. intro r. now apply number_in_index.
Qed.

Lemma numbered_rows {A} (P : A -> row -> Prop) (f : A -> list value)
  (l : list A) (a : nat) :
  (forall x i, P x (i, f x)) ->
  Forall2 P l (combine (seq a (length l)) (map f l)).
Proof.
  intro H. revert a.
  induction l as [|x t IH]; intro a; cbn [length seq combine map];
    constructor; auto.
Qed.

(** The table of the counties and their employees. *)
Lemma county_data_rows (df : DataFrame) (c e : nat) :
  col_index (columns df) "COUNTY" = Some c ->
  col_index (columns df) "EMPLOYEES" = Some e ->
  Forall (fun r => Value.is_number (cell_at e r) = true) (rows df) ->
  exists cd ks,
    county_data df = Ret cd /\
    columns cd = ["COUNTY"; "EMPLOYEES"]%string /\
    rows cd
    = combine (seq 0 (length ks))
        (map (fun k => [k; VFloat (employees_in df k)]) ks) /\
    Forall (fun k => Value.isna k = false /\ 1 <= companies_in df k) ks /\
    ForallOrdPairs (fun a b => Value.eqb a b = false) ks /\
    (forall r, In r (rows df) -> Value.isna (cell_at c r) = false ->
       exists k, In k ks /\ Value.eqb (cell_at c r) k = true).
Proof.
  intros Hc He Hn.
  set (sub := mkFrame ["COUNTY"; "EMPLOYEES"]%string
                (map (fun r => (fst r, [cell_at c r; cell_at e r]))
                   (rows df))).
  assert (Hsub : Forall (fun r => Value.is_number (cell_at 1 r) = true)
                   (rows sub)).
  { unfold sub. cbn [rows]. apply Forall_map.
    eapply Forall_impl; [|exact Hn]. intros r H. exact H. }
  pose proof (groupby_rows nansum sub "COUNTY" "EMPLOYEES" 0 1
                eq_refl eq_refl Hsub) as Hg.
  assert (Ek : keyed 0 1 (rows sub) = keyed c e (rows df)).
  { unfold sub, keyed. cbn [rows]. now rewrite map_map. }
  rewrite Ek in Hg. clear Ek Hsub.
  set (l := keyed c e (rows df)) in *.
  destruct (groups_spec l) as (Hcont & Hd & Hcov).
  pose proof (groups_keys l) as Hk.
  pose proof (groups_inhabited l) as Hi.
  set (ks := map fst (groups l)).
  assert (Eitems : map (fun g : value * list pyfloat =>
                          (fst g, nansum (snd g))) (groups l)
                   = map (fun k => (k, employees_in df k)) ks).
  { unfold ks. rewrite map_map. apply map_ext_in. intros g Hin.
    rewrite Forall_forall in Hcont.
    rewrite (employees_in_index df c e _ Hc He).
    fold l. now rewrite <- (Hcont g Hin). }
  rewrite Eitems in Hg.
  unfold county_data. rewrite (select_county_employees df c e Hc He).
  cbn [of_option rbind]. fold sub. rewrite Hg. cbn [rbind].
  eexists. exists ks. split; [reflexivity|].
  unfold frame_of_items, float_items. cbn [columns rows].
  split; [reflexivity|]. split; [|split; [|split]].
  - rewrite !length_map, !map_map. reflexivity.
  - unfold ks. apply Forall_map. rewrite Forall_forall in *.
    intros g Hin. split; [now apply Hk|].
    unfold companies_in. rewrite (rows_of_index df _ c _ Hc).
    specialize (Hi g Hin). rewrite (Hcont g Hin) in Hi.
    unfold l in Hi. rewrite GroupByFacts.group_of_keyed in Hi.
    destruct (filter _ (rows df)); [now contradiction Hi|cbn; lia].
  - unfold ks, distinct_keys in *. clear - Hd.
    induction Hd as [|a t Ha Ht IH]; cbn [map]; constructor; [|assumption].
    apply Forall_map. exact Ha.
  - intros r Hr Hna.
    destruct (Hcov (cell_at c r, number_of (cell_at e r))) as (g & Hg' & Heq).
    + unfold l, keyed. apply in_map_iff. now exists r.
    + exact Hna.
    + exists (fst g). split; [|exact Heq]. unfold ks. now apply in_map.
Qed.

End EmployeeFacts.

(** X10.  The table of counties by employees of a cleaned Table: its rows
    are numbered from 0 and hold, for a list of counties, the county and
    the sum of the employees of the rows of the Table that are of it.  No
    county of the list is missing or without a row, no two are equal, and
    every row that has a county finds its county in the list. *)
Theorem county_employee_totals (df : DataFrame) :
  cleaned df ->
  exists cd ks,
    county_data df = Ret cd /\
    map fst (rows cd) = seq 0 (length ks) /\
    Forall2 (fun k r =>
               cell_at 0 r = k /\
               Value.as_number (cell_at 1 r) = Some (employees_in df k))
      ks (rows cd) /\
    Forall (fun k => Value.isna k = false /\ 1 <= companies_in df k) ks /\
    ForallOrdPairs (fun a b => Value.eqb a b = false) ks /\
    (forall r, has_county (columns df) r = true -> In r (rows df) ->
       exists k v, In k ks /\ cell (columns df) r "COUNTY" = Some v /\
                   Value.eqb v k = true).
Proof.
  intro Hcl.
  destruct (TableFacts.cleaned_invariant df Hcl)
    as (_ & _ & (e & He & Hn) & _ & _ & Hcounty).
  destruct (LoadFacts.has_column_index df _ Hcounty) as [c Hc].
  destruct (EmployeeFacts.county_data_rows df c e Hc He Hn)
    as (cd & ks & H1 & _ & H2 & H3 & H4 & H5).
  exists cd, ks. split; [exact H1|]. rewrite H2.
  split; [|split; [|split; [assumption|split; [assumption|]]]].
  - rewrite <- (length_map (fun k => [k; VFloat (employees_in df k)]) ks).
    apply NumberFacts.labels_numbered.
  - apply EmployeeFacts.numbered_rows. intros k i. split; reflexivity.
  - intros r Hr Hin. unfold has_county, cell in *. rewrite Hc in *.
    cbn [option_map] in *. apply negb_true_iff in Hr.
    destruct (H5 r Hin Hr) as (k & Hk & Heq). eauto.
Qed.

Lemma county_employee_totals_witness :
  exists cd ks,
    county_data table_A = Ret cd /\
    map fst (rows cd) = seq 0 (length ks) /\
    Forall2 (fun k r =>
               cell_at 0 r = k /\
               Value.as_number (cell_at 1 r) = Some (employees_in table_A k))
      ks (rows cd) /\
    Forall (fun k => Value.isna k = false /\ 1 <= companies_in table_A k) ks /\
    ForallOrdPairs (fun a b => Value.eqb a b = false) ks /\
    (forall r, has_county (columns table_A) r = true -> In r (rows table_A) ->
       exists k v, In k ks /\ cell (columns table_A) r "COUNTY" = Some v /\
                   Value.eqb v k = true).
Proof.
  apply (county_employee_totals table_A).
  exists scenario_A, init, 1%nat, (snd (load_data (Readable scenario_A) init)).
  repeat split; vm_compute; reflexivity.
Defined.


(** X11.  The county shown as the one with the most employees: on a
    cleaned Table with a row that has a county, the table of counties by
    employees is sorted, its first row is read without an exception, and it
    holds a county that is not missing with the sum of the employees of
    its rows; the sum of no county with a row comes before it in the
    descending order. *)
Theorem top_county_by_employees (argsort : list pyfloat -> list nat)
  (df : DataFrame) :
  argsort_contract argsort ->
  cleaned df ->
  existsb (has_county (columns df)) (rows df) = true ->
  exists cd sorted county total,
    county_data df = Ret cd /\
    sort_values argsort cd "EMPLOYEES" = Ret sorted /\
    iloc0 (head 1 sorted) "COUNTY" = Ret county /\
    iloc0 (head 1 sorted) "EMPLOYEES" = Ret total /\
    Value.as_number total = Some (employees_in df county) /\
    Value.isna county = false /\
    forall k, 1 <= companies_in df k ->
      descending (employees_in df county) (employees_in df k).
Proof.
  intros Hsort Hcl Hsome.
  destruct (TableFacts.cleaned_invariant df Hcl)
    as (_ & _ & (e & He & Hn) & _ & _ & Hcounty).
  destruct (LoadFacts.has_column_index df _ Hcounty) as [c Hc].
  destruct (EmployeeFacts.county_data_rows df c e Hc He Hn)
    as (cd & ks & Hcd & Hcols & Hrows & Hks & _ & Hcov).
  set (total_row := fun k => [k; VFloat (employees_in df k)]) in *.
  assert (Hcells : forall r, In r (rows cd) ->
            exists k, In k ks /\ snd r = total_row k).
  { intros [i cells] Hr. rewrite Hrows in Hr. apply in_combine_r in Hr.
    apply in_map_iff in Hr as (k & Hk & Hin). exists k. auto. }
  assert (Hnum : Forall (fun r => Value.is_number (cell_at 1 r) = true)
                   (rows cd)).
  { apply Forall_forall. intros r Hr. destruct (Hcells r Hr) as (k & _ & E).
    unfold cell_at. now rewrite E. }
  assert (Hne : rows cd <> []).
  { apply existsb_exists in Hsome as (r & Hr & Hhas).
    unfold has_county, cell in Hhas. rewrite Hc in Hhas.
    cbn [option_map] in Hhas. apply negb_true_iff in Hhas.
    destruct (Hcov r Hr Hhas) as (k & Hk & _). rewrite Hrows.
    destruct ks; [destruct Hk|]. cbn [length seq combine map].
    discriminate. }
  assert (Hv : col_index (columns cd) "EMPLOYEES" = Some 1)
    by now rewrite Hcols.
  destruct (CountyFacts.first_of_sorted argsort cd "EMPLOYEES"%string 1
              Hsort Hv Hnum Hne)
    as (sorted & r0 & Hs & _ & Hhead & Hr0 & Hmax).
  destruct (Hcells r0 Hr0) as (k0 & Hk0 & E0).
  exists cd, sorted, k0, (VFloat (employees_in df k0)).
  rewrite Hhead, Hcols.
  split; [exact Hcd|]. split; [exact Hs|].
  rewrite (CountyFacts.iloc0_first ["COUNTY"; "EMPLOYEES"]%string r0
             "COUNTY"%string 0 eq_refl).
  rewrite (CountyFacts.iloc0_first ["COUNTY"; "EMPLOYEES"]%string r0
             "EMPLOYEES"%string 1 eq_refl).
  unfold cell_at. rewrite E0. cbn [total_row nth].
  split; [reflexivity|]. split; [reflexivity|]. split; [reflexivity|].
  rewrite Forall_forall in Hks. split; [now apply Hks|].
  intros k Hk.
  destruct (TopCountyFacts.county_with_row df c k Hc Hk) as (r & Hr & Heq & Hna).
  destruct (Hcov r Hr Hna) as (k' & Hk' & He').
  assert (Ek : Value.eqb k k' = true).
  { rewrite KeyFacts.key_eqb_sym in Heq.
    exact (KeyFacts.key_eqb_trans _ _ _ Heq He'). }
  unfold employees_in at 2.
  rewrite (CountyFacts.rows_of_equal_keys df _ k k' Ek).
  fold (employees_in df k').
  apply (in_map total_row) in Hk'.
  destruct (TopCountyFacts.numbered_in _ 0 _ Hk') as [i Hi].
  rewrite length_map, <- Hrows in Hi.
  rewrite Forall_forall in Hmax. specialize (Hmax _ Hi).
  unfold cell_at in Hmax. rewrite E0 in Hmax. exact Hmax.
Qed.

Lemma top_county_by_employees_witness :
  exists cd sorted county total,
    county_data table_A = Ret cd /\
    sort_values Sorts.stable_argsort cd "EMPLOYEES" = Ret sorted /\
    iloc0 (head 1 sorted) "COUNTY" = Ret county /\
    iloc0 (head 1 sorted) "EMPLOYEES" = Ret total /\
    Value.as_number total = Some (employees_in table_A county) /\
    Value.isna county = false /\
    forall k, 1 <= companies_in table_A k ->
      descending (employees_in table_A county) (employees_in table_A k).
Proof.
  apply (top_county_by_employees Sorts.stable_argsort table_A).
  - exact SortsFacts.stable_argsort_contract.
  - exists scenario_A, init, 1%nat,
      (snd (load_data (Readable scenario_A) init)).
    repeat split; vm_compute; reflexivity.
  - vm_compute. reflexivity.
Defined.


(** ** The report on a state *)

Module ReportFacts.

Import Agg AggFacts ListFacts CountyFacts.

(** An aggregate of a numeric column. *)
Lemma column_agg_numeric (f : list pyfloat -> pyfloat) (df : DataFrame)
  (c : string) (i : nat) :
  col_index (columns df) c = Some i ->
  Forall (fun r => Value.is_number (cell_at i r) = true) (rows df) ->
  column_agg f df c
  = Ret (f (map (fun r => number_of (cell_at i r)) (rows df))).
Proof.
  intros Hi Hn. unfold column_agg, column. rewrite Hi.
  cbn [option_map of_option rbind]. rewrite map_map. cbn [snd].
  rewrite numbers_numeric by (apply Forall_map; exact Hn).
  cbn [of_option rbind]. now rewrite map_map.
Qed.

Lemma apply_rows_all (f : row -> result value) (P : value -> Prop)
  (rs : list row) :
  Forall (fun r => exists v, f r = Ret v /\ P v) rs ->
  exists s,
    apply_rows f rs = Ret s /\
    map fst s = map fst rs /\
    Forall P (map snd s).
Proof.
  induction 1 as [|r t (v & Hv & Pv) Ht (s & Hs & Hl & HP)];
    cbn [apply_rows].
  - exists []. repeat split. constructor.
  - rewrite Hv, Hs. cbn [rbind]. eexists. split; [reflexivity|].
    cbn [map fst snd]. split; [now rewrite Hl|now constructor].
Qed.

(** The margin of a row whose revenue and profit are numbers is a number. *)
Lemma profit_margin_number (cols : list string) (r : row) (i j : nat) :
  col_index cols "REVENUES" = Some i ->
  col_index cols "PROFIT" = Some j ->
  Value.is_number (cell_at i r) = true ->
  Value.is_number (cell_at j r) = true ->
  exists v, profit_margin cols r = Ret v /\ Value.is_number v = true.
Proof.
  intros Hi Hj Ni Nj. unfold profit_margin, cell. rewrite Hi, Hj.
  cbn [option_map of_option rbind].
  destruct (MarginFacts.number_of_numeric _ Ni) as [x Hx].
  destruct (MarginFacts.number_of_numeric _ Nj) as [y Hy].
  rewrite (MarginFacts.ne_zero_number _ x Hx).
  destruct (PyFloat.is_zero x) eqn:Z; cbn [negb].
  - eexists. split; reflexivity.
  - unfold py_truediv. rewrite Hx, Hy, Z. cbn [rbind].
    unfold py_mul. cbn [Value.as_number]. eexists. split; reflexivity.
Qed.

Lemma col_index_bound (cols : list string) (c : string) (i : nat) :
  col_index cols c = Some i -> i < length cols.
Proof.
  intro H. apply col_index_nth in H. apply nth_error_Some. congruence.
Qed.

(** Assigning a column to a rectangular frame: the column holds the cells
    assigned, the other columns are as they were, and so are the labels. *)
Lemma set_column_cells (sd : DataFrame) (c : string) (vals : list value) :
  rectangular sd ->
  length vals = length (rows sd) ->
  exists j,
    col_index (columns (set_column sd c vals)) c = Some j /\
    map (cell_at j) (rows (set_column sd c vals)) = vals /\
    map fst (rows (set_column sd c vals)) = map fst (rows sd) /\
    (forall c' i, c' <> c -> col_index (columns sd) c' = Some i ->
       col_index (columns (set_column sd c vals)) c' = Some i /\
       map (cell_at i) (rows (set_column sd c vals))
       = map (cell_at i) (rows sd)).
Proof.
  intros Hrect Hlen. unfold set_column.
  destruct (col_index (columns sd) c) as [j|] eqn:Ej; cbn [columns rows].
  - exists j. split; [exact Ej|].
    pose proof (col_index_bound _ _ _ Ej) as Hj.
    unfold rectangular in Hrect. revert vals Hlen.
    induction Hrect as [|r t Hr Ht IH]; intros vals Hlen;
      destruct vals as [|v vals]; try discriminate; cbn [combine map].
    + split; [reflexivity|]. split; [reflexivity|]. intros; auto.
    + destruct (IH vals) as (H1 & H2 & H3); [cbn in Hlen; lia|].
      cbn [fst snd]. split; [|split].
      * rewrite H1. f_equal. unfold cell_at. cbn [snd].
        apply nth_replace_same. lia.
      * now rewrite H2.
      * intros c' i Hne Hi. destruct (H3 c' i Hne Hi) as [H4 H5].
        split; [assumption|]. rewrite H5. f_equal.
        unfold cell_at. cbn [snd]. apply nth_replace_other.
        intro; subst i. apply Hne. symmetry.
        eapply col_index_inj; eassumption.
  - exists (length (columns sd)). split; [now apply EmptyFacts.col_index_new|].
    unfold rectangular in Hrect. revert vals Hlen.
    induction Hrect as [|r t Hr Ht IH]; intros vals Hlen;
      destruct vals as [|v vals]; try discriminate; cbn [combine map].
    + split; [reflexivity|]. split; [reflexivity|]. intros c' i _ Hi.
      split; [now apply EmptyFacts.col_index_app|reflexivity].
    + destruct (IH vals) as (H1 & H2 & H3); [cbn in Hlen; lia|].
      cbn [fst snd]. split; [|split].
      * rewrite H1. f_equal. unfold cell_at. cbn [snd].
        rewrite <- Hr. apply nth_middle.
      * now rewrite H2.
      * intros c' i Hne Hi. destruct (H3 c' i Hne Hi) as [H4 H5].
        split; [assumption|]. rewrite H5. f_equal.
        unfold cell_at. cbn [snd]. apply app_nth1.
        rewrite Hr. eapply col_index_bound; eassumption.
Qed.

(** The steps of the report on a state, one by one. *)
Lemma region_steps (df : DataFrame) (state : value) :
  cleaned df -> rectangular df ->
  let sd := mkFrame (columns df) (rows_of df "STATE" state) in
  exists margins,
    state_data df state = Ret sd /\
    profit_margins sd = Ret margins /\
    map fst margins = map fst (rows sd) /\
    let sd' := set_column sd "PROFIT_MARGIN" (map snd margins) in
    avg_profit_margin sd'
    = Ret (mean (map number_of (map snd margins))) /\
    avg_employees sd'
    = Ret (mean (map (number_in (columns df) "EMPLOYEES") (rows sd))) /\
    avg_growth sd'
    = Ret (PyFloat.mul
             (mean (pct_change
                      (map (number_in (columns df) "REVENUES") (rows sd))))
             (PyFloat.of_Z 100)).
Proof.
  intros Hcl Hrect sd.
  destruct (TableFacts.cleaned_invariant df Hcl)
    as ((i & Hi & Ni) & (j & Hj & Nj) & (e & He & Ne) & _ & Hstate & _).
  destruct (LoadFacts.has_column_index df _ Hstate) as [s Hs].
  assert (Hsub : forall r, In r (rows sd) -> In r (rows df)).
  { intros r Hr. unfold sd, rows_of in Hr. cbn [rows] in Hr.
    now apply filter_In in Hr. }
  assert (Hmargin : Forall (fun r => exists v,
                              profit_margin (columns sd) r = Ret v /\
                              Value.is_number v = true) (rows sd)).
  { apply Forall_forall. intros r Hr. apply Hsub in Hr.
    rewrite Forall_forall in Ni, Nj.
    apply (profit_margin_number _ r i j Hi Hj); auto. }
  destruct (apply_rows_all _ _ _ Hmargin) as (margins & Hm & Hl & Hnum).
  exists margins. split; [|split; [exact Hm|split; [exact Hl|]]].
  { unfold state_data. rewrite Hs. cbn [of_option rbind]. unfold sd.
    now rewrite (rows_of_index df _ s _ Hs). }
  intro sd'.
  assert (Hrect' : rectangular sd).
  { unfold rectangular in *. apply Forall_forall. intros r Hr.
    rewrite Forall_forall in Hrect. apply Hrect. now apply Hsub. }
  assert (Hlen : length (map snd margins) = length (rows sd)).
  { pose proof (f_equal (@length _) Hl) as E. rewrite !length_map in E.
    rewrite length_map. exact E. }
  destruct (set_column_cells sd "PROFIT_MARGIN" (map snd margins) Hrect' Hlen)
    as (m & Hm1 & Hm2 & _ & Hother).
  fold sd' in Hm1, Hm2, Hother.
  assert (Hcol : forall c k,
            c <> "PROFIT_MARGIN"%string ->
            col_index (columns df) c = Some k ->
            Forall (fun r => Value.is_number (cell_at k r) = true) (rows df) ->
            forall f, column_agg f sd' c
                      = Ret (f (map (number_in (columns df) c) (rows sd)))).
  { intros c k Hne Hk Nk f.
    destruct (Hother c k Hne Hk) as [Hk' Hcells].
    rewrite (column_agg_numeric f sd' c k Hk').
    - rewrite <- (map_map (cell_at k) number_of), Hcells, map_map.
      do 2 f_equal. apply map_ext. intro r. symmetry.
      now apply EmployeeFacts.number_in_index.
    - apply (proj1 (Forall_map (cell_at k)
                      (fun v => Value.is_number v = true) _)).
      rewrite Hcells. apply Forall_map.
      apply Forall_forall. intros r Hr. rewrite Forall_forall in Nk.
      apply Nk. now apply Hsub. }
  split; [|split].
  - unfold avg_profit_margin. rewrite (column_agg_numeric _ sd' _ m Hm1).
    + now rewrite <- (map_map (cell_at m) number_of), Hm2.
    + apply (proj1 (Forall_map (cell_at m)
                      (fun v => Value.is_number v = true) _)).
      rewrite Hm2. exact Hnum.
  - unfold avg_employees. apply (Hcol _ e); try assumption. discriminate.
  - unfold avg_growth.
    now rewrite (Hcol "REVENUES"%string i ltac:(discriminate) Hi Ni).
Qed.

End ReportFacts.

(** X12.  The report on a state of a cleaned, rectangular Table is
    computed without an exception, whatever the state: there is one margin
    for each row of the state, under the label of the row; the mean margin
    shown is the mean of these margins, and the mean employee count is the
    mean over the rows of the state. *)
Theorem region_report_defined (df : DataFrame) (state : value) :
  cleaned df ->
  rectangular df ->
  exists margins,
    profit_margins (mkFrame (columns df) (rows_of df "STATE" state))
    = Ret margins /\
    map fst margins = map fst (rows_of df "STATE" state) /\
    region_report df state
    = Ret (margins,
           Agg.mean (map number_of (map snd margins)),
           Agg.mean (map (number_in (columns df) "EMPLOYEES")
                       (rows_of df "STATE" state))).
Proof.
  intros Hcl Hrect.
  destruct (ReportFacts.region_steps df state Hcl Hrect)
    as (margins & Hsd & Hmargins & Hl & Hmargin & Hemp & _).
  cbv zeta in Hmargin, Hemp. cbn [rows] in Hl, Hemp.
  exists margins. split; [exact Hmargins|]. split; [exact Hl|].
  unfold region_report. rewrite Hsd. cbn [rbind].
  rewrite Hmargins. cbn [rbind]. cbv zeta.
  rewrite Hmargin. cbn [rbind]. rewrite Hemp. reflexivity.
Qed.

Lemma region_report_defined_witness :
  exists margins,
    profit_margins (mkFrame (columns table_A) (rows_of table_A "STATE"
                                                 (VStr "CA")))
    = Ret margins /\
    map fst margins = map fst (rows_of table_A "STATE" (VStr "CA")) /\
    region_report table_A (VStr "CA")
    = Ret (margins,
           Agg.mean (map number_of (map snd margins)),
           Agg.mean (map (number_in (columns table_A) "EMPLOYEES")
                       (rows_of table_A "STATE" (VStr "CA")))).
Proof.
  apply (region_report_defined table_A (VStr "CA")).
  - exists scenario_A, init, 1%nat,
      (snd (load_data (Readable scenario_A) init)).
    repeat split; vm_compute; reflexivity.
  - repeat constructor.
Defined.

(** X13.  The growth of a frame with at most one row is [NaN]: the first
    row has no row before it to compare with. *)
Theorem growth_needs_two_rows (df : DataFrame) :
  numeric_column df "REVENUES" ->
  length (rows df) <= 1 ->
  avg_growth df = Ret NaN.
Proof.
  intros (v & Hv & Hn) Hlen. unfold avg_growth.
  rewrite (ReportFacts.column_agg_numeric _ df _ v Hv Hn).
  destruct (rows df) as [|r [|r' t]]; [| |cbn in Hlen; lia].
  - reflexivity.
  - cbn [map]. unfold Agg.pct_change. cbn [Agg.ffill].
    destruct (PyFloat.is_nan (number_of (cell_at v r))); reflexivity.
Qed.

Lemma growth_needs_two_rows_witness : avg_growth table_zero_revenue = Ret NaN.
Proof.
  apply (growth_needs_two_rows table_zero_revenue).
  - exists 1. split; [reflexivity|]. repeat constructor.
  - vm_compute. lia.
Defined.


(** ** A run of the script *)

Module RunFacts.

Import Agg AggFacts ListFacts.

Lemma bind_ret {A B} (m : App A) (k : A -> App B) (w w1 : world) (a : A) :
  m w = (Ret a, w1) -> bind m k w = k a w1.
Proof. intro H. unfold bind. now rewrite H. Qed.

Lemma bind_raise {A B} (m : App A) (k : A -> App B) (w w1 : world) (e : exn) :
  m w = (Raise e, w1) -> bind m k w = (Raise e, w1).
Proof. intro H. unfold bind. now rewrite H. Qed.

Lemma lookup_app (h t : list DataFrame) (p p' : list ui_event) (r : ref) :
  r < length h ->
  lookup r (mkWorld (h ++ t) p) = lookup r (mkWorld h p').
Proof. intro H. unfold lookup. cbn [heap]. now apply app_nth1. Qed.

Lemma messages_app (p q : list ui_event) :
  messages (p ++ q) = (messages p ++ messages q)%list.
Proof. unfold messages. apply flat_map_app. Qed.

Lemma getitem_ok (r : ref) (c : string) (s : Series) (w : world) :
  column (lookup r w) c = Some s -> getitem r c w = (Ret s, w).
Proof.
  intro H. unfold getitem, bind, read_frame, or_raise. now rewrite H.
Qed.

Lemma setitem_last (h : list DataFrame) (x : DataFrame) (p : list ui_event)
  (c : string) (s : Series) :
  setitem (length h) c s (mkWorld (h ++ [x]) p)
  = (Ret tt, mkWorld (h ++ [set_column x c (map snd s)]) p).
Proof.
  unfold setitem, bind, read_frame, write_frame. cbn [heap page].
  rewrite LoadFacts.lookup_last.
  now rewrite (LoadFacts.replace_frame_middle h [] x).
Qed.

Ltac prim := erewrite bind_ret; [|reflexivity]; cbv beta zeta; cbn [heap page].

Ltac pure H :=
  erewrite bind_ret; [|unfold lift; rewrite H; reflexivity]; cbv beta zeta;
  cbn [heap page].

Ltac last_frame := rewrite !LoadFacts.lookup_last.

Lemma dashboard_stops_at_map (argsort : list pyfloat -> list nat) (df : ref)
  (wd : widgets) (w : world) :
  argsort_contract argsort ->
  df < length (heap w) ->
  cleaned (lookup df w) ->
  rectangular (lookup df w) ->
  select (lookup df w) ["NAME"; "LATITUDE"; "LONGITUDE"]%string = None ->
  exists msg w',
    dashboard argsort df wd w = (Raise (KeyError msg), w') /\
    messages (page w')
    = (messages (page w) ++
       ["### Total Revenue by State:";
        "### Total Revenue of the Top {} Companies: ${:,.2f}";
        "### Average Revenue by State";
        "### Average Profit Margin for Companies in {}: {:.2f}%";
        "### Average Number of Employees for Companies in {}: {:,.0f}";
        "### Revenue Growth in {} compared to the National Average";
        "State Average Revenue Growth: {:.2f}%";
        "National Average Revenue Growth: {:.2f}%";
        "### Map of Fortune 500 Companies by Location"]%string)%list.
Proof.
  intros Hsort Hdf Hcl Hrect Hsel.
  destruct w as [h p]. cbn [heap page] in *.
  remember (lookup df (mkWorld h p)) as d eqn:Ed.
  destruct (TableFacts.cleaned_invariant d Hcl)
    as ((v & Hv & Hn) & _ & _ & _ & Hstate & _).
  destruct (LoadFacts.has_column_index d _ Hstate) as [s Hs].
  destruct (GroupByFacts.groupby_state_items nansum d "REVENUES" s v Hs Hv Hn)
    as (sums & Hsums & _).
  change (state_revenue_dict d = Ret sums) in Hsums.
  destruct (GroupByFacts.groupby_state_items mean d "REVENUES" s v Hs Hv Hn)
    as (means & Hmeans & _).
  assert (Hpivot : exists pv, pivot_table d = Ret pv).
  { unfold pivot_table. rewrite Hmeans. eexists. reflexivity. }
  destruct Hpivot as [pv Hpivot].
  destruct (TopFacts.top_companies_rows argsort d (slider wd) Hsort Hcl)
    as (sub & sorted & _ & _ & _ & _ & Htop & Htotal).
  assert (Hstates : column d "STATE"
                    = Some (map (fun r => (fst r, cell_at s r)) (rows d))).
  { unfold column. now rewrite Hs. }
  remember (selectbox wd
              (unique (map snd (map (fun r : nat * list value =>
                                         (fst r, cell_at s r))
                                  (rows d))))) as state eqn:Estate.
  destruct (ReportFacts.region_steps d state Hcl Hrect)
    as (margins & Hsd & Hmargins & _ & Hmargin & Hemp & Hgrowth).
  cbv zeta in Hsd, Hmargins, Hmargin, Hemp, Hgrowth.
  pose proof (ReportFacts.column_agg_numeric
                (fun xs => PyFloat.mul (mean (pct_change xs))
                             (PyFloat.of_Z 100)) d "REVENUES" v Hv Hn)
    as Hnational.
  fold (avg_growth d) in Hnational.
  assert (Hold : forall t q, lookup df (mkWorld (h ++ t) q) = d).
  { intros t q. rewrite Ed. now apply lookup_app. }
  eexists. eexists. split.
  - unfold dashboard.
    prim. rewrite <- Ed.
    pure Hsums.
    prim. prim. prim. last_frame. prim.
    prim. rewrite Hold. pure Htop.
    prim. prim. last_frame. pure Htotal.
    prim. prim. last_frame. prim.
    prim. rewrite <- app_assoc, Hold. pure Hpivot.
    prim. prim. prim. last_frame. prim.
    erewrite bind_ret;
      [|apply getitem_ok; rewrite <- !app_assoc, Hold; exact Hstates];
      cbv beta zeta. rewrite <- Estate.
    prim. rewrite <- !app_assoc, Hold. pure Hsd.
    prim. prim. last_frame. pure Hmargins.
    erewrite bind_ret; [|apply setitem_last]; cbv beta zeta.
    prim. last_frame. pure Hmargin.
    prim. prim. last_frame. prim.
    prim. last_frame. pure Hemp.
    prim. prim. last_frame. pure Hgrowth.
    prim. rewrite <- !app_assoc, Hold. pure Hnational.
    prim. prim. prim. prim.
    prim. rewrite <- !app_assoc, Hold. rewrite Hsel.
    erewrite bind_raise; reflexivity.
  - cbn [page]. rewrite !messages_app. cbn [messages flat_map app].
    rewrite <- ?app_assoc. reflexivity.
Qed.

End RunFacts.

(** X14.  A file with the six required columns and without the latitude or
    the longitude column passes the loader's check; when the loader returns
    a Table with a row, the script shows its lines up to the heading of the
    map and then ends in the [KeyError] of the selection of the location
    columns: no map and no county is shown. *)
Theorem missing_location_columns (argsort : list pyfloat -> list nat)
  (parsed : DataFrame) (wd : widgets) (w0 w : world) (df : ref) :
  argsort_contract argsort ->
  missing_columns parsed = [] ->
  rectangular parsed ->
  select parsed ["NAME"; "LATITUDE"; "LONGITUDE"]%string = None ->
  load_data (Readable parsed) w0 = (Ret df, w) ->
  rows (lookup df w) <> [] ->
  exists msg w',
    main argsort (Some (Readable parsed)) wd w0 = (Raise (KeyError msg), w') /\
    messages (page w')
    = (messages (page w) ++
       ["### Total Revenue by State:";
        "### Total Revenue of the Top {} Companies: ${:,.2f}";
        "### Average Revenue by State";
        "### Average Profit Margin for Companies in {}: {:.2f}%";
        "### Average Number of Employees for Companies in {}: {:,.0f}";
        "### Revenue Growth in {} compared to the National Average";
        "State Average Revenue Growth: {:.2f}%";
        "National Average Revenue Growth: {:.2f}%";
        "### Map of Fortune 500 Companies by Location"]%string)%list.
Proof.
  intros Hsort Hm Hrect Hsel Hload Hrows.
  assert (Hcl : cleaned (lookup df w)) by (exists parsed, w0, df, w; auto).
  pose proof (LoadMore.load_data_returns parsed w0 w df Hm Hload) as Hclean.
  destruct (LoadFacts.clean_frame_clean_rows parsed _ Hm Hclean) as [Hcols _].
  assert (Hne : empty (lookup df w) = false).
  { unfold empty. rewrite Hcols.
    destruct (LoadFacts.required_indices parsed Hm) as (i & _ & _ & Hi & _).
    destruct (columns parsed); [discriminate|].
    destruct (rows (lookup df w)); [contradiction|reflexivity]. }
  destruct (RunFacts.dashboard_stops_at_map argsort df wd w Hsort)
    as (msg & w' & Hrun & Hpage).
  - eapply PassFacts.load_data_ref. exact Hload.
  - exact Hcl.
  - eapply LoadMore.table_rectangular; eassumption.
  - unfold select in *. rewrite Hcols.
    destruct (indices (columns parsed) _); [discriminate|reflexivity].
  - exists msg, w'. split; [|exact Hpage].
    unfold main. erewrite RunFacts.bind_ret; [|exact Hload].
    erewrite RunFacts.bind_ret; [|reflexivity].
    rewrite Hne. exact Hrun.
Qed.

Lemma missing_location_columns_witness :
  exists msg w',
    main Sorts.stable_argsort (Some (Readable scenario_A)) default_widgets init
    = (Raise (KeyError msg), w') /\
    messages (page w')
    = (messages (page (snd (load_data (Readable scenario_A) init))) ++
       ["### Total Revenue by State:";
        "### Total Revenue of the Top {} Companies: ${:,.2f}";
        "### Average Revenue by State";
        "### Average Profit Margin for Companies in {}: {:.2f}%";
        "### Average Number of Employees for Companies in {}: {:,.0f}";
        "### Revenue Growth in {} compared to the National Average";
        "State Average Revenue Growth: {:.2f}%";
        "National Average Revenue Growth: {:.2f}%";
        "### Map of Fortune 500 Companies by Location"]%string)%list.
Proof.
  apply (missing_location_columns Sorts.stable_argsort scenario_A
           default_widgets init (snd (load_data (Readable scenario_A) init))
           1).
  - exact SortsFacts.stable_argsort_contract.
  - reflexivity.
  - repeat constructor.
  - reflexivity.
  - vm_compute. reflexivity.
  - vm_compute. discriminate.
Defined.
